(** * The Anycubic Cloud coordinator: connection policy, idle tracking,
      update scheduling and descriptor registration

    A shallow embedding of
    [custom_components/anycubic_ha_integration/coordinator.py]
    (class [AnycubicCloudDataUpdateCoordinator]).

    Conventions of the embedding.
    - Python integers are [Z]; [None]-able attributes are [option].
    - [self._anycubic_printers] is a [dict] iterated with [.items()]: an
      association list in insertion order.
    - [self._unregistered_descriptors] is a dict of dicts of lists that is
      only looked up, overwritten and popped: a [gmap] of [gmap]s.
    - Every [int(time.time())] is one question to the environment: the
      [k]-th reading since the world was created is [time_at env k].
    - What a collaborator (the cloud API client, the Home Assistant core,
      the storage helper) answers or raises is read from the environment
      [Env]; what the coordinator asks of them is appended to a trace.
    - A coroutine is run to completion: [await] is sequencing, and an
      [async with lock] whose lock is free is its body. *)

From stdpp Require Import gmap strings list fin_maps.
From Stdlib Require Import ZArith Lia Bool.

Local Open Scope Z_scope.

(** ** Exceptions *)

(** The exception classes the coordinator raises or catches.
    [CancelledError] stands for the [BaseException]s that are not
    [Exception]s: an [except Exception] clause does not catch it. *)
Inductive exn : Type :=
| ConfigEntryAuthFailed
| ConfigEntryError
| HomeAssistantError
| AnycubicAPIParsingError
| AnycubicAPIError
| UpdateFailed (cause : exn)
| OtherException (tag : Z)
| CancelledError.

Inductive Res (A : Type) : Type :=
| Ok (a : A)
| Raise (e : exn).
Arguments Ok {A} a.
Arguments Raise {A} e.

(** ** Data *)

(** Modelled from the spec: [helpers.AnycubicMQTTConnectMode] is imported
    by the coordinator but is not among the sources; its members are the
    five the coordinator compares against, the spec's ConnectionMode. *)
Inductive AnycubicMQTTConnectMode : Type :=
| Printing_Only
| Printing_Drying
| Device_Online
| Always
| Never_Connect.

Definition mode_eqb (a b : AnycubicMQTTConnectMode) : bool :=
  match a, b with
  | Printing_Only, Printing_Only
  | Printing_Drying, Printing_Drying
  | Device_Online, Device_Online
  | Always, Always
  | Never_Connect, Never_Connect => true
  | _, _ => false
  end.

(** The fields of [AnycubicPrinter] the policy reads. *)
Record AnycubicPrinter : Type := {
  is_busy : bool;
  printer_online : bool;
  primary_drying_status_is_drying : bool;
  secondary_drying_status_is_drying : bool;
  latest_project_print_in_progress : bool;
}.

(** The attributes of the API client the coordinator reads. *)
Record AnycubicAPI : Type := {
  mqtt_is_started : bool;
  supports_mqtt_login : bool;   (* anycubic_auth.supports_mqtt_login *)
}.

(** [homeassistant.core.CoreState]. *)
Inductive CoreState : Type :=
| not_running | starting | running | stopping | final_write | stopped.

Definition CoreState_is (a b : CoreState) : bool :=
  match a, b with
  | not_running, not_running | starting, starting | running, running
  | stopping, stopping | final_write, final_write | stopped, stopped => true
  | _, _ => false
  end.

Record HomeAssistant : Type := {
  is_stopping : bool;
  state : CoreState;
}.

(** The attributes of the coordinator set up in [__init__]; the three
    [asyncio.Lock]s by whether they are held. *)
Record Coordinator : Type := {
  _anycubic_api : option AnycubicAPI;
  _anycubic_printers : list (Z * AnycubicPrinter);
  _last_state_update : option Z;
  _failed_updates : Z;
  _mqtt_task : option nat;
  _mqtt_manually_connected : bool;
  _mqtt_idle_since : option Z;
  _mqtt_last_action : option Z;
  _mqtt_refresh_lock_locked : bool;
  _mqtt_connection_mode : AnycubicMQTTConnectMode;
  _printer_device_map : option (list Z);
}.

Definition set_anycubic_printers (v : list (Z * AnycubicPrinter)) (c : Coordinator) : Coordinator :=
  {| _anycubic_api := _anycubic_api c;
     _anycubic_printers := v;
     _last_state_update := _last_state_update c;
     _failed_updates := _failed_updates c;
     _mqtt_task := _mqtt_task c;
     _mqtt_manually_connected := _mqtt_manually_connected c;
     _mqtt_idle_since := _mqtt_idle_since c;
     _mqtt_last_action := _mqtt_last_action c;
     _mqtt_refresh_lock_locked := _mqtt_refresh_lock_locked c;
     _mqtt_connection_mode := _mqtt_connection_mode c;
     _printer_device_map := _printer_device_map c |}.

Definition set_mqtt_last_action (v : option Z) (c : Coordinator) : Coordinator :=
  {| _anycubic_api := _anycubic_api c;
     _anycubic_printers := _anycubic_printers c;
     _last_state_update := _last_state_update c;
     _failed_updates := _failed_updates c;
     _mqtt_task := _mqtt_task c;
     _mqtt_manually_connected := _mqtt_manually_connected c;
     _mqtt_idle_since := _mqtt_idle_since c;
     _mqtt_last_action := v;
     _mqtt_refresh_lock_locked := _mqtt_refresh_lock_locked c;
     _mqtt_connection_mode := _mqtt_connection_mode c;
     _printer_device_map := _printer_device_map c |}.

Definition set_last_state_update (v : option Z) (c : Coordinator) : Coordinator :=
  {| _anycubic_api := _anycubic_api c;
     _anycubic_printers := _anycubic_printers c;
     _last_state_update := v;
     _failed_updates := _failed_updates c;
     _mqtt_task := _mqtt_task c;
     _mqtt_manually_connected := _mqtt_manually_connected c;
     _mqtt_idle_since := _mqtt_idle_since c;
     _mqtt_last_action := _mqtt_last_action c;
     _mqtt_refresh_lock_locked := _mqtt_refresh_lock_locked c;
     _mqtt_connection_mode := _mqtt_connection_mode c;
     _printer_device_map := _printer_device_map c |}.

Definition set_failed_updates (v : Z) (c : Coordinator) : Coordinator :=
  {| _anycubic_api := _anycubic_api c;
     _anycubic_printers := _anycubic_printers c;
     _last_state_update := _last_state_update c;
     _failed_updates := v;
     _mqtt_task := _mqtt_task c;
     _mqtt_manually_connected := _mqtt_manually_connected c;
     _mqtt_idle_since := _mqtt_idle_since c;
     _mqtt_last_action := _mqtt_last_action c;
     _mqtt_refresh_lock_locked := _mqtt_refresh_lock_locked c;
     _mqtt_connection_mode := _mqtt_connection_mode c;
     _printer_device_map := _printer_device_map c |}.

Definition set_mqtt_task (v : option nat) (c : Coordinator) : Coordinator :=
  {| _anycubic_api := _anycubic_api c;
     _anycubic_printers := _anycubic_printers c;
     _last_state_update := _last_state_update c;
     _failed_updates := _failed_updates c;
     _mqtt_task := v;
     _mqtt_manually_connected := _mqtt_manually_connected c;
     _mqtt_idle_since := _mqtt_idle_since c;
     _mqtt_last_action := _mqtt_last_action c;
     _mqtt_refresh_lock_locked := _mqtt_refresh_lock_locked c;
     _mqtt_connection_mode := _mqtt_connection_mode c;
     _printer_device_map := _printer_device_map c |}.

Definition set_mqtt_idle_since (v : option Z) (c : Coordinator) : Coordinator :=
  {| _anycubic_api := _anycubic_api c;
     _anycubic_printers := _anycubic_printers c;
     _last_state_update := _last_state_update c;
     _failed_updates := _failed_updates c;
     _mqtt_task := _mqtt_task c;
     _mqtt_manually_connected := _mqtt_manually_connected c;
     _mqtt_idle_since := v;
     _mqtt_last_action := _mqtt_last_action c;
     _mqtt_refresh_lock_locked := _mqtt_refresh_lock_locked c;
     _mqtt_connection_mode := _mqtt_connection_mode c;
     _printer_device_map := _printer_device_map c |}.

Definition set_printer_device_map (v : option (list Z)) (c : Coordinator) : Coordinator :=
  {| _anycubic_api := _anycubic_api c;
     _anycubic_printers := _anycubic_printers c;
     _last_state_update := _last_state_update c;
     _failed_updates := _failed_updates c;
     _mqtt_task := _mqtt_task c;
     _mqtt_manually_connected := _mqtt_manually_connected c;
     _mqtt_idle_since := _mqtt_idle_since c;
     _mqtt_last_action := _mqtt_last_action c;
     _mqtt_refresh_lock_locked := _mqtt_refresh_lock_locked c;
     _mqtt_connection_mode := _mqtt_connection_mode c;
     _printer_device_map := v |}.

(** ** The environment and the world *)

(** What the coordinator asks of its collaborators, in program order. *)
Inductive Event : Type :=
| check_api_tokens
| store_async_save
| update_info_from_api (printer_id : Z)
| mqtt_add_subscribed_printer (printer_id : Z)
| connect_mqtt (task : nat)
| mqtt_unsubscribe_printer_status (printer_id : Z)
| disconnect_mqtt
| mqtt_wait_for_disconnect
| mqtt_wait_for_connect
| task_cancel (task : nat)
| register_printer_device (printer_id : Z)
| logger_debug.

(** What the collaborators answer during one call. *)
Record Env : Type := {
  time_at : nat -> Z;
  check_api_tokens_result : Res bool;
  tokens_changed : bool;
  store_async_save_result : Res unit;
  update_info_from_api_result : Z -> Res AnycubicPrinter;
  mqtt_add_subscribed_printer_result : Z -> Res unit;
  async_add_executor_job_connect : nat;
  mqtt_unsubscribe_printer_status_result : Z -> Res unit;
  disconnect_mqtt_result : Res unit;
  mqtt_wait_for_disconnect_result : Res unit;
  mqtt_wait_for_connect_result : Res bool;
  mqtt_task_done : bool;
  CONF_PRINTER_ID_LIST : list Z;
}.

Record World : Type := {
  self : Coordinator;
  hass : HomeAssistant;
  clock : nat;
  trace : list Event;
}.

Definition with_self (c : Coordinator) (w : World) : World :=
  {| self := c; hass := hass w; clock := clock w; trace := trace w |}.

(** ** The monad of coordinator methods *)

Definition M (A : Type) : Type := Env -> World -> Res A * World.

Definition ret {A} (a : A) : M A := fun _ w => (Ok a, w).

Definition bind {A B} (m : M A) (k : A -> M B) : M B :=
  fun env w =>
    match m env w with
    | (Ok a, w') => k a env w'
    | (Raise e, w') => (Raise e, w')
    end.

Definition raise {A} (e : exn) : M A := fun _ w => (Raise e, w).

(** [try: m except e: h e]. *)
Definition try_except {A} (m : M A) (h : exn -> M A) : M A :=
  fun env w =>
    match m env w with
    | (Ok a, w') => (Ok a, w')
    | (Raise e, w') => h e env w'
    end.

Notation "'let*' x ':=' m 'in' k" := (bind m (fun x => k))
  (at level 10, x name, m at level 100, k at level 200).

Definition get_self : M Coordinator := fun _ w => (Ok (self w), w).
Definition get_hass : M HomeAssistant := fun _ w => (Ok (hass w), w).
Definition ask {A} (f : Env -> A) : M A := fun env w => (Ok (f env), w).
Definition modify_self (f : Coordinator -> Coordinator) : M unit :=
  fun _ w => (Ok tt, with_self (f (self w)) w).
Definition emit (ev : Event) : M unit :=
  fun _ w => (Ok tt, {| self := self w; hass := hass w; clock := clock w;
                        trace := trace w ++ [ev] |}).

(** A call to a collaborator: it is recorded, then answers or raises. *)
Definition call {A} (ev : Event) (answer : Env -> Res A) : M A :=
  fun env w =>
    (answer env, {| self := self w; hass := hass w; clock := clock w;
                    trace := trace w ++ [ev] |}).

(** The world after one more reading of the clock. *)
Definition tick (w : World) : World :=
  {| self := self w; hass := hass w; clock := S (clock w); trace := trace w |}.

(** [int(time.time())]. *)
Definition time_time : M Z :=
  fun env w => (Ok (time_at env (clock w)), tick w).

(** [for x in xs: body x]. *)
Fixpoint for_each {A} (xs : list A) (body : A -> M unit) : M unit :=
  match xs with
  | [] => ret tt
  | x :: rest => let* _ := body x in for_each rest body
  end.

(** The [anycubic_api] property. *)
Definition anycubic_api : M AnycubicAPI :=
  let* c := get_self in
  match _anycubic_api c with
  | None => raise ConfigEntryError
  | Some api => ret api
  end.

Section Policy.

(** Constants of [const.py], which is not among the sources. *)
Variable MQTT_ACTION_RESPONSE_ALIVE_SECONDS : Z.
Variable MQTT_IDLE_DISCONNECT_SECONDS : Z.

Definition _any_printers_are_printing (c : Coordinator) : bool :=
  existsb (fun '(printer_id, printer) => is_busy printer) (_anycubic_printers c).

Definition _any_printers_are_drying (c : Coordinator) : bool :=
  existsb (fun '(printer_id, printer) =>
             primary_drying_status_is_drying printer
             || secondary_drying_status_is_drying printer)
          (_anycubic_printers c).

Definition _any_printers_are_online (c : Coordinator) : bool :=
  existsb (fun '(printer_id, printer) => printer_online printer || is_busy printer)
          (_anycubic_printers c).

Definition _no_printers_are_printing (c : Coordinator) : bool :=
  forallb (fun '(printer_id, printer) =>
             negb (is_busy printer)
             && negb (latest_project_print_in_progress printer))
          (_anycubic_printers c).

Definition _check_mqtt_connection_last_action_waiting : M bool :=
  let* c := get_self in
  match _mqtt_last_action c with
  | None => ret false
  | Some last_action =>
      let* now := time_time in
      ret (now <? last_action + MQTT_ACTION_RESPONSE_ALIVE_SECONDS)
  end.

Definition _check_mqtt_connection_modes_active : M bool :=
  let* waiting := _check_mqtt_connection_last_action_waiting in
  let* c := get_self in
  if waiting then ret true
  else if mode_eqb (_mqtt_connection_mode c) Printing_Only
          && _any_printers_are_printing c then ret true
  else if mode_eqb (_mqtt_connection_mode c) Printing_Drying
          && (_any_printers_are_printing c || _any_printers_are_drying c) then ret true
  else if mode_eqb (_mqtt_connection_mode c) Device_Online
          && _any_printers_are_online c then ret true
  else if mode_eqb (_mqtt_connection_mode c) Always then ret true
  else ret false.

Definition _check_mqtt_connection_modes_inactive : M bool :=
  let* waiting := _check_mqtt_connection_last_action_waiting in
  let* c := get_self in
  if waiting then ret false
  else if mode_eqb (_mqtt_connection_mode c) Printing_Only
          && _no_printers_are_printing c then ret true
  else if mode_eqb (_mqtt_connection_mode c) Printing_Drying
          && (_no_printers_are_printing c && negb (_any_printers_are_drying c)) then ret true
  else if mode_eqb (_mqtt_connection_mode c) Device_Online
          && negb (_any_printers_are_online c) then ret true
  else if mode_eqb (_mqtt_connection_mode c) Always then ret false
  else ret false.

(** [a and b] and [a or b] where [b] is a call: [b] runs only when [a]
    does not decide. *)
Definition and_then (a : bool) (b : M bool) : M bool :=
  if a then b else ret false.
Definition or_else (a : bool) (b : M bool) : M bool :=
  if a then ret true else b.

Definition _anycubic_mqtt_connection_should_start : M bool :=
  let* c := get_self in
  let* gate := or_else (mode_eqb (_mqtt_connection_mode c) Never_Connect)
                  (let* api := anycubic_api in ret (negb (supports_mqtt_login api))) in
  if gate then ret false
  else
    let* api := anycubic_api in
    and_then (negb (mqtt_is_started api))
      (let* h := get_hass in
       and_then (negb (is_stopping h))
         (and_then (CoreState_is (state h) running)
            (let* active := _check_mqtt_connection_modes_active in
             or_else active (ret (_mqtt_manually_connected c))))).

Definition _anycubic_mqtt_connection_is_idle : M bool :=
  let* inactive := _check_mqtt_connection_modes_inactive in
  if inactive then
    let* c := get_self in
    let* _ := match _mqtt_idle_since c with
              | None =>
                  let* now := time_time in
                  modify_self (set_mqtt_idle_since (Some now))
              | Some _ => ret tt
              end in
    let* now := time_time in
    let* c := get_self in
    match _mqtt_idle_since c with
    | Some idle_since =>
        if idle_since + MQTT_IDLE_DISCONNECT_SECONDS <? now then
          let* _ := modify_self (set_mqtt_idle_since None) in
          ret true
        else ret false
    | None => raise (OtherException 0) (* None + int is a TypeError; not reached *)
    end
  else
    let* _ := modify_self (set_mqtt_idle_since None) in
    ret false.

Definition _anycubic_mqtt_connection_should_stop : M bool :=
  let* api := anycubic_api in
  and_then (mqtt_is_started api)
    (let* h := get_hass in
     or_else (is_stopping h)
       (let* idle := _anycubic_mqtt_connection_is_idle in
        let* c := get_self in
        and_then idle (ret (negb (_mqtt_manually_connected c))))).

End Policy.


(** ** The connection lifecycle *)

Section Lifecycle.

Variable MQTT_ACTION_RESPONSE_ALIVE_SECONDS : Z.
Variable MQTT_IDLE_DISCONNECT_SECONDS : Z.

Definition _stop_anycubic_mqtt_connection : M unit :=
  let* c := get_self in
  let* _ := for_each (_anycubic_printers c) (fun '(printer_id, printer) =>
              let* api := anycubic_api in
              call (mqtt_unsubscribe_printer_status printer_id)
                   (fun env => mqtt_unsubscribe_printer_status_result env printer_id)) in
  let* api := anycubic_api in
  let* _ := call disconnect_mqtt disconnect_mqtt_result in
  let* api := anycubic_api in
  let* _ := call mqtt_wait_for_disconnect mqtt_wait_for_disconnect_result in
  let* c := get_self in
  let* _ := match _mqtt_task c with
            | Some task =>
                let* done := ask mqtt_task_done in
                if negb done then emit (task_cancel task) else ret tt
            | None => ret tt
            end in
  modify_self (set_mqtt_task None).

Definition _check_anycubic_mqtt_connection (refreshing : bool) : M unit :=
  let* c := get_self in
  if negb refreshing && _mqtt_refresh_lock_locked c then ret tt
  else
    let* start := _anycubic_mqtt_connection_should_start
                    MQTT_ACTION_RESPONSE_ALIVE_SECONDS in
    if start then
      let* c := get_self in
      let* _ := for_each (_anycubic_printers c) (fun '(printer_id, printer) =>
                  let* api := anycubic_api in
                  call (mqtt_add_subscribed_printer printer_id)
                       (fun env => mqtt_add_subscribed_printer_result env printer_id)) in
      let* c := get_self in
      match _mqtt_task c with
      | None =>
          let* _ := emit logger_debug in
          let* api := anycubic_api in
          let* task := ask async_add_executor_job_connect in
          let* _ := emit (connect_mqtt task) in
          modify_self (set_mqtt_task (Some task))
      | Some _ => ret tt
      end
    else
      let* stop := _anycubic_mqtt_connection_should_stop
                     MQTT_ACTION_RESPONSE_ALIVE_SECONDS
                     MQTT_IDLE_DISCONNECT_SECONDS in
      if stop then _stop_anycubic_mqtt_connection else ret tt.

Definition stop_anycubic_mqtt_connection_if_started : M unit :=
  let* c := get_self in
  match _anycubic_api c with
  | Some api =>
      if mqtt_is_started api then _stop_anycubic_mqtt_connection else ret tt
  | None => ret tt
  end.

Definition _connect_mqtt_for_action_response : M unit :=
  let* now := time_time in
  let* _ := modify_self (set_mqtt_last_action (Some now)) in
  let* _ := _check_anycubic_mqtt_connection false in
  let* api := anycubic_api in
  let* connected := call mqtt_wait_for_connect mqtt_wait_for_connect_result in
  if negb connected then raise HomeAssistantError else ret tt.

End Lifecycle.

(** ** The update scheduler *)

Section Scheduler.

Variable MQTT_ACTION_RESPONSE_ALIVE_SECONDS : Z.
Variable MQTT_IDLE_DISCONNECT_SECONDS : Z.
Variable MAX_FAILED_UPDATES : Z.
Variable FAILED_UPDATE_DELAY : Z.
Variable DEFAULT_SCAN_INTERVAL : Z.

Definition _check_or_save_tokens : M unit :=
  let* api := anycubic_api in
  let* success := call check_api_tokens check_api_tokens_result in
  if negb success then raise ConfigEntryAuthFailed
  else
    let* api := anycubic_api in
    let* changed := ask tokens_changed in
    if changed then call store_async_save store_async_save_result else ret tt.

(** [printer.update_info_from_api(True)] rewrites the printer object the
    dict holds under [printer_id]. *)
Definition refresh_printer (printer_id : Z) (printer : AnycubicPrinter)
    (printers : list (Z * AnycubicPrinter)) : list (Z * AnycubicPrinter) :=
  map (fun '(k, old) => if k =? printer_id then (k, printer) else (k, old)) printers.

Definition update_printer (printer_id : Z) : M unit :=
  let* printer := call (update_info_from_api printer_id)
                       (fun env => update_info_from_api_result env printer_id) in
  modify_self (fun c =>
    set_anycubic_printers (refresh_printer printer_id printer (_anycubic_printers c)) c).

Definition increment_failed_updates : M unit :=
  modify_self (fun c => set_failed_updates (_failed_updates c + 1) c).

Definition get_anycubic_updates : M bool :=
  let* c := get_self in
  if MAX_FAILED_UPDATES <=? _failed_updates c then
    let* now := time_time in
    let* _ := modify_self (set_last_state_update (Some (now + FAILED_UPDATE_DELAY))) in
    let* _ := modify_self (set_failed_updates 0) in
    ret false
  else
    let* now := time_time in
    let* _ := modify_self (set_last_state_update (Some now)) in
    let* _ :=
      try_except
        (let* _ := _check_or_save_tokens in
         let* c := get_self in
         let* _ := for_each (_anycubic_printers c)
                     (fun '(printer_id, printer) => update_printer printer_id) in
         let* _ := modify_self (set_failed_updates 0) in
         _check_anycubic_mqtt_connection
           MQTT_ACTION_RESPONSE_ALIVE_SECONDS MQTT_IDLE_DISCONNECT_SECONDS false)
        (fun error =>
           match error with
           | ConfigEntryAuthFailed => raise error
           | AnycubicAPIParsingError =>
               let* _ := increment_failed_updates in
               raise (UpdateFailed error)
           | AnycubicAPIError =>
               let* _ := increment_failed_updates in
               raise (UpdateFailed error)
           | CancelledError => raise error
           | _ =>
               let* _ := emit logger_debug in
               let* _ := increment_failed_updates in
               raise (UpdateFailed error)
           end) in
    let* now := time_time in
    let* _ := modify_self (set_last_state_update (Some now)) in
    ret true.

(** [_build_coordinator_data]: the snapshot handed to the entities. Of the
    dictionary it builds only the printers it was built from are kept;
    building it reads the [anycubic_api] property. *)
Definition _build_coordinator_data : M (list (Z * AnycubicPrinter)) :=
  let* api := anycubic_api in
  let* c := get_self in
  ret (_anycubic_printers c).

(** [_register_printer_devices]: one device-registry entry per configured
    printer; the map is kept as the list of printers registered. *)
Definition _register_printer_devices : M unit :=
  let* _ := modify_self (set_printer_device_map (Some [])) in
  let* ids := ask CONF_PRINTER_ID_LIST in
  for_each ids (fun printer_id =>
    let* _ := emit (register_printer_device printer_id) in
    modify_self (fun c =>
      set_printer_device_map
        (Some (default [] (_printer_device_map c) ++ [printer_id])) c)).

(** [not self._last_state_update]: [None] and [0] are both falsy. *)
Definition falsy (v : option Z) : bool :=
  match v with
  | None => true
  | Some t => t =? 0
  end.

Definition _async_update_data : M (list (Z * AnycubicPrinter)) :=
  let* c := get_self in
  let* due := or_else (falsy (_last_state_update c))
                (let* now := time_time in
                 ret (default 0 (_last_state_update c) + DEFAULT_SCAN_INTERVAL <? now)) in
  let* _ := if due then (let* _ := get_anycubic_updates in ret tt) else ret tt in
  let* data_dict := _build_coordinator_data in
  let* c := get_self in
  let* _ := match _printer_device_map c with
            | None => _register_printer_devices
            | Some _ => ret tt
            end in
  ret data_dict.

End Scheduler.

(** ** The registration engine *)

(** The fields of [AnycubicCloudEntityDescription] the engine reads. *)
Record AnycubicCloudEntityDescription : Type := {
  key : string;
  printer_entity_type : option Z;
}.

(** What [entity_constructor(self.hass, self, printer_id, description)]
    was built from. *)
Definition Entity : Type := (Z * AnycubicCloudEntityDescription)%type.

Section Registration.

(** [self.entry.options]. *)
Variable Options : Type.

(** The capability snapshot of the printers: what
    [printer_attributes_for_key(self, printer_id, 'current_status')],
    [printer_state_connected_ace_units], [printer_state_supports_ace] and
    [self.entry.options] give while the coordinator data is unchanged. A
    missing or empty status dictionary is [None]. *)
Record Capabilities : Type := {
  status_material_type : Z -> option string;
  printer_state_connected_ace_units : Z -> Z;
  printer_state_supports_ace : Z -> bool;
  entry_options : Options;
}.

(** The exclusion predicates of [helpers.py], which is not among the
    sources: any functions of the descriptor and of the capabilities. *)
Variable check_descriptor_status_not_lcd : AnycubicCloudEntityDescription -> string -> bool.
Variable check_descriptor_status_not_fdm : AnycubicCloudEntityDescription -> string -> bool.
Variable check_descriptor_state_ace_not_supported : AnycubicCloudEntityDescription -> bool -> bool.
Variable check_descriptor_state_ace_primary_unavailable :
  AnycubicCloudEntityDescription -> bool -> Z -> bool.
Variable check_descriptor_state_ace_secondary_unavailable :
  AnycubicCloudEntityDescription -> bool -> Z -> bool.
Variable check_descriptor_state_drying_unavailable :
  AnycubicCloudEntityDescription -> bool -> Z -> Options -> bool.

(** The first branch of the loop body: the descriptor is skipped for good. *)
Definition dropped (caps : Capabilities) (printer_id : Z) (material_type : string)
    (description : AnycubicCloudEntityDescription) : bool :=
  check_descriptor_status_not_lcd description material_type
  || check_descriptor_status_not_fdm description material_type
  || check_descriptor_state_ace_not_supported description
       (printer_state_supports_ace caps printer_id).

(** The second branch: the descriptor is kept for a later evaluation. *)
Definition deferred (caps : Capabilities) (printer_id : Z)
    (description : AnycubicCloudEntityDescription) : bool :=
  check_descriptor_state_ace_primary_unavailable description
    (printer_state_supports_ace caps printer_id)
    (printer_state_connected_ace_units caps printer_id)
  || check_descriptor_state_ace_secondary_unavailable description
       (printer_state_supports_ace caps printer_id)
       (printer_state_connected_ace_units caps printer_id)
  || check_descriptor_state_drying_unavailable description
       (printer_state_supports_ace caps printer_id)
       (printer_state_connected_ace_units caps printer_id)
       (entry_options caps).

(** The inner [for description in ...] loop, with the two lists it
    appends to. *)
Fixpoint evaluate_descriptors (caps : Capabilities) (printer_id : Z)
    (material_type : string) (descriptions : list AnycubicCloudEntityDescription)
    (remaining_unregistered_descriptors : list AnycubicCloudEntityDescription)
    (new_entities : list Entity)
  : Res (list AnycubicCloudEntityDescription * list Entity) :=
  match descriptions with
  | [] => Ok (remaining_unregistered_descriptors, new_entities)
  | description :: rest =>
      if dropped caps printer_id material_type description then
        evaluate_descriptors caps printer_id material_type rest
          remaining_unregistered_descriptors new_entities
      else if deferred caps printer_id description then
        evaluate_descriptors caps printer_id material_type rest
          (remaining_unregistered_descriptors ++ [description]) new_entities
      else
        match printer_entity_type description with
        | None => Raise ConfigEntryError
        | Some _ =>
            evaluate_descriptors caps printer_id material_type rest
              remaining_unregistered_descriptors
              (new_entities ++ [(printer_id, description)])
        end
  end.

(** [self._unregistered_descriptors]. *)
Local Abbreviation Pending := (gmap Z (gmap string (list AnycubicCloudEntityDescription))).

(** The body of [for printer_id in self.entry.data[CONF_PRINTER_ID_LIST]]. *)
Definition evaluate_printer (caps : Capabilities) (platform : string)
    (printer_id : Z) (pending : Pending) (new_entities : list Entity)
  : Res (list Entity) * Pending :=
  match pending !! printer_id with
  | None => (Ok new_entities, pending)
  | Some platforms =>
      match platforms !! platform with
      | None => (Ok new_entities, pending)
      | Some descriptions =>
          match status_material_type caps printer_id with
          | None => (Raise ConfigEntryError, pending)
          | Some material_type =>
              match evaluate_descriptors caps printer_id material_type
                      descriptions [] new_entities with
              | Raise e => (Raise e, pending)
              | Ok (remaining_unregistered_descriptors, new_entities') =>
                  let platforms' :=
                    if (0 <? Z.of_nat (length remaining_unregistered_descriptors))
                    then <[platform := remaining_unregistered_descriptors]> platforms
                    else delete platform platforms in
                  let pending' := <[printer_id := platforms']> pending in
                  (Ok new_entities',
                   if (Z.of_nat (size platforms') =? 0)
                   then delete printer_id pending'
                   else pending')
              end
          end
      end
  end.

Fixpoint evaluate_printers (caps : Capabilities) (platform : string)
    (printer_ids : list Z) (pending : Pending) (new_entities : list Entity)
  : Res (list Entity) * Pending :=
  match printer_ids with
  | [] => (Ok new_entities, pending)
  | printer_id :: rest =>
      match evaluate_printer caps platform printer_id pending new_entities with
      | (Ok new_entities', pending') =>
          evaluate_printers caps platform rest pending' new_entities'
      | (Raise e, pending') => (Raise e, pending')
      end
  end.

(** [_add_entities_for_unregistered_descriptors()]: the entities handed to
    [async_add_entities], or the exception that ended the run before the
    hand-over, and the pending map it leaves. *)
Definition _add_entities_for_unregistered_descriptors (caps : Capabilities)
    (platform : string) (printer_ids : list Z) (pending : Pending)
  : Res (list Entity) * Pending :=
  evaluate_printers caps platform printer_ids pending [].

(** The first loop of [add_entities_for_seen_printers]. *)
Definition seen_printers (platform : string)
    (available_descriptors : list AnycubicCloudEntityDescription)
    (printer_ids : list Z) (pending : Pending) : Pending :=
  foldl (fun pending printer_id =>
           <[printer_id := <[platform := available_descriptors]>
                             (default ∅ (pending !! printer_id))]> pending)
        pending printer_ids.

Definition add_entities_for_seen_printers (caps : Capabilities)
    (platform : string)
    (available_descriptors : list AnycubicCloudEntityDescription)
    (printer_ids : list Z) (pending : Pending)
  : Res (list Entity) * Pending :=
  _add_entities_for_unregistered_descriptors caps platform printer_ids
    (seen_printers platform available_descriptors printer_ids pending).

(** The entities a run delivered. *)
Definition promotions (r : Res (list Entity)) : list Entity :=
  match r with
  | Ok new_entities => new_entities
  | Raise _ => []
  end.

End Registration.

(** * Properties *)

(** ** Running the monad *)

Ltac run_m :=
  cbv [bind ret raise try_except get_self get_hass ask modify_self emit call
       time_time anycubic_api and_then or_else with_self] in *; cbn in *.

(** ** The policy evaluator *)

(** A user action was recorded and the reading taken now is strictly less
    than the grace window after it. *)
Definition action_within_grace (grace : Z) (env : Env) (w : World) : Prop :=
  exists last_action,
    _mqtt_last_action (self w) = Some last_action
    /\ time_at env (clock w) < last_action + grace.

Definition some_printer (P : AnycubicPrinter -> Prop) (c : Coordinator) : Prop :=
  exists printer_id printer, In (printer_id, printer) (_anycubic_printers c) /\ P printer.

Definition busy (p : AnycubicPrinter) : Prop := is_busy p = true.
Definition drying (p : AnycubicPrinter) : Prop :=
  primary_drying_status_is_drying p = true \/ secondary_drying_status_is_drying p = true.
Definition online_or_busy (p : AnycubicPrinter) : Prop :=
  printer_online p = true \/ is_busy p = true.

(** The activity predicate of each mode, in the words of the specification. *)
Definition mode_activity (mode : AnycubicMQTTConnectMode) (c : Coordinator) : Prop :=
  match mode with
  | Printing_Only => some_printer busy c
  | Printing_Drying => some_printer busy c \/ some_printer drying c
  | Device_Online => some_printer online_or_busy c
  | Always => True
  | Never_Connect => False
  end.

Lemma any_printers_are_printing_spec c :
  _any_printers_are_printing c = true <-> some_printer busy c.
Proof.
  unfold _any_printers_are_printing, some_printer, busy.
  rewrite existsb_exists. split.
  - intros [[i p] [Hin Hp]]. exists i, p. auto.
  - intros (i & p & Hin & Hp). exists (i, p). auto.
Qed.

Lemma any_printers_are_drying_spec c :
  _any_printers_are_drying c = true <-> some_printer drying c.
Proof.
  unfold _any_printers_are_drying, some_printer, drying.
  rewrite existsb_exists. split.
  - intros [[i p] [Hin Hp]]. exists i, p. split; [done|]. by apply orb_true_iff.
  - intros (i & p & Hin & Hp). exists (i, p). split; [done|]. by apply orb_true_iff.
Qed.

Lemma any_printers_are_online_spec c :
  _any_printers_are_online c = true <-> some_printer online_or_busy c.
Proof.
  unfold _any_printers_are_online, some_printer, online_or_busy.
  rewrite existsb_exists. split.
  - intros [[i p] [Hin Hp]]. exists i, p. split; [done|]. by apply orb_true_iff.
  - intros (i & p & Hin & Hp). exists (i, p). split; [done|]. by apply orb_true_iff.
Qed.

(** The mode predicate the source evaluates, as one boolean. *)
Definition mode_activity_b (mode : AnycubicMQTTConnectMode) (c : Coordinator) : bool :=
  match mode with
  | Printing_Only => _any_printers_are_printing c
  | Printing_Drying => _any_printers_are_printing c || _any_printers_are_drying c
  | Device_Online => _any_printers_are_online c
  | Always => true
  | Never_Connect => false
  end.

Lemma mode_activity_b_spec mode c :
  mode_activity_b mode c = true <-> mode_activity mode c.
Proof.
  destruct mode; cbn.
  - apply any_printers_are_printing_spec.
  - rewrite orb_true_iff, any_printers_are_printing_spec, any_printers_are_drying_spec.
    reflexivity.
  - apply any_printers_are_online_spec.
  - tauto.
  - split; [discriminate | tauto].
Qed.

(** Outside the grace window the waiting check answers no; it only reads
    the clock. *)
Lemma last_action_waiting_outside grace env w :
  ~ action_within_grace grace env w ->
  exists w', _check_mqtt_connection_last_action_waiting grace env w = (Ok false, w')
             /\ self w' = self w /\ hass w' = hass w /\ trace w' = trace w.
Proof.
  intros Hno. unfold _check_mqtt_connection_last_action_waiting. run_m.
  destruct (_mqtt_last_action (self w)) as [la|] eqn:Hla; cbn.
  - exists (tick w). split; [|done].
    f_equal. f_equal. apply Z.ltb_ge.
    destruct (Z.lt_ge_cases (time_at env (clock w)) (la + grace)); [|lia].
    exfalso. apply Hno. exists la. auto.
  - by exists w.
Qed.

Lemma last_action_waiting_inside grace env w :
  action_within_grace grace env w ->
  exists w', _check_mqtt_connection_last_action_waiting grace env w = (Ok true, w')
             /\ self w' = self w /\ hass w' = hass w /\ trace w' = trace w.
Proof.
  intros (la & Hla & Hlt). unfold _check_mqtt_connection_last_action_waiting. run_m.
  rewrite Hla. cbn. exists (tick w). split; [|done].
  f_equal. f_equal. by apply Z.ltb_lt.
Qed.

(** Outside the grace window [_check_mqtt_connection_modes_active] is the
    mode predicate. *)
Lemma modes_active_outside grace env w :
  ~ action_within_grace grace env w ->
  exists w', _check_mqtt_connection_modes_active grace env w
             = (Ok (mode_activity_b (_mqtt_connection_mode (self w)) (self w)), w')
             /\ self w' = self w /\ hass w' = hass w /\ trace w' = trace w.
Proof.
  intros Hno. destruct (last_action_waiting_outside grace env w Hno) as (w' & Hrun & Hs & Hh & Ht).
  unfold _check_mqtt_connection_modes_active, bind at 1. rewrite Hrun.
  run_m. rewrite Hs. exists w'. split; [|done].
  destruct (_mqtt_connection_mode (self w)); cbn;
    repeat match goal with |- context [if ?b then _ else _] => destruct b end; reflexivity.
Qed.

(** C1 as amended: for every mode other than Always and Never_Connect, when
    the API client is present and its authentication supports MQTT login,
    the channel is not started, the host is running and not stopping, no
    user action is within the grace window and the manual override is off,
    [_anycubic_mqtt_connection_should_start] returns, and returns true
    exactly when the activity predicate of the mode holds over the printers. *)
Theorem should_start_iff_mode_activity (grace : Z) (env : Env) (w : World) (api : AnycubicAPI) :
  _mqtt_connection_mode (self w) <> Always ->
  _mqtt_connection_mode (self w) <> Never_Connect ->
  _anycubic_api (self w) = Some api ->
  supports_mqtt_login api = true ->
  mqtt_is_started api = false ->
  is_stopping (hass w) = false ->
  state (hass w) = running ->
  ~ action_within_grace grace env w ->
  _mqtt_manually_connected (self w) = false ->
  exists b,
    fst (_anycubic_mqtt_connection_should_start grace env w) = Ok b
    /\ (b = true <-> mode_activity (_mqtt_connection_mode (self w)) (self w)).
Proof.
  intros HnA HnN Hapi Hlogin Hstarted Hstop Hrun Hgrace Hmanual.
  exists (mode_activity_b (_mqtt_connection_mode (self w)) (self w)).
  split; [|apply mode_activity_b_spec].
  destruct (modes_active_outside grace env w Hgrace) as (w' & Hact & Hs & Hh & Ht).
  unfold _anycubic_mqtt_connection_should_start. run_m.
  replace (mode_eqb (_mqtt_connection_mode (self w)) Never_Connect) with false
    by (destruct (_mqtt_connection_mode (self w)); cbn; congruence).
  rewrite Hapi; cbn. rewrite Hlogin; cbn. rewrite Hapi; cbn.
  rewrite Hstarted; cbn. rewrite Hstop; cbn. rewrite Hrun; cbn.
  rewrite Hact, Hmanual.
  destruct (mode_activity_b _ _); reflexivity.
Qed.

(** C2: in Never_Connect mode [_anycubic_mqtt_connection_should_start]
    returns false and touches nothing, whatever the printers, the manual
    override, the last user action, the host and the API client are. *)
Theorem never_connect_never_starts (grace : Z) (env : Env) (w : World) :
  _mqtt_connection_mode (self w) = Never_Connect ->
  _anycubic_mqtt_connection_should_start grace env w = (Ok false, w).
Proof.
  intros Hmode. unfold _anycubic_mqtt_connection_should_start. run_m.
  rewrite Hmode. reflexivity.
Qed.

(** C9: whatever the mode (Always included), the manual override, the last
    user action and the printers, [_anycubic_mqtt_connection_should_start]
    returns false when the authentication of the API client does not
    support MQTT login. *)
Theorem no_mqtt_login_never_starts (grace : Z) (env : Env) (w : World) (api : AnycubicAPI) :
  _anycubic_api (self w) = Some api ->
  supports_mqtt_login api = false ->
  _anycubic_mqtt_connection_should_start grace env w = (Ok false, w).
Proof.
  intros Hapi Hlogin. unfold _anycubic_mqtt_connection_should_start. run_m.
  destruct (mode_eqb (_mqtt_connection_mode (self w)) Never_Connect); cbn;
    [reflexivity|].
  rewrite Hapi; cbn. rewrite Hlogin; cbn. reflexivity.
Qed.

(** Inside the grace window the mode-inactive check answers no. *)
Lemma modes_inactive_inside grace env w :
  action_within_grace grace env w ->
  exists w', _check_mqtt_connection_modes_inactive grace env w = (Ok false, w')
             /\ self w' = self w /\ hass w' = hass w /\ trace w' = trace w.
Proof.
  intros Hin. destruct (last_action_waiting_inside grace env w Hin) as (w' & Hrun & Hs).
  unfold _check_mqtt_connection_modes_inactive, bind at 1. rewrite Hrun.
  run_m. by exists w'.
Qed.

(** Inside the grace window the idle check answers no and forgets the
    idle-since mark. *)
Lemma is_idle_inside grace idle env w :
  action_within_grace grace env w ->
  exists w', _anycubic_mqtt_connection_is_idle grace idle env w = (Ok false, w')
             /\ _mqtt_idle_since (self w') = None
             /\ _mqtt_manually_connected (self w') = _mqtt_manually_connected (self w)
             /\ trace w' = trace w.
Proof.
  intros Hin. destruct (modes_inactive_inside grace env w Hin) as (w' & Hrun & Hs & Hh & Ht).
  unfold _anycubic_mqtt_connection_is_idle, bind at 1. rewrite Hrun.
  run_m. eexists. split; [reflexivity|]. cbn. by rewrite Hs.
Qed.

(** C3: when the clock reads strictly less than the grace window after the
    recorded user action, the mode-inactive check and the idle check return
    false, and so does [_anycubic_mqtt_connection_should_stop] when the API
    client is present and the host is not stopping, whatever the mode and
    the printers are. *)
Theorem grace_window_precedence (grace idle : Z) (env : Env) (w : World) :
  action_within_grace grace env w ->
  fst (_check_mqtt_connection_modes_inactive grace env w) = Ok false
  /\ fst (_anycubic_mqtt_connection_is_idle grace idle env w) = Ok false
  /\ (forall api, _anycubic_api (self w) = Some api ->
      is_stopping (hass w) = false ->
      fst (_anycubic_mqtt_connection_should_stop grace idle env w) = Ok false).
Proof.
  intros Hin.
  destruct (modes_inactive_inside grace env w Hin) as (w1 & H1 & _).
  destruct (is_idle_inside grace idle env w Hin) as (w2 & H2 & _).
  rewrite H1, H2. repeat split.
  intros api Hapi Hstop.
  unfold _anycubic_mqtt_connection_should_stop. run_m.
  rewrite Hapi; cbn. destruct (mqtt_is_started api); cbn; [|reflexivity].
  rewrite Hstop; cbn. rewrite H2. reflexivity.
Qed.

(** ** The idle tracker *)

(** Every reading of the clock during the call is [t]: the call is one
    observation, made at time [t]. *)
Definition observed_at (env : Env) (t : Z) : Prop := forall k, time_at env k = t.

(** What the mode-inactive check answers in a world: whether the
    observation is idle-eligible. *)
Definition eligible (grace : Z) (env : Env) (w : World) : bool :=
  match fst (_check_mqtt_connection_modes_inactive grace env w) with
  | Ok b => b
  | Raise _ => false
  end.

(** The idle tracker in the words of the specification: the close decision
    and the idle-since mark left by one observation made at [now]. *)
Definition observe (idle_threshold : Z) (is_idle_eligible : bool) (now : Z)
    (idle_since : option Z) : bool * option Z :=
  if is_idle_eligible then
    match idle_since with
    | None => (false, Some now)
    | Some since =>
        if since + idle_threshold <? now then (true, None) else (false, Some since)
    end
  else (false, None).

(** The world an observation finds, with the idle-since mark the previous
    observation left. *)
Definition with_idle_since (idle_since : option Z) (w : World) : World :=
  with_self (set_mqtt_idle_since idle_since (self w)) w.

(** A sequence of calls to the idle check. Between two calls anything of
    the world may change but the idle-since mark, which only the idle
    check writes: each observation brings its environment and its world. *)
Fixpoint idle_checks (grace idle : Z) (idle_since : option Z)
    (observations : list (Env * World)) : list (Res bool) * option Z :=
  match observations with
  | [] => ([], idle_since)
  | (env, w) :: rest =>
      let '(r, w') :=
        _anycubic_mqtt_connection_is_idle grace idle env (with_idle_since idle_since w) in
      let '(rs, final) := idle_checks grace idle (_mqtt_idle_since (self w')) rest in
      (r :: rs, final)
  end.

(** The mode-inactive check always answers, and changes only the clock. *)
Lemma modes_inactive_runs grace env w :
  exists w', _check_mqtt_connection_modes_inactive grace env w
             = (Ok (eligible grace env w), w')
             /\ self w' = self w /\ hass w' = hass w /\ trace w' = trace w.
Proof.
  unfold eligible, _check_mqtt_connection_modes_inactive,
    _check_mqtt_connection_last_action_waiting. run_m.
  destruct (_mqtt_last_action (self w)); cbn;
    repeat match goal with |- context [if ?b then _ else _] => destruct b; cbn end;
    eexists; (split; [reflexivity | done]).
Qed.

(** The mode-inactive check does not read the idle-since mark. *)
Lemma eligible_with_idle_since grace env w idle_since :
  eligible grace env (with_idle_since idle_since w) = eligible grace env w.
Proof.
  unfold eligible, with_idle_since, _check_mqtt_connection_modes_inactive,
    _check_mqtt_connection_last_action_waiting, _no_printers_are_printing,
    _any_printers_are_drying, _any_printers_are_online. run_m.
  destruct (_mqtt_last_action (self w)); cbn;
    repeat match goal with |- context [if ?b then _ else _] => destruct b; cbn end;
    reflexivity.
Qed.

(** One call of the idle check, made at one instant, is one step of the
    tracker of the specification. *)
Lemma is_idle_refines_observe grace idle env w t :
  0 <= idle -> observed_at env t ->
  exists w',
    _anycubic_mqtt_connection_is_idle grace idle env w
    = (Ok (fst (observe idle (eligible grace env w) t (_mqtt_idle_since (self w)))), w')
    /\ _mqtt_idle_since (self w')
       = snd (observe idle (eligible grace env w) t (_mqtt_idle_since (self w)))
    /\ trace w' = trace w.
Proof.
  intros Hidle Hat.
  destruct (modes_inactive_runs grace env w) as (w1 & Hrun & Hs & Hh & Ht).
  unfold _anycubic_mqtt_connection_is_idle, bind at 1. rewrite Hrun.
  destruct (eligible grace env w); run_m.
  - rewrite ?Hs. destruct (_mqtt_idle_since (self w)) as [since|] eqn:Hsince; cbn;
      rewrite ?Hs, ?Hsince, ?Hat; cbn.
    + destruct (since + idle <? t); cbn; eexists; (split; [reflexivity|]); cbn;
        rewrite ?Hs, ?Hsince; done.
    + replace (t + idle <? t) with false by (symmetry; apply Z.ltb_ge; lia).
      cbn. eexists. split; [reflexivity|]. done.
  - eexists. split; [reflexivity|]. done.
Qed.

(** The time of an observation made at one instant. *)
Definition now_of (env : Env) : Z := time_at env 0%nat.

(** An idle-eligible observation made at one instant. *)
Definition eligible_observation (grace : Z) (o : Env * World) : Prop :=
  observed_at (fst o) (now_of (fst o)) /\ eligible grace (fst o) (snd o) = true.

(** One step of [idle_checks], by the tracker of the specification. *)
Lemma idle_checks_cons grace idle idle_since env w rest :
  0 <= idle -> observed_at env (now_of env) ->
  idle_checks grace idle idle_since ((env, w) :: rest)
  = (Ok (fst (observe idle (eligible grace env w) (now_of env) idle_since))
       :: fst (idle_checks grace idle
                 (snd (observe idle (eligible grace env w) (now_of env) idle_since)) rest),
     snd (idle_checks grace idle
            (snd (observe idle (eligible grace env w) (now_of env) idle_since)) rest)).
Proof.
  intros Hidle Hat. cbn [idle_checks].
  destruct (is_idle_refines_observe grace idle env (with_idle_since idle_since w)
              (now_of env) Hidle Hat) as (w' & Hrun & Hsince & _).
  rewrite Hrun, Hsince, eligible_with_idle_since. cbn [with_idle_since with_self self
    set_mqtt_idle_since _mqtt_idle_since].
  destruct (idle_checks grace idle _ rest). reflexivity.
Qed.

(** While every eligible observation is no later than the threshold after
    the idle-since mark, nothing fires and the mark stays. *)
Lemma idle_checks_quiet grace idle since (span : list (Env * World)) :
  0 <= idle ->
  Forall (fun o => eligible_observation grace o /\ now_of (fst o) <= since + idle) span ->
  idle_checks grace idle (Some since) span
  = (repeat (Ok false) (length span), Some since).
Proof.
  intros Hidle Hspan. induction Hspan as [|[env w] rest [[Hat Hel] Hle] _ IH].
  - reflexivity.
  - rewrite idle_checks_cons by assumption. cbn in Hel, Hle. rewrite Hel. cbn.
    replace (since + idle <? now_of env) with false by (symmetry; apply Z.ltb_ge; lia).
    cbn. rewrite IH. reflexivity.
Qed.

(** The first eligible observation after an empty mark records its time
    and does not fire. *)
Lemma idle_checks_first grace idle o rest :
  0 <= idle -> eligible_observation grace o ->
  idle_checks grace idle None (o :: rest)
  = (Ok false :: fst (idle_checks grace idle (Some (now_of (fst o))) rest),
     snd (idle_checks grace idle (Some (now_of (fst o))) rest)).
Proof.
  intros Hidle [Hat Hel]. destruct o as [env w]. cbn [fst snd] in *.
  rewrite idle_checks_cons by assumption. rewrite Hel. reflexivity.
Qed.

(** An eligible observation later than the threshold after the mark fires
    and empties the mark. *)
Lemma idle_checks_fire grace idle since o rest :
  0 <= idle -> eligible_observation grace o ->
  since + idle < now_of (fst o) ->
  idle_checks grace idle (Some since) (o :: rest)
  = (Ok true :: fst (idle_checks grace idle None rest),
     snd (idle_checks grace idle None rest)).
Proof.
  intros Hidle [Hat Hel] Hlt. destruct o as [env w]. cbn [fst snd] in *.
  rewrite idle_checks_cons by assumption. rewrite Hel. cbn.
  replace (since + idle <? now_of env) with true by (symmetry; apply Z.ltb_lt; lia).
  reflexivity.
Qed.

Lemma idle_checks_app grace idle idle_since l1 l2 :
  idle_checks grace idle idle_since (l1 ++ l2)
  = (fst (idle_checks grace idle idle_since l1)
       ++ fst (idle_checks grace idle (snd (idle_checks grace idle idle_since l1)) l2),
     snd (idle_checks grace idle (snd (idle_checks grace idle idle_since l1)) l2)).
Proof.
  revert idle_since. induction l1 as [|[env w] l1 IH]; intros idle_since; cbn.
  - by destruct (idle_checks grace idle idle_since l2).
  - destruct (_anycubic_mqtt_connection_is_idle _ _ _ _) as [r w'].
    rewrite IH.
    destruct (idle_checks grace idle (_mqtt_idle_since (self w')) l1) as [rs f]. cbn.
    reflexivity.
Qed.

(** C4 as amended: with a threshold that is not negative, each call of the
    idle check made at one instant is one step of the tracker (the first
    eligible observation records idle-since and returns false; a later one
    returns true only when more than the threshold has passed since
    idle-since, and then clears it; a non-eligible one clears it and
    returns false). Eligible observations no later than the threshold after
    the first never fire. In a sustained eligible span the first
    observation later than that fires, and the tracker then starts afresh
    on what follows. *)
Theorem idle_tracker_debounced (grace idle : Z) :
  0 <= idle ->
  (forall env w t, observed_at env t ->
     exists w',
       _anycubic_mqtt_connection_is_idle grace idle env w
       = (Ok (fst (observe idle (eligible grace env w) t (_mqtt_idle_since (self w)))), w')
       /\ _mqtt_idle_since (self w')
          = snd (observe idle (eligible grace env w) t (_mqtt_idle_since (self w))))
  /\ (forall first span,
        eligible_observation grace first ->
        Forall (fun o => eligible_observation grace o
                         /\ now_of (fst o) <= now_of (fst first) + idle) span ->
        idle_checks grace idle None (first :: span)
        = (repeat (Ok false) (S (length span)), Some (now_of (fst first))))
  /\ (forall first span late rest,
        eligible_observation grace first ->
        Forall (fun o => eligible_observation grace o
                         /\ now_of (fst o) <= now_of (fst first) + idle) span ->
        eligible_observation grace late ->
        now_of (fst first) + idle < now_of (fst late) ->
        idle_checks grace idle None (first :: span ++ late :: rest)
        = (repeat (Ok false) (S (length span)) ++ Ok true
             :: fst (idle_checks grace idle None rest),
           snd (idle_checks grace idle None rest))).
Proof.
  intros Hidle. split; [|split].
  - intros env w t Hat.
    destruct (is_idle_refines_observe grace idle env w t Hidle Hat) as (w' & H1 & H2 & _).
    by exists w'.
  - intros first span Hfirst Hspan.
    rewrite idle_checks_first by assumption.
    rewrite idle_checks_quiet by assumption. reflexivity.
  - intros first span late rest Hfirst Hspan Hlate Hlt.
    rewrite idle_checks_first by assumption.
    rewrite idle_checks_app, idle_checks_quiet by assumption. cbn [fst snd].
    rewrite idle_checks_fire by assumption. cbn [fst snd].
    reflexivity.
Qed.

(** ** The stop sequence *)

(** The body of the unsubscribe loop of [_stop_anycubic_mqtt_connection]. *)
Definition unsubscribe_printer (p : Z * AnycubicPrinter) : M unit :=
  let '(printer_id, printer) := p in
  let* api := anycubic_api in
  call (mqtt_unsubscribe_printer_status printer_id)
       (fun env => mqtt_unsubscribe_printer_status_result env printer_id).

Definition unsubscribed (printers : list (Z * AnycubicPrinter)) : list Event :=
  map (fun p => mqtt_unsubscribe_printer_status (fst p)) printers.

(** The loop over printers that all unsubscribe without an error. *)
Lemma unsubscribe_loop_ok env api printers w :
  _anycubic_api (self w) = Some api ->
  Forall (fun p => mqtt_unsubscribe_printer_status_result env (fst p) = Ok tt) printers ->
  exists w', for_each printers unsubscribe_printer env w = (Ok tt, w')
             /\ self w' = self w /\ hass w' = hass w
             /\ trace w' = trace w ++ unsubscribed printers.
Proof.
  intros Hapi Hok. revert w Hapi.
  induction Hok as [|[printer_id printer] rest Hp _ IH]; intros w Hapi.
  - exists w. cbn. by rewrite app_nil_r.
  - cbn [for_each]. unfold bind at 1. unfold unsubscribe_printer at 1. run_m.
    rewrite Hapi. cbn. rewrite Hp.
    edestruct IH as (w' & Hrun & Hs & Hh & Ht); [|rewrite Hrun]; [exact Hapi|].
    exists w'. cbn in *. rewrite Ht, <- app_assoc. done.
Qed.

(** The loop stops at the first printer whose unsubscribe raises. *)
Lemma unsubscribe_loop_raise env api before printer_id printer after e w :
  _anycubic_api (self w) = Some api ->
  Forall (fun p => mqtt_unsubscribe_printer_status_result env (fst p) = Ok tt) before ->
  mqtt_unsubscribe_printer_status_result env printer_id = Raise e ->
  exists w', for_each (before ++ (printer_id, printer) :: after) unsubscribe_printer env w
             = (Raise e, w')
             /\ self w' = self w /\ hass w' = hass w
             /\ trace w' = trace w ++ unsubscribed before
                             ++ [mqtt_unsubscribe_printer_status printer_id].
Proof.
  intros Hapi Hok Hraise. revert w Hapi.
  induction Hok as [|[pid p] rest Hp _ IH]; intros w Hapi.
  - cbn [app for_each]. unfold bind at 1. unfold unsubscribe_printer at 1. run_m.
    rewrite Hapi. cbn. rewrite Hraise. eexists. split; [reflexivity|]. done.
  - cbn [app for_each]. unfold bind at 1. unfold unsubscribe_printer at 1. run_m.
    rewrite Hapi. cbn. rewrite Hp.
    edestruct IH as (w' & Hrun & Hs & Hh & Ht); [|rewrite Hrun]; [exact Hapi|].
    exists w'. cbn in *. rewrite Ht, <- app_assoc. done.
Qed.

(** Whatever it answers, the unsubscribe loop leaves the coordinator as
    it was. *)
Lemma unsubscribe_loop_self env printers w :
  self (snd (for_each printers unsubscribe_printer env w)) = self w.
Proof.
  revert w. induction printers as [|[printer_id printer] rest IH]; intros w.
  - reflexivity.
  - cbn [for_each]. unfold bind at 1. unfold unsubscribe_printer at 1. run_m.
    destruct (_anycubic_api (self w)); cbn; [|reflexivity].
    destruct (mqtt_unsubscribe_printer_status_result env printer_id); cbn; [|reflexivity].
    rewrite IH. reflexivity.
Qed.

(** The events of a stop sequence in which nothing raises. *)
Definition stop_events (env : Env) (c : Coordinator) : list Event :=
  unsubscribed (_anycubic_printers c)
  ++ [disconnect_mqtt; mqtt_wait_for_disconnect]
  ++ match _mqtt_task c with
     | Some task => if mqtt_task_done env then [] else [task_cancel task]
     | None => []
     end.

Lemma stop_unfold :
  _stop_anycubic_mqtt_connection
  = (let* c := get_self in
     let* _ := for_each (_anycubic_printers c) unsubscribe_printer in
     let* api := anycubic_api in
     let* _ := call disconnect_mqtt disconnect_mqtt_result in
     let* api := anycubic_api in
     let* _ := call mqtt_wait_for_disconnect mqtt_wait_for_disconnect_result in
     let* c := get_self in
     let* _ := match _mqtt_task c with
               | Some task =>
                   let* done := ask mqtt_task_done in
                   if negb done then emit (task_cancel task) else ret tt
               | None => ret tt
               end in
     modify_self (set_mqtt_task None)).
Proof. reflexivity. Qed.

(** An unsubscribe loop that returns has unsubscribed every printer. *)
Lemma unsubscribe_loop_returns env printers w w' :
  for_each printers unsubscribe_printer env w = (Ok tt, w') ->
  self w' = self w /\ trace w' = trace w ++ unsubscribed printers.
Proof.
  revert w. induction printers as [|[printer_id printer] rest IH]; intros w.
  - cbn. intros [= <-]. by rewrite app_nil_r.
  - cbn [for_each]. unfold bind at 1. unfold unsubscribe_printer at 1. run_m.
    destruct (_anycubic_api (self w)); cbn; [|discriminate].
    destruct (mqtt_unsubscribe_printer_status_result env printer_id); cbn; [|discriminate].
    intros Hrest. apply IH in Hrest as [Hs Ht]. cbn in *.
    rewrite Hs, Ht, <- app_assoc. done.
Qed.

(** A stop sequence that returns has made every request of the sequence,
    the cancellation of a task that was not done last, and has cleared the
    task slot. *)
Lemma stop_returns_inv env w w' :
  _stop_anycubic_mqtt_connection env w = (Ok tt, w') ->
  self w' = set_mqtt_task None (self w)
  /\ trace w' = trace w ++ stop_events env (self w).
Proof.
  rewrite stop_unfold. unfold bind at 1. cbn [get_self].
  unfold bind at 1.
  destruct (for_each (_anycubic_printers (self w)) unsubscribe_printer env w)
    as [[[]|e] w1] eqn:Hloop; [|discriminate].
  apply unsubscribe_loop_returns in Hloop as [Hs Ht].
  run_m. rewrite Hs.
  destruct (_anycubic_api (self w)) as [api|] eqn:Hapi; cbn; [|discriminate].
  destruct (disconnect_mqtt_result env); cbn; [|discriminate].
  rewrite ?Hs, ?Hapi; cbn.
  destruct (mqtt_wait_for_disconnect_result env); cbn; [|discriminate].
  rewrite ?Hs. unfold stop_events.
  destruct (_mqtt_task (self w)) as [task|]; cbn;
    [destruct (mqtt_task_done env); cbn|];
    intros [= <-]; cbn; rewrite ?Hs, ?Ht, <- ?app_assoc; cbn; rewrite ?app_nil_r; done.
Qed.

(** When the API client is present and no request raises, the stop
    sequence returns. *)
Lemma stop_completes env w api :
  _anycubic_api (self w) = Some api ->
  Forall (fun p => mqtt_unsubscribe_printer_status_result env (fst p) = Ok tt)
         (_anycubic_printers (self w)) ->
  disconnect_mqtt_result env = Ok tt ->
  mqtt_wait_for_disconnect_result env = Ok tt ->
  exists w', _stop_anycubic_mqtt_connection env w = (Ok tt, w').
Proof.
  intros Hapi Hunsub Hdis Hwait.
  destruct (unsubscribe_loop_ok env api _ w Hapi Hunsub) as (w1 & Hloop & Hs & _).
  rewrite stop_unfold. unfold bind at 1. cbn [get_self]. unfold bind at 1.
  rewrite Hloop. run_m. rewrite ?Hs, ?Hapi; cbn. rewrite Hdis; cbn.
  rewrite ?Hs, ?Hapi; cbn. rewrite Hwait; cbn.
  destruct (_mqtt_task (self w)); cbn; [destruct (mqtt_task_done env); cbn|];
    eexists; reflexivity.
Qed.

(** C7 as amended: the stop sequence does not catch an error of an
    unsubscribe request. When the request for one printer raises, the
    error leaves the sequence: the printers before it were unsubscribed,
    no later printer is, no disconnect is requested or awaited, no task is
    cancelled and the coordinator (its task slot included) is as it was.
    When no request raises, every printer is unsubscribed in order, the
    disconnect is requested and awaited, a task that is not done is
    cancelled and the slot is cleared. *)
Theorem stop_unsubscribe_error_propagates (env : Env) (w : World) (api : AnycubicAPI) :
  _anycubic_api (self w) = Some api ->
  (forall before printer_id printer after e,
     _anycubic_printers (self w) = before ++ (printer_id, printer) :: after ->
     Forall (fun p => mqtt_unsubscribe_printer_status_result env (fst p) = Ok tt) before ->
     mqtt_unsubscribe_printer_status_result env printer_id = Raise e ->
     exists w',
       _stop_anycubic_mqtt_connection env w = (Raise e, w')
       /\ self w' = self w
       /\ trace w' = trace w ++ unsubscribed before
                       ++ [mqtt_unsubscribe_printer_status printer_id])
  /\ (Forall (fun p => mqtt_unsubscribe_printer_status_result env (fst p) = Ok tt)
             (_anycubic_printers (self w)) ->
      disconnect_mqtt_result env = Ok tt ->
      mqtt_wait_for_disconnect_result env = Ok tt ->
      exists w',
        _stop_anycubic_mqtt_connection env w = (Ok tt, w')
        /\ self w' = set_mqtt_task None (self w)
        /\ trace w' = trace w ++ stop_events env (self w)).
Proof.
  intros Hapi. split.
  - intros before printer_id printer after e Hprinters Hbefore Hraise.
    destruct (unsubscribe_loop_raise env api before printer_id printer after e w
                Hapi Hbefore Hraise) as (w' & Hloop & Hs & _ & Ht).
    exists w'. split; [|done].
    rewrite stop_unfold. unfold bind at 1. cbn [get_self]. unfold bind at 1.
    rewrite Hprinters, Hloop. reflexivity.
  - intros Hunsub Hdis Hwait.
    destruct (stop_completes env w api Hapi Hunsub Hdis Hwait) as (w' & Hrun).
    exists w'. split; [exact Hrun|]. by apply stop_returns_inv.
Qed.

(** C10: when the stop sequence returns, the task slot of the coordinator
    is [None]; and when the slot held a task that was not done, cancelling
    that task was the last request the sequence made, before the slot was
    cleared. *)
Theorem stop_leaves_no_task (env : Env) (w w' : World) :
  _stop_anycubic_mqtt_connection env w = (Ok tt, w') ->
  _mqtt_task (self w') = None
  /\ (forall task, _mqtt_task (self w) = Some task -> mqtt_task_done env = false ->
      exists requests, trace w' = requests ++ [task_cancel task]).
Proof.
  intros Hrun. apply stop_returns_inv in Hrun as [Hs Ht]. split.
  - rewrite Hs. reflexivity.
  - intros task Htask Hdone. rewrite Ht. unfold stop_events. rewrite Htask, Hdone.
    exists (trace w ++ unsubscribed (_anycubic_printers (self w))
            ++ [disconnect_mqtt; mqtt_wait_for_disconnect]).
    rewrite <- !app_assoc. reflexivity.
Qed.

(** ** What a method leaves alone *)

(** [m] relates the world it is run in to the world it leaves by [P]. *)
Definition preserves {A} (P : World -> World -> Prop) (m : M A) : Prop :=
  forall env w, P w (snd (m env w)).

(** The world after one more request to a collaborator. *)
Definition record (ev : Event) (w : World) : World :=
  {| self := self w; hass := hass w; clock := clock w; trace := trace w ++ [ev] |}.

(** The relations the plumbing of the monad keeps: they are preorders
    and reading the clock satisfies them. *)
Class Framed (P : World -> World -> Prop) : Prop := {
  P_refl : forall w, P w w;
  P_trans : forall w1 w2 w3, P w1 w2 -> P w2 w3 -> P w1 w3;
  P_tick : forall w, P w (tick w);
}.

Section Frame.

Context (P : World -> World -> Prop) `{!Framed P}.

Lemma preserves_ret {A} (a : A) : preserves P (ret a).
Proof. intros env w. apply P_refl. Qed.

Lemma preserves_raise {A} e : preserves P (@raise A e).
Proof. intros env w. apply P_refl. Qed.

Lemma preserves_get_self : preserves P get_self.
Proof. intros env w. apply P_refl. Qed.

Lemma preserves_get_hass : preserves P get_hass.
Proof. intros env w. apply P_refl. Qed.

Lemma preserves_ask {A} (f : Env -> A) : preserves P (ask f).
Proof. intros env w. apply P_refl. Qed.

Lemma preserves_time_time : preserves P time_time.
Proof. intros env w. apply P_tick. Qed.

Lemma preserves_emit ev :
  (forall w, P w (record ev w)) -> preserves P (emit ev).
Proof. intros Hev env w. apply Hev. Qed.

Lemma preserves_call {A} ev (answer : Env -> Res A) :
  (forall w, P w (record ev w)) -> preserves P (call ev answer).
Proof. intros Hev env w. apply Hev. Qed.

Lemma preserves_modify_self f :
  (forall w, P w (with_self (f (self w)) w)) -> preserves P (modify_self f).
Proof. intros Hf env w. apply Hf. Qed.

Lemma preserves_bind {A B} (m : M A) (k : A -> M B) :
  preserves P m -> (forall a, preserves P (k a)) -> preserves P (bind m k).
Proof.
  intros Hm Hk env w. unfold bind. specialize (Hm env w).
  destruct (m env w) as [[a|e] w1]; cbn in *; [|exact Hm].
  eapply P_trans; [exact Hm | apply Hk].
Qed.

Lemma preserves_try_except {A} (m : M A) (h : exn -> M A) :
  preserves P m -> (forall e, preserves P (h e)) -> preserves P (try_except m h).
Proof.
  intros Hm Hh env w. unfold try_except. specialize (Hm env w).
  destruct (m env w) as [[a|e] w1]; cbn in *; [exact Hm|].
  eapply P_trans; [exact Hm | apply Hh].
Qed.

Lemma preserves_for_each {A} (xs : list A) (body : A -> M unit) :
  (forall x, preserves P (body x)) -> preserves P (for_each xs body).
Proof.
  intros Hbody. induction xs as [|x rest IH]; cbn.
  - apply preserves_ret.
  - apply preserves_bind; [apply Hbody | intros _; exact IH].
Qed.

Lemma preserves_anycubic_api : preserves P anycubic_api.
Proof.
  unfold anycubic_api. apply preserves_bind; [apply preserves_get_self|].
  intros c. destruct (_anycubic_api c); [apply preserves_ret | apply preserves_raise].
Qed.

End Frame.

(** Syntax-directed proof that a method preserves a relation; what is
    left are the writes to the coordinator. *)
Ltac frame_step :=
  first
    [ apply preserves_ret; apply _
    | apply preserves_raise; apply _
    | apply preserves_get_self; apply _
    | apply preserves_get_hass; apply _
    | apply preserves_ask; apply _
    | apply preserves_time_time; apply _
    | apply preserves_emit; intros ?
    | apply preserves_call; intros ?
    | apply preserves_anycubic_api; apply _
    | apply preserves_bind; [apply _ | | intros ?]
    | apply preserves_try_except; [apply _ | | intros ?]
    | apply preserves_for_each; [apply _ | intros ?]
    | apply preserves_modify_self; intros ?
    | match goal with
      | |- preserves _ (if ?b then _ else _) => destruct b
      | |- preserves _ (match ?x with _ => _ end) => destruct x
      | |- preserves _ (and_then ?b _) => unfold and_then
      | |- preserves _ (or_else ?b _) => unfold or_else
      end ].

(** The method leaves the attribute [f] of the coordinator as it was. *)
Definition keeps {A} (f : Coordinator -> A) : World -> World -> Prop :=
  fun w w' => f (self w') = f (self w).

#[local] Instance keeps_framed {A} (f : Coordinator -> A) : Framed (keeps f).
Proof.
  split; unfold keeps.
  - reflexivity.
  - intros w1 w2 w3 H12 H23. congruence.
  - reflexivity.
Qed.

(** The method only adds requests to the trace. *)
Definition extends : World -> World -> Prop :=
  fun w w' => exists requests, trace w' = trace w ++ requests.

#[local] Instance extends_framed : Framed extends.
Proof.
  split; unfold extends.
  - intros w. exists []. by rewrite app_nil_r.
  - intros w1 w2 w3 [r1 H1] [r2 H2]. exists (r1 ++ r2). by rewrite H2, H1, app_assoc.
  - intros w. exists []. cbn. by rewrite app_nil_r.
Qed.

Ltac frame_leftover :=
  lazymatch goal with
  | |- keeps _ _ _ => reflexivity
  | |- extends _ (record ?ev _) => by exists [ev]
  | |- extends _ (with_self _ _) => exists []; cbn; by rewrite app_nil_r
  | |- _ => idtac
  end.

Ltac frame :=
  repeat (cbv beta; frame_step); frame_leftover.

Section FrameOfMethods.

Context (P : World -> World -> Prop) `{!Framed P}.
Variable grace idle : Z.
Hypothesis P_record : forall ev w, P w (record ev w).
Hypothesis P_idle_since : forall v w, P w (with_self (set_mqtt_idle_since v (self w)) w).
Hypothesis P_mqtt_task : forall v w, P w (with_self (set_mqtt_task v (self w)) w).

Lemma preserves_should_start :
  preserves P (_anycubic_mqtt_connection_should_start grace).
Proof.
  unfold _anycubic_mqtt_connection_should_start, _check_mqtt_connection_modes_active,
    _check_mqtt_connection_last_action_waiting.
  frame.
Qed.

Lemma preserves_should_stop :
  preserves P (_anycubic_mqtt_connection_should_stop grace idle).
Proof.
  unfold _anycubic_mqtt_connection_should_stop, _anycubic_mqtt_connection_is_idle,
    _check_mqtt_connection_modes_inactive, _check_mqtt_connection_last_action_waiting.
  frame; apply P_idle_since.
Qed.

Lemma preserves_stop : preserves P _stop_anycubic_mqtt_connection.
Proof.
  unfold _stop_anycubic_mqtt_connection. frame; first [apply P_record | apply P_mqtt_task].
Qed.

Lemma preserves_check_connection refreshing :
  preserves P (_check_anycubic_mqtt_connection grace idle refreshing).
Proof.
  unfold _check_anycubic_mqtt_connection.
  apply preserves_bind; [apply _ | apply preserves_get_self; apply _ | intros c].
  destruct (negb refreshing && _mqtt_refresh_lock_locked c); [apply preserves_ret; apply _|].
  apply preserves_bind; [apply _ | apply preserves_should_start | intros start].
  destruct start.
  - frame; first [apply P_record | apply P_mqtt_task].
  - apply preserves_bind; [apply _ | apply preserves_should_stop | intros stop].
    destruct stop; [apply preserves_stop | apply preserves_ret; apply _].
Qed.

End FrameOfMethods.

(** ** The update scheduler *)

Section SchedulerProperties.

Variable MQTT_ACTION_RESPONSE_ALIVE_SECONDS : Z.
Variable MQTT_IDLE_DISCONNECT_SECONDS : Z.
Variable MAX_FAILED_UPDATES : Z.
Variable FAILED_UPDATE_DELAY : Z.
Variable DEFAULT_SCAN_INTERVAL : Z.

Local Abbreviation get_anycubic_updates' :=
  (get_anycubic_updates MQTT_ACTION_RESPONSE_ALIVE_SECONDS MQTT_IDLE_DISCONNECT_SECONDS
     MAX_FAILED_UPDATES FAILED_UPDATE_DELAY).
Local Abbreviation _async_update_data' :=
  (_async_update_data MQTT_ACTION_RESPONSE_ALIVE_SECONDS MQTT_IDLE_DISCONNECT_SECONDS
     MAX_FAILED_UPDATES FAILED_UPDATE_DELAY DEFAULT_SCAN_INTERVAL).

(** The poll proper: the first two statements of the [try] block of
    [get_anycubic_updates], the credential check and the loop over the
    printers. *)
Definition validate_and_poll : M unit :=
  let* _ := _check_or_save_tokens in
  let* c := get_self in
  for_each (_anycubic_printers c)
    (fun '(printer_id, printer) => update_printer printer_id).

(** What the [except] clauses of [get_anycubic_updates] do with an error. *)
Definition on_update_error (error : exn) : M unit :=
  match error with
  | ConfigEntryAuthFailed => raise error
  | AnycubicAPIParsingError =>
      let* _ := increment_failed_updates in
      raise (UpdateFailed error)
  | AnycubicAPIError =>
      let* _ := increment_failed_updates in
      raise (UpdateFailed error)
  | CancelledError => raise error
  | _ =>
      let* _ := emit logger_debug in
      let* _ := increment_failed_updates in
      raise (UpdateFailed error)
  end.

(** The errors the [except] clauses count and wrap: every [Exception]
    but the authentication failure. *)
Definition recoverable (error : exn) : Prop :=
  error <> ConfigEntryAuthFailed /\ error <> CancelledError.

(** The world in which the [try] block starts: the clock was read once
    and the reading recorded as the last update. *)
Definition entered (env : Env) (w : World) : World :=
  with_self (set_last_state_update (Some (time_at env (clock w))) (self w)) (tick w).

Lemma bind_assoc_run {A B C} (m : M A) (k : A -> M B) (k' : B -> M C) env w :
  bind (bind m k) k' env w = bind m (fun a => bind (k a) k') env w.
Proof. unfold bind. destruct (m env w) as [[a|e] w1]; reflexivity. Qed.

(** [get_anycubic_updates] below the failure budget: the clock is read
    and recorded, the poll runs inside the [try], and a poll that returns
    is followed by the reset of the count and the connection check. *)
Lemma get_anycubic_updates_polls env w :
  _failed_updates (self w) < MAX_FAILED_UPDATES ->
  get_anycubic_updates' env w
  = (let* _ :=
       try_except
         (let* _ := validate_and_poll in
          let* _ := modify_self (set_failed_updates 0) in
          _check_anycubic_mqtt_connection
            MQTT_ACTION_RESPONSE_ALIVE_SECONDS MQTT_IDLE_DISCONNECT_SECONDS false)
         on_update_error in
     let* now := time_time in
     let* _ := modify_self (set_last_state_update (Some now)) in
     ret true) env (entered env w).
Proof.
  intros Hlt. unfold get_anycubic_updates. unfold bind at 1. cbn [get_self].
  replace (MAX_FAILED_UPDATES <=? _failed_updates (self w)) with false
    by (symmetry; apply Z.leb_gt; lia).
  unfold bind at 1. cbn [time_time]. unfold bind at 1. cbn [modify_self].
  change (with_self _ (tick w)) with (entered env w).
  unfold validate_and_poll, try_except, bind, get_self.
  destruct (_check_or_save_tokens env (entered env w)) as [[[]|e] w1]; [|reflexivity].
  destruct (for_each _ _ env w1) as [[[]|e] w2]; reflexivity.
Qed.

(** The requests of a poll: the credential check and the device polls. *)
Definition is_poll (ev : Event) : bool :=
  match ev with
  | check_api_tokens | update_info_from_api _ => true
  | _ => false
  end.

Definition polls (requests : list Event) : list Event := filter is_poll requests.

(** The method issues no request of a poll. *)
Definition quiet : World -> World -> Prop :=
  fun w w' => polls (trace w') = polls (trace w).

#[local] Instance quiet_framed : Framed quiet.
Proof.
  split; unfold quiet.
  - reflexivity.
  - intros w1 w2 w3 H12 H23. congruence.
  - reflexivity.
Qed.

Lemma quiet_record ev w : is_poll ev = false -> quiet w (record ev w).
Proof.
  intros Hev. unfold quiet, polls. cbn. rewrite filter_app. cbn.
  rewrite decide_False by (rewrite Hev; auto). apply app_nil_r.
Qed.

(** The poll writes only the printers. *)
Lemma preserves_validate_and_poll (P : World -> World -> Prop) `{!Framed P} :
  (forall ev w, P w (record ev w)) ->
  (forall v w, P w (with_self (set_anycubic_printers v (self w)) w)) ->
  preserves P validate_and_poll.
Proof.
  intros Hrecord Hprinters.
  unfold validate_and_poll, _check_or_save_tokens, update_printer.
  frame; first [apply Hrecord | apply Hprinters].
Qed.

(** The [except] clauses always raise. *)
Lemma on_update_error_raises error env w :
  exists e' w', on_update_error error env w = (Raise e', w').
Proof. destruct error; cbn; eauto. Qed.

(** The [except] clauses count and wrap a recoverable error. *)
Lemma on_update_error_recoverable error env w :
  recoverable error ->
  exists w', on_update_error error env w = (Raise (UpdateFailed error), w')
             /\ self w' = set_failed_updates (_failed_updates (self w) + 1) (self w)
             /\ polls (trace w') = polls (trace w).
Proof.
  intros [Hauth Hcancel].
  destruct error; try congruence; cbn; eexists; (split; [reflexivity|]); cbn;
    (split; [reflexivity|]); try reflexivity.
  all: unfold polls; rewrite filter_app; cbn; apply app_nil_r.
Qed.

(** An authentication failure raised by the poll leaves
    [get_anycubic_updates] as it is, with the world the poll left. *)
Lemma poll_auth_failure env w w1 :
  _failed_updates (self w) < MAX_FAILED_UPDATES ->
  validate_and_poll env (entered env w) = (Raise ConfigEntryAuthFailed, w1) ->
  get_anycubic_updates' env w = (Raise ConfigEntryAuthFailed, w1)
  /\ _failed_updates (self w1) = _failed_updates (self w)
  /\ _last_state_update (self w1) = Some (time_at env (clock w)).
Proof.
  intros Hlt Hpoll. split; [|split].
  - rewrite get_anycubic_updates_polls by assumption.
    unfold bind at 1, try_except. unfold bind at 1. rewrite Hpoll. reflexivity.
  - pose proof (preserves_validate_and_poll (keeps _failed_updates)
                  ltac:(reflexivity) ltac:(reflexivity) env (entered env w)) as Hk.
    rewrite Hpoll in Hk. exact Hk.
  - pose proof (preserves_validate_and_poll (keeps _last_state_update)
                  ltac:(reflexivity) ltac:(reflexivity) env (entered env w)) as Hk.
    rewrite Hpoll in Hk. exact Hk.
Qed.

(** A recoverable error raised by the poll is counted and re-raised as
    [UpdateFailed]. *)
Lemma poll_recoverable_failure env w w1 error :
  _failed_updates (self w) < MAX_FAILED_UPDATES ->
  validate_and_poll env (entered env w) = (Raise error, w1) ->
  recoverable error ->
  exists w',
    get_anycubic_updates' env w = (Raise (UpdateFailed error), w')
    /\ _failed_updates (self w') = _failed_updates (self w) + 1
    /\ _last_state_update (self w') = Some (time_at env (clock w)).
Proof.
  intros Hlt Hpoll Hrec.
  destruct (on_update_error_recoverable error env w1 Hrec) as (w' & Hh & Hs & _).
  exists w'.
  pose proof (preserves_validate_and_poll (keeps _failed_updates)
                ltac:(reflexivity) ltac:(reflexivity) env (entered env w)) as Hk.
  pose proof (preserves_validate_and_poll (keeps _last_state_update)
                ltac:(reflexivity) ltac:(reflexivity) env (entered env w)) as Hl.
  rewrite Hpoll in Hk, Hl. unfold keeps in Hk, Hl. cbn in Hk, Hl.
  split; [|split].
  - rewrite get_anycubic_updates_polls by assumption.
    unfold bind at 1, try_except. unfold bind at 1. rewrite Hpoll, Hh. reflexivity.
  - rewrite Hs. cbn. rewrite Hk. reflexivity.
  - rewrite Hs. cbn. exact Hl.
Qed.

(** With the failure budget used up, [get_anycubic_updates] asks nothing
    of the API: it pushes the last-update time into the future and empties
    the count. *)
Lemma cooldown_entry env w :
  MAX_FAILED_UPDATES <= _failed_updates (self w) ->
  get_anycubic_updates' env w
  = (Ok false,
     with_self
       (set_failed_updates 0
          (set_last_state_update (Some (time_at env (clock w) + FAILED_UPDATE_DELAY))
             (self w)))
       (tick w)).
Proof.
  intros Hle. unfold get_anycubic_updates. unfold bind at 1. cbn [get_self].
  replace (MAX_FAILED_UPDATES <=? _failed_updates (self w)) with true
    by (symmetry; apply Z.leb_le; lia).
  reflexivity.
Qed.

(** A call of [get_anycubic_updates] that returns true leaves the count
    at zero. *)
Lemma success_resets env w w' :
  get_anycubic_updates' env w = (Ok true, w') ->
  _failed_updates (self w') = 0.
Proof.
  destruct (Z.le_gt_cases MAX_FAILED_UPDATES (_failed_updates (self w))) as [Hle|Hlt].
  - rewrite cooldown_entry by assumption. discriminate.
  - rewrite get_anycubic_updates_polls by lia.
    unfold bind at 1, try_except. unfold bind at 1.
    destruct (validate_and_poll env (entered env w)) as [[[]|e] w1].
    + unfold bind at 1. cbn [modify_self].
      pose proof (preserves_check_connection (keeps _failed_updates)
                    MQTT_ACTION_RESPONSE_ALIVE_SECONDS MQTT_IDLE_DISCONNECT_SECONDS
                    ltac:(reflexivity) ltac:(reflexivity) ltac:(reflexivity) false env
                    (with_self (set_failed_updates 0 (self w1)) w1)) as Hk.
      destruct (_check_anycubic_mqtt_connection _ _ false env _) as [[[]|e] w2].
      * cbn. intros [= <-]. exact Hk.
      * destruct (on_update_error_raises e env w2) as (e' & w3 & Hh). rewrite Hh.
        discriminate.
    + destruct (on_update_error_raises e env w1) as (e' & w3 & Hh). rewrite Hh.
      discriminate.
Qed.

(** Consecutive calls of [get_anycubic_updates], each with its own
    environment, in each of which the poll raises a recoverable error. *)
Inductive failed_polls : list Env -> World -> World -> Prop :=
| failed_polls_nil w : failed_polls [] w w
| failed_polls_cons env envs w w1 error w' :
    validate_and_poll env (entered env w) = (Raise error, w1) ->
    recoverable error ->
    failed_polls envs (snd (get_anycubic_updates' env w)) w' ->
    failed_polls (env :: envs) w w'.

(** Below the budget every failed poll adds one to the count. *)
Lemma failed_polls_count envs w w' :
  failed_polls envs w w' ->
  _failed_updates (self w) + Z.of_nat (length envs) <= MAX_FAILED_UPDATES ->
  _failed_updates (self w') = _failed_updates (self w) + Z.of_nat (length envs).
Proof.
  induction 1 as [w|env envs w w1 error w' Hpoll Hrec _ IH]; intros Hle.
  - cbn. lia.
  - cbn [length] in *.
    destruct (poll_recoverable_failure env w w1 error ltac:(lia) Hpoll Hrec)
      as (w2 & Hrun & Hcount & _).
    rewrite Hrun in IH. cbn [snd] in IH. rewrite IH by lia. lia.
Qed.

(** What [_async_update_data] does once the poll is decided: it builds the
    snapshot and, the first time, registers the devices. *)
Definition publish : M (list (Z * AnycubicPrinter)) :=
  let* data_dict := _build_coordinator_data in
  let* c := get_self in
  let* _ := match _printer_device_map c with
            | None => _register_printer_devices
            | Some _ => ret tt
            end in
  ret data_dict.

Lemma preserves_publish (P : World -> World -> Prop) `{!Framed P} :
  (forall printer_id w, P w (record (register_printer_device printer_id) w)) ->
  (forall v w, P w (with_self (set_printer_device_map v (self w)) w)) ->
  (forall f w, P w (with_self
                      (set_printer_device_map (f (_printer_device_map (self w))) (self w))
                      w)) ->
  preserves P publish.
Proof.
  intros Hrecord Hmap Hmap'.
  unfold publish, _build_coordinator_data, _register_printer_devices.
  frame; first [apply Hrecord | apply Hmap
               | apply (Hmap' (fun m => Some (default [] m ++ [_])))].
Qed.

(** Within the scan interval after the recorded last update,
    [_async_update_data] does not call [get_anycubic_updates]. *)
Lemma async_update_not_due env w last_update :
  _last_state_update (self w) = Some last_update ->
  last_update <> 0 ->
  time_at env (clock w) <= last_update + DEFAULT_SCAN_INTERVAL ->
  _async_update_data' env w = publish env (tick w).
Proof.
  intros Hlast Hnz Hle. unfold _async_update_data, publish.
  cbv [bind get_self or_else falsy time_time ret default from_option id].
  rewrite Hlast.
  replace (last_update =? 0) with false by (symmetry; apply Z.eqb_neq; lia).
  replace (last_update + DEFAULT_SCAN_INTERVAL <? time_at env (clock w)) with false
    by (symmetry; apply Z.ltb_ge; lia).
  reflexivity.
Qed.

(** Past the scan interval it does. *)
Lemma async_update_due env w last_update :
  _last_state_update (self w) = Some last_update ->
  last_update <> 0 ->
  last_update + DEFAULT_SCAN_INTERVAL < time_at env (clock w) ->
  _async_update_data' env w
  = (let* _ := get_anycubic_updates' in publish) env (tick w).
Proof.
  intros Hlast Hnz Hlt. unfold _async_update_data, publish.
  cbv [bind get_self or_else falsy time_time ret default from_option id].
  rewrite Hlast.
  replace (last_update =? 0) with false by (symmetry; apply Z.eqb_neq; lia).
  replace (last_update + DEFAULT_SCAN_INTERVAL <? time_at env (clock w)) with true
    by (symmetry; apply Z.ltb_lt; lia).
  destruct (get_anycubic_updates' env (tick w)) as [[b|e] w1]; reflexivity.
Qed.

(** The first request [m] makes in world [w] is [ev]. *)
Definition begins_with {A} (ev : Event) (m : M A) (env : Env) (w : World) : Prop :=
  exists requests, trace (snd (m env w)) = trace w ++ ev :: requests.

Lemma begins_with_bind {A B} ev (m : M A) (k : A -> M B) env w :
  begins_with ev m env w -> (forall a, preserves extends (k a)) ->
  begins_with ev (bind m k) env w.
Proof.
  intros [requests Hm] Hk. unfold begins_with, bind.
  destruct (m env w) as [[a|e] w1]; cbn in *; [|by exists requests].
  destruct (Hk a env w1) as [more Hmore].
  exists (requests ++ more). rewrite Hmore, Hm, <- app_assoc. reflexivity.
Qed.

Lemma begins_with_try_except {A} ev (m : M A) (h : exn -> M A) env w :
  begins_with ev m env w -> (forall e, preserves extends (h e)) ->
  begins_with ev (try_except m h) env w.
Proof.
  intros [requests Hm] Hh. unfold begins_with, try_except.
  destruct (m env w) as [[a|e] w1]; cbn in *; [by exists requests|].
  destruct (Hh e env w1) as [more Hmore].
  exists (requests ++ more). rewrite Hmore, Hm, <- app_assoc. reflexivity.
Qed.

Lemma extends_record ev w : extends w (record ev w).
Proof. by exists [ev]. Qed.

Lemma extends_self f w : extends w (with_self (f (self w)) w).
Proof. exists []. cbn. by rewrite app_nil_r. Qed.

(** Below the budget and with the API client present, the first request
    of [get_anycubic_updates] is the credential check. *)
Lemma get_anycubic_updates_begins env w api :
  _failed_updates (self w) < MAX_FAILED_UPDATES ->
  _anycubic_api (self w) = Some api ->
  begins_with check_api_tokens get_anycubic_updates' env w.
Proof.
  intros Hlt Hapi. unfold begins_with.
  rewrite get_anycubic_updates_polls by assumption.
  change (trace w) with (trace (entered env w)).
  apply begins_with_bind; [|intros _; frame].
  apply begins_with_try_except.
  - apply begins_with_bind.
    + unfold validate_and_poll. apply begins_with_bind.
      * unfold _check_or_save_tokens, begins_with. run_m. rewrite Hapi. cbn.
        destruct (check_api_tokens_result env) as [[|]|e]; cbn; rewrite ?Hapi; cbn;
          try (eexists; reflexivity).
        destruct (tokens_changed env); cbn; [|eexists; reflexivity].
        exists [store_async_save].
        destruct (store_async_save_result env); cbn; by rewrite <- app_assoc.
      * intros _. unfold update_printer.
        frame.
    + intros _. apply preserves_bind; [apply _ | | intros _].
      * frame.
      * apply preserves_check_connection; [apply _ | apply extends_record | |];
          intros v w0; apply (extends_self (fun _ => _)).
  - intros e. unfold on_update_error, increment_failed_updates.
    destruct e; frame.
Qed.

(** C5: starting from a count of zero, MAX_FAILED_UPDATES consecutive
    failed polls leave the count at MAX_FAILED_UPDATES. With the count
    there, [get_anycubic_updates] asks nothing of the API, records the
    reading of the clock plus FAILED_UPDATE_DELAY as the last update and
    empties the count. While the clock reads no more than the scan
    interval past a recorded last update, [_async_update_data] issues no
    credential check and no device poll and leaves count and record alone;
    once it reads more, and the count is below the budget, its first
    request is the credential check. A call of [get_anycubic_updates] that
    returns true leaves the count at zero. *)
Theorem failure_budget_cooldown :
  (forall envs w w',
     _failed_updates (self w) = 0 ->
     failed_polls envs w w' ->
     Z.of_nat (length envs) = MAX_FAILED_UPDATES ->
     _failed_updates (self w') = MAX_FAILED_UPDATES)
  /\ (forall env w,
        MAX_FAILED_UPDATES <= _failed_updates (self w) ->
        exists w',
          get_anycubic_updates' env w = (Ok false, w')
          /\ trace w' = trace w
          /\ _failed_updates (self w') = 0
          /\ _last_state_update (self w')
             = Some (time_at env (clock w) + FAILED_UPDATE_DELAY))
  /\ (forall env w last_update,
        _last_state_update (self w) = Some last_update ->
        last_update <> 0 ->
        time_at env (clock w) <= last_update + DEFAULT_SCAN_INTERVAL ->
        polls (trace (snd (_async_update_data' env w))) = polls (trace w)
        /\ _failed_updates (self (snd (_async_update_data' env w)))
           = _failed_updates (self w)
        /\ _last_state_update (self (snd (_async_update_data' env w)))
           = Some last_update)
  /\ (forall env w last_update api,
        _last_state_update (self w) = Some last_update ->
        last_update <> 0 ->
        last_update + DEFAULT_SCAN_INTERVAL < time_at env (clock w) ->
        _failed_updates (self w) < MAX_FAILED_UPDATES ->
        _anycubic_api (self w) = Some api ->
        begins_with check_api_tokens _async_update_data' env w)
  /\ (forall env w w',
        get_anycubic_updates' env w = (Ok true, w') ->
        _failed_updates (self w') = 0).
Proof.
  split; [|split; [|split; [|split]]].
  - intros envs w w' Hzero Hpolls Hlen.
    rewrite (failed_polls_count envs w w' Hpolls) by lia. lia.
  - intros env w Hle. rewrite cooldown_entry by assumption.
    eexists. split; [reflexivity|]. cbn. done.
  - intros env w last_update Hlast Hnz Hle.
    rewrite (async_update_not_due env w last_update) by assumption.
    split; [|split].
    + refine (preserves_publish quiet _ _ _ env (tick w)); intros;
        first [by apply quiet_record | reflexivity].
    + refine (preserves_publish (keeps _failed_updates) _ _ _ env (tick w)); intros;
        reflexivity.
    + rewrite <- Hlast.
      refine (preserves_publish (keeps _last_state_update) _ _ _ env (tick w)); intros;
        reflexivity.
  - intros env w last_update api Hlast Hnz Hlt Hcount Hapi.
    unfold begins_with. rewrite (async_update_due env w last_update) by assumption.
    change (trace w) with (trace (tick w)).
    apply begins_with_bind.
    + by apply (get_anycubic_updates_begins env (tick w) api).
    + intros _. apply (preserves_publish extends); intros;
        first [apply extends_record | apply (extends_self (fun _ => _))].
  - intros env w w'. apply success_resets.
Qed.

(** C6: an authentication failure raised by the credential check or by a
    device poll leaves [get_anycubic_updates] as [ConfigEntryAuthFailed]
    itself, with the count as it was and the last update recorded at the
    reading taken on entry (no cool-down); any other [Exception] raised
    there is counted once and re-raised wrapped in [UpdateFailed]. *)
Theorem auth_failure_bypasses_budget (env : Env) (w w1 : World) (error : exn) :
  _failed_updates (self w) < MAX_FAILED_UPDATES ->
  validate_and_poll env (entered env w) = (Raise error, w1) ->
  (error = ConfigEntryAuthFailed ->
     get_anycubic_updates' env w = (Raise ConfigEntryAuthFailed, w1)
     /\ _failed_updates (self w1) = _failed_updates (self w)
     /\ _last_state_update (self w1) = Some (time_at env (clock w)))
  /\ (recoverable error ->
      exists w',
        get_anycubic_updates' env w = (Raise (UpdateFailed error), w')
        /\ _failed_updates (self w') = _failed_updates (self w) + 1).
Proof.
  intros Hlt Hpoll. split.
  - intros ->. by apply poll_auth_failure.
  - intros Hrec.
    destruct (poll_recoverable_failure env w w1 error Hlt Hpoll Hrec)
      as (w' & Hrun & Hcount & _).
    by exists w'.
Qed.

(** The credential check that answers false is an authentication
    failure of the poll. *)
Lemma rejected_tokens_fail_the_poll env w api :
  _anycubic_api (self w) = Some api ->
  check_api_tokens_result env = Ok false ->
  validate_and_poll env w = (Raise ConfigEntryAuthFailed, record check_api_tokens w).
Proof.
  intros Hapi Hcheck. unfold validate_and_poll, _check_or_save_tokens. run_m.
  rewrite Hapi. cbn. rewrite Hcheck. reflexivity.
Qed.

End SchedulerProperties.

(** ** The registration engine *)

Section RegistrationProperties.

Variable Options : Type.
Variable check_descriptor_status_not_lcd : AnycubicCloudEntityDescription -> string -> bool.
Variable check_descriptor_status_not_fdm : AnycubicCloudEntityDescription -> string -> bool.
Variable check_descriptor_state_ace_not_supported : AnycubicCloudEntityDescription -> bool -> bool.
Variable check_descriptor_state_ace_primary_unavailable :
  AnycubicCloudEntityDescription -> bool -> Z -> bool.
Variable check_descriptor_state_ace_secondary_unavailable :
  AnycubicCloudEntityDescription -> bool -> Z -> bool.
Variable check_descriptor_state_drying_unavailable :
  AnycubicCloudEntityDescription -> bool -> Z -> Options -> bool.

Local Abbreviation Pending := (gmap Z (gmap string (list AnycubicCloudEntityDescription))).
Local Abbreviation dropped' :=
  (dropped Options check_descriptor_status_not_lcd check_descriptor_status_not_fdm
     check_descriptor_state_ace_not_supported).
Local Abbreviation deferred' :=
  (deferred Options check_descriptor_state_ace_primary_unavailable
     check_descriptor_state_ace_secondary_unavailable
     check_descriptor_state_drying_unavailable).
Local Abbreviation evaluate_descriptors' :=
  (evaluate_descriptors Options check_descriptor_status_not_lcd
     check_descriptor_status_not_fdm check_descriptor_state_ace_not_supported
     check_descriptor_state_ace_primary_unavailable
     check_descriptor_state_ace_secondary_unavailable
     check_descriptor_state_drying_unavailable).
Local Abbreviation evaluate_printer' :=
  (evaluate_printer Options check_descriptor_status_not_lcd
     check_descriptor_status_not_fdm check_descriptor_state_ace_not_supported
     check_descriptor_state_ace_primary_unavailable
     check_descriptor_state_ace_secondary_unavailable
     check_descriptor_state_drying_unavailable).
Local Abbreviation evaluate_printers' :=
  (evaluate_printers Options check_descriptor_status_not_lcd
     check_descriptor_status_not_fdm check_descriptor_state_ace_not_supported
     check_descriptor_state_ace_primary_unavailable
     check_descriptor_state_ace_secondary_unavailable
     check_descriptor_state_drying_unavailable).
Local Abbreviation run' :=
  (_add_entities_for_unregistered_descriptors Options check_descriptor_status_not_lcd
     check_descriptor_status_not_fdm check_descriptor_state_ace_not_supported
     check_descriptor_state_ace_primary_unavailable
     check_descriptor_state_ace_secondary_unavailable
     check_descriptor_state_drying_unavailable).

(** The descriptor is neither dropped nor promoted under the snapshot: it
    is deferred. *)
Definition waits (caps : Capabilities Options) (printer_id : Z) (material_type : string)
    (description : AnycubicCloudEntityDescription) : Prop :=
  dropped' caps printer_id material_type description = false
  /\ deferred' caps printer_id description = true.

(** The descriptors pending for the printer on the platform, when there
    are any, are a non-empty list of deferred ones. *)
Definition settled (caps : Capabilities Options) (platform : string)
    (pending : Pending) (printer_id : Z) : Prop :=
  forall platforms descriptions,
    pending !! printer_id = Some platforms ->
    platforms !! platform = Some descriptions ->
    descriptions <> []
    /\ exists material_type,
         status_material_type Options caps printer_id = Some material_type
         /\ Forall (waits caps printer_id material_type) descriptions.

(** The loop keeps what it has in the two lists and keeps only deferred
    descriptors. *)
Lemma evaluate_descriptors_remaining caps printer_id material_type descriptions :
  forall remaining new_entities remaining' new_entities',
    evaluate_descriptors' caps printer_id material_type descriptions remaining new_entities
    = Ok (remaining', new_entities') ->
    Forall (waits caps printer_id material_type) remaining ->
    Forall (waits caps printer_id material_type) remaining'.
Proof.
  induction descriptions as [|d rest IH]; intros remaining new_entities remaining'
    new_entities' Hrun Hrem; cbn in Hrun.
  - by injection Hrun as <- _.
  - destruct (dropped' caps printer_id material_type d) eqn:Hdrop.
    + eapply IH; eauto.
    + destruct (deferred' caps printer_id d) eqn:Hdefer.
      * eapply IH; [exact Hrun|]. apply Forall_app. split; [done|].
        constructor; [by split | constructor].
      * destruct (printer_entity_type d); [|discriminate]. eapply IH; eauto.
Qed.

(** Deferred descriptors are all kept, and nothing is promoted. *)
Lemma evaluate_descriptors_deferred caps printer_id material_type descriptions :
  Forall (waits caps printer_id material_type) descriptions ->
  forall remaining new_entities,
    evaluate_descriptors' caps printer_id material_type descriptions remaining new_entities
    = Ok (remaining ++ descriptions, new_entities).
Proof.
  induction 1 as [|d rest [Hdrop Hdefer] _ IH]; intros remaining new_entities; cbn.
  - by rewrite app_nil_r.
  - rewrite Hdrop, Hdefer, IH, <- app_assoc. reflexivity.
Qed.

(** A printer whose pending descriptors are settled is passed over: the
    map and the new entities are as they were. *)
Lemma evaluate_printer_settled caps platform printer_id (pending : Pending) new_entities :
  settled caps platform pending printer_id ->
  evaluate_printer' caps platform printer_id pending new_entities
  = (Ok new_entities, pending).
Proof.
  intros Hsettled. unfold evaluate_printer.
  destruct (pending !! printer_id) as [platforms|] eqn:Hpid; [|reflexivity].
  destruct (platforms !! platform) as [descriptions|] eqn:Hplat; [|reflexivity].
  destruct (Hsettled platforms descriptions Hpid Hplat) as (Hne & mt & Hmt & Hwait).
  rewrite Hmt, (evaluate_descriptors_deferred caps printer_id mt descriptions Hwait).
  cbn [app].
  replace (0 <? Z.of_nat (length descriptions)) with true
    by (symmetry; apply Z.ltb_lt; destruct descriptions; [done | cbn; lia]).
  rewrite (insert_id platforms platform descriptions Hplat).
  rewrite (insert_id pending printer_id platforms Hpid).
  replace (Z.of_nat (size platforms) =? 0) with false; [reflexivity|].
  symmetry. apply Z.eqb_neq. intros Hsize.
  assert (size platforms = 0%nat) as Hzero by lia.
  apply map_size_empty_iff in Hzero. rewrite Hzero, lookup_empty in Hplat. discriminate.
Qed.

(** A step that raises leaves the map as it was. *)
Lemma evaluate_printer_raise caps platform printer_id (pending pending' : Pending)
    new_entities e :
  evaluate_printer' caps platform printer_id pending new_entities = (Raise e, pending') ->
  pending' = pending.
Proof.
  unfold evaluate_printer.
  destruct (pending !! printer_id) as [platforms|]; [|by intros [= <-]].
  destruct (platforms !! platform) as [descriptions|]; [|by intros [= <-]].
  destruct (status_material_type Options caps printer_id) as [mt|]; [|by intros [= <-]].
  destruct (evaluate_descriptors' caps printer_id mt descriptions [] new_entities)
    as [[remaining new']|e']; [discriminate | by intros [= _ <-]].
Qed.

(** A step that returns settles its printer and touches no other. *)
Lemma evaluate_printer_returns caps platform printer_id (pending pending' : Pending)
    new_entities new_entities' :
  evaluate_printer' caps platform printer_id pending new_entities
  = (Ok new_entities', pending') ->
  settled caps platform pending' printer_id
  /\ (forall other, other <> printer_id -> pending' !! other = pending !! other).
Proof.
  unfold evaluate_printer.
  destruct (pending !! printer_id) as [platforms|] eqn:Hpid;
    [|intros [= _ <-]; split; [|done]; intros ps ds Hps; congruence].
  destruct (platforms !! platform) as [descriptions|] eqn:Hplat;
    [|intros [= _ <-]; split; [|done]; intros ps ds Hps Hds; congruence].
  destruct (status_material_type Options caps printer_id) as [mt|] eqn:Hmt; [|discriminate].
  destruct (evaluate_descriptors' caps printer_id mt descriptions [] new_entities)
    as [[remaining new']|e'] eqn:Hrun; [|discriminate].
  pose proof (evaluate_descriptors_remaining caps printer_id mt descriptions _ _ _ _ Hrun
                ltac:(constructor)) as Hwait.
  destruct remaining as [|d remaining]; cbn [length].
  - replace (0 <? Z.of_nat 0) with false by reflexivity.
    destruct (Z.of_nat (size (delete platform platforms)) =? 0) eqn:Hsize;
      intros [= _ <-]; split.
    + intros ps ds Hps. by rewrite lookup_delete_eq in Hps.
    + intros other Hother. by rewrite lookup_delete_ne, lookup_insert_ne.
    + intros ps ds Hps Hds. rewrite lookup_insert_eq in Hps. injection Hps as <-.
      by rewrite lookup_delete_eq in Hds.
    + intros other Hother. by rewrite lookup_insert_ne.
  - replace (0 <? Z.of_nat (S (length remaining))) with true
      by (symmetry; apply Z.ltb_lt; lia).
    replace (Z.of_nat (size (<[platform:=d :: remaining]> platforms)) =? 0) with false.
    + intros [= _ <-]; split.
      * intros ps ds Hps Hds. rewrite lookup_insert_eq in Hps. injection Hps as <-.
        rewrite lookup_insert_eq in Hds. injection Hds as <-.
        split; [done|]. by exists mt.
      * intros other Hother. by rewrite lookup_insert_ne.
    + symmetry. apply Z.eqb_neq. intros Hsize.
      assert (size (<[platform:=d :: remaining]> platforms) = 0%nat) as Hzero by lia.
      apply map_size_empty_iff in Hzero.
      apply (f_equal (fun m => m !! platform)) in Hzero.
      rewrite lookup_insert_eq, lookup_empty in Hzero. discriminate.
Qed.

(** A step keeps every printer that was settled settled. *)
Lemma evaluate_printer_keeps_settled caps platform printer_id (pending pending' : Pending)
    new_entities r other :
  evaluate_printer' caps platform printer_id pending new_entities = (r, pending') ->
  settled caps platform pending other ->
  settled caps platform pending' other.
Proof.
  intros Hrun Hsettled. destruct r as [new'|e].
  - apply evaluate_printer_returns in Hrun as [Hthis Hothers].
    destruct (decide (other = printer_id)) as [->|Hne]; [done|].
    unfold settled. by rewrite Hothers.
  - apply evaluate_printer_raise in Hrun. by subst.
Qed.

Lemma evaluate_printers_keep_settled caps platform printer_ids :
  forall (pending pending' : Pending) new_entities r other,
    evaluate_printers' caps platform printer_ids pending new_entities = (r, pending') ->
    settled caps platform pending other ->
    settled caps platform pending' other.
Proof.
  induction printer_ids as [|printer_id rest IH];
    intros pending pending' new_entities r other Hrun Hsettled; cbn in Hrun.
  - by injection Hrun as _ <-.
  - destruct (evaluate_printer' caps platform printer_id pending new_entities)
      as [[new'|e] pending1] eqn:Hstep.
    + eapply IH; [exact Hrun|]. eapply evaluate_printer_keeps_settled; eauto.
    + injection Hrun as _ <-. eapply evaluate_printer_keeps_settled; eauto.
Qed.

(** Whether the inner loop raises does not depend on what the two lists
    hold. *)
Lemma evaluate_descriptors_raise caps printer_id material_type descriptions :
  forall remaining new_entities e remaining' new_entities',
    evaluate_descriptors' caps printer_id material_type descriptions remaining new_entities
    = Raise e ->
    evaluate_descriptors' caps printer_id material_type descriptions remaining' new_entities'
    = Raise e.
Proof.
  induction descriptions as [|d rest IH]; intros remaining new_entities e remaining'
    new_entities' Hrun; cbn in *; [discriminate|].
  destruct (dropped' caps printer_id material_type d); [eauto|].
  destruct (deferred' caps printer_id d); [eauto|].
  destruct (printer_entity_type d); [eauto | done].
Qed.

Lemma evaluate_printer_raise_again caps platform printer_id (pending pending' : Pending)
    new_entities e again :
  evaluate_printer' caps platform printer_id pending new_entities = (Raise e, pending') ->
  evaluate_printer' caps platform printer_id pending again = (Raise e, pending).
Proof.
  unfold evaluate_printer.
  destruct (pending !! printer_id) as [platforms|]; [|discriminate].
  destruct (platforms !! platform) as [descriptions|]; [|discriminate].
  destruct (status_material_type Options caps printer_id) as [mt|]; [|by intros [= <- _]].
  destruct (evaluate_descriptors' caps printer_id mt descriptions [] new_entities)
    as [[remaining new']|e'] eqn:Hrun; [discriminate|].
  intros [= <- _].
  by rewrite (evaluate_descriptors_raise _ _ _ _ _ _ _ [] again Hrun).
Qed.

(** Running the loop again on the map a run left passes over every
    printer the run passed, and fails where the run failed. *)
Lemma evaluate_printers_again caps platform printer_ids :
  forall (pending pending' : Pending) new_entities r again,
    evaluate_printers' caps platform printer_ids pending new_entities = (r, pending') ->
    evaluate_printers' caps platform printer_ids pending' again
    = (match r with
       | Ok _ => Ok again
       | Raise e => Raise e
       end, pending').
Proof.
  induction printer_ids as [|printer_id rest IH];
    intros pending pending' new_entities r again Hrun; cbn in Hrun.
  - by injection Hrun as <- <-.
  - destruct (evaluate_printer' caps platform printer_id pending new_entities)
      as [[new'|e] pending1] eqn:Hstep.
    + pose proof (evaluate_printer_returns _ _ _ _ _ _ _ Hstep) as [Hthis _].
      pose proof (evaluate_printers_keep_settled _ _ _ _ _ _ _ _ Hrun Hthis) as Hlater.
      cbn. rewrite (evaluate_printer_settled _ _ _ _ again Hlater).
      eapply IH. exact Hrun.
    + injection Hrun as <- <-.
      pose proof (evaluate_printer_raise _ _ _ _ _ _ _ Hstep) as ->.
      cbn. by rewrite (evaluate_printer_raise_again _ _ _ _ _ _ _ again Hstep).
Qed.

(** C8: running [_add_entities_for_unregistered_descriptors] a second time
    under the same capability snapshot, on the pending map the first run
    left, delivers no entity and leaves the map as the first run left it;
    after a first run that returned, the second returns too, and what is
    still pending for a configured printer on the platform is a non-empty
    list of descriptors that the snapshot defers. *)
Theorem registration_idempotent (caps : Capabilities Options) (platform : string)
    (printer_ids : list Z) (pending : Pending) :
  let first := run' caps platform printer_ids pending in
  let second := run' caps platform printer_ids (snd first) in
  snd second = snd first
  /\ promotions (fst second) = []
  /\ (forall new_entities, fst first = Ok new_entities ->
      fst second = Ok []
      /\ forall printer_id, In printer_id printer_ids ->
         settled caps platform (snd first) printer_id).
Proof.
  cbv zeta. unfold _add_entities_for_unregistered_descriptors.
  destruct (evaluate_printers' caps platform printer_ids pending []) as [r pending']
    eqn:Hfirst.
  cbn [fst snd]. rewrite (evaluate_printers_again _ _ _ _ _ _ _ [] Hfirst). cbn [fst snd].
  split; [reflexivity|]. split; [by destruct r|].
  intros new_entities ->. split; [reflexivity|].
  clear -Hfirst. revert pending new_entities Hfirst.
  generalize (@nil Entity) as acc.
  induction printer_ids as [|p rest IH]; intros acc pending new_entities Hrun printer_id
    Hin; [destruct Hin|].
  cbn in Hrun.
  destruct (evaluate_printer' caps platform p pending acc) as [[new'|e] pending1]
    eqn:Hstep; [|discriminate].
  destruct Hin as [<-|Hin].
  - apply evaluate_printer_returns in Hstep as [Hthis _].
    eapply evaluate_printers_keep_settled; eauto.
  - eapply IH; eauto.
Qed.

End RegistrationProperties.

(** * Concrete runs *)

Definition printer_of (busy online : bool) : AnycubicPrinter :=
  {| is_busy := busy; printer_online := online;
     primary_drying_status_is_drying := false;
     secondary_drying_status_is_drying := false;
     latest_project_print_in_progress := false |}.

Definition api_of (started login : bool) : AnycubicAPI :=
  {| mqtt_is_started := started; supports_mqtt_login := login |}.

Definition coordinator_of (api : option AnycubicAPI)
    (printers : list (Z * AnycubicPrinter)) (mode : AnycubicMQTTConnectMode)
    (manual : bool) (last_action : option Z) (task : option nat)
    (failed : Z) (last_update : option Z) : Coordinator :=
  {| _anycubic_api := api;
     _anycubic_printers := printers;
     _last_state_update := last_update;
     _failed_updates := failed;
     _mqtt_task := task;
     _mqtt_manually_connected := manual;
     _mqtt_idle_since := None;
     _mqtt_last_action := last_action;
     _mqtt_refresh_lock_locked := false;
     _mqtt_connection_mode := mode;
     _printer_device_map := Some [1] |}.

Definition world_of (c : Coordinator) : World :=
  {| self := c; hass := {| is_stopping := false; state := running |};
     clock := 0; trace := [] |}.

(** An environment in which every reading of the clock is [t], the
    credential check answers [tokens] and the unsubscribe request for a
    printer answers [unsubscribe]; every other request succeeds. *)
Definition env_of (t : Z) (tokens : Res bool) (unsubscribe : Z -> Res unit) : Env :=
  {| time_at := fun _ => t;
     check_api_tokens_result := tokens;
     tokens_changed := false;
     store_async_save_result := Ok tt;
     update_info_from_api_result := fun _ => Ok (printer_of false true);
     mqtt_add_subscribed_printer_result := fun _ => Ok tt;
     async_add_executor_job_connect := 7%nat;
     mqtt_unsubscribe_printer_status_result := unsubscribe;
     disconnect_mqtt_result := Ok tt;
     mqtt_wait_for_disconnect_result := Ok tt;
     mqtt_wait_for_connect_result := Ok true;
     mqtt_task_done := false;
     CONF_PRINTER_ID_LIST := [1] |}.

Definition env_at (t : Z) : Env := env_of t (Ok true) (fun _ => Ok tt).

(** One busy printer, Printing_Only, nothing else going on. *)
Definition busy_world (login : bool) : World :=
  world_of (coordinator_of (Some (api_of false login)) [(1, printer_of true true)]
              Printing_Only false None None 0 None).

Lemma should_start_iff_mode_activity_witness :
  exists b,
    fst (_anycubic_mqtt_connection_should_start 180 (env_at 1000) (busy_world true)) = Ok b
    /\ (b = true <-> mode_activity Printing_Only (self (busy_world true))).
Proof.
  apply (should_start_iff_mode_activity 180 (env_at 1000) (busy_world true)
           (api_of false true)); try reflexivity; try discriminate.
  intros (last_action & Hlast & _). discriminate.
Defined.

(** C1 as stated fails: every condition of the claim holds and a printer
    is busy, yet the channel is not to be started, because the
    authentication does not support MQTT login. *)
Lemma should_start_without_mqtt_login_counterexample :
  _mqtt_connection_mode (self (busy_world false)) = Printing_Only
  /\ _anycubic_api (self (busy_world false)) = Some (api_of false false)
  /\ mqtt_is_started (api_of false false) = false
  /\ is_stopping (hass (busy_world false)) = false
  /\ state (hass (busy_world false)) = running
  /\ _mqtt_last_action (self (busy_world false)) = None
  /\ _mqtt_manually_connected (self (busy_world false)) = false
  /\ mode_activity Printing_Only (self (busy_world false))
  /\ fst (_anycubic_mqtt_connection_should_start 180 (env_at 1000) (busy_world false))
     = Ok false.
Proof.
  repeat split.
  exists 1, (printer_of true true). split; [by left | reflexivity].
Qed.

(** Never_Connect with a busy printer, the manual override set and a user
    action ten seconds ago. *)
Definition never_connect_world : World :=
  world_of (coordinator_of (Some (api_of false true)) [(1, printer_of true true)]
              Never_Connect true (Some 990) None 0 None).

Lemma never_connect_never_starts_witness :
  _anycubic_mqtt_connection_should_start 180 (env_at 1000) never_connect_world
  = (Ok false, never_connect_world).
Proof.
  apply (never_connect_never_starts 180 (env_at 1000) never_connect_world).
  reflexivity.
Defined.

(** Always, with a busy printer, the manual override set and a user
    action ten seconds ago, on an account without MQTT login. *)
Definition no_login_world : World :=
  world_of (coordinator_of (Some (api_of false false)) [(1, printer_of true true)]
              Always true (Some 990) None 0 None).

Lemma no_mqtt_login_never_starts_witness :
  _anycubic_mqtt_connection_should_start 180 (env_at 1000) no_login_world
  = (Ok false, no_login_world).
Proof.
  apply (no_mqtt_login_never_starts 180 (env_at 1000) no_login_world (api_of false false));
    reflexivity.
Defined.

(** An open channel, an idle and offline printer, and a user action fifty
    seconds ago. *)
Definition grace_world : World :=
  world_of (coordinator_of (Some (api_of true true)) [(1, printer_of false false)]
              Printing_Only false (Some 950) (Some 7%nat) 0 None).

Lemma grace_window_precedence_witness :
  fst (_check_mqtt_connection_modes_inactive 180 (env_at 1000) grace_world) = Ok false
  /\ fst (_anycubic_mqtt_connection_is_idle 180 900 (env_at 1000) grace_world) = Ok false
  /\ fst (_anycubic_mqtt_connection_should_stop 180 900 (env_at 1000) grace_world)
     = Ok false.
Proof.
  assert (action_within_grace 180 (env_at 1000) grace_world) as Hgrace
    by (exists 950; split; [reflexivity | cbn; lia]).
  destruct (grace_window_precedence 180 900 (env_at 1000) grace_world Hgrace)
    as (Hinactive & Hidle & Hstop).
  split; [exact Hinactive|]. split; [exact Hidle|].
  apply (Hstop (api_of true true)); reflexivity.
Defined.

(** An open channel and an idle printer, in Printing_Only mode: every
    observation is idle-eligible. *)
Definition idle_fleet_world : World :=
  world_of (coordinator_of (Some (api_of true true)) [(1, printer_of false true)]
              Printing_Only false None (Some 7%nat) 0 None).

Definition observation_at (t : Z) : Env * World := (env_at t, idle_fleet_world).

Lemma observation_at_eligible t : eligible_observation 180 (observation_at t).
Proof. split; [intros k; reflexivity | reflexivity]. Qed.

Lemma idle_tracker_debounced_witness :
  idle_checks 180 900 None
    (observation_at 0 :: [observation_at 300; observation_at 900]
       ++ observation_at 901 :: [observation_at 902])
  = (repeat (Ok false) 3 ++ Ok true
       :: fst (idle_checks 180 900 None [observation_at 902]),
     snd (idle_checks 180 900 None [observation_at 902])).
Proof.
  apply (proj2 (proj2 (idle_tracker_debounced 180 900 ltac:(lia)))
           (observation_at 0) [observation_at 300; observation_at 900]
           (observation_at 901) [observation_at 902]).
  - apply observation_at_eligible.
  - repeat constructor; try (intros k; reflexivity); cbn; lia.
  - apply observation_at_eligible.
  - cbn. lia.
Defined.

(** C4 as stated fails: one sustained span of idle-eligible observations,
    with no other observation in between, in which the idle check returns
    true twice. *)
Lemma sustained_span_fires_twice_counterexample :
  Forall (eligible_observation 180)
    [observation_at 0; observation_at 901; observation_at 902; observation_at 1803]
  /\ idle_checks 180 900 None
       [observation_at 0; observation_at 901; observation_at 902; observation_at 1803]
     = ([Ok false; Ok true; Ok false; Ok true], None).
Proof.
  split; [repeat constructor; try (intros k; reflexivity) | reflexivity].
Qed.

(** Two printers and a task that is not done; the unsubscribe request of
    printer 1 raises. *)
Definition two_printer_world : World :=
  world_of (coordinator_of (Some (api_of true true))
              [(1, printer_of false true); (2, printer_of false true)]
              Printing_Only false None (Some 7%nat) 0 None).

Definition unsubscribe_1_raises : Env :=
  env_of 1000 (Ok true) (fun printer_id =>
    if printer_id =? 1 then Raise AnycubicAPIError else Ok tt).

(** C7 as stated fails: the error of the first unsubscribe request ends
    the stop sequence; printer 2 is not unsubscribed, no disconnect is
    requested and the task is neither cancelled nor dropped. *)
Lemma stop_aborts_on_unsubscribe_error_counterexample :
  fst (_stop_anycubic_mqtt_connection unsubscribe_1_raises two_printer_world)
  = Raise AnycubicAPIError
  /\ trace (snd (_stop_anycubic_mqtt_connection unsubscribe_1_raises two_printer_world))
     = [mqtt_unsubscribe_printer_status 1]
  /\ _mqtt_task (self (snd (_stop_anycubic_mqtt_connection unsubscribe_1_raises
                              two_printer_world)))
     = Some 7%nat.
Proof. repeat split. Qed.

Lemma stop_unsubscribe_error_propagates_witness :
  (exists w',
     _stop_anycubic_mqtt_connection unsubscribe_1_raises two_printer_world
     = (Raise AnycubicAPIError, w')
     /\ self w' = self two_printer_world
     /\ trace w' = trace two_printer_world ++ unsubscribed []
                     ++ [mqtt_unsubscribe_printer_status 1])
  /\ (exists w',
        _stop_anycubic_mqtt_connection (env_at 1000) two_printer_world = (Ok tt, w')
        /\ self w' = set_mqtt_task None (self two_printer_world)
        /\ trace w' = trace two_printer_world
                        ++ stop_events (env_at 1000) (self two_printer_world)).
Proof.
  split.
  - apply (proj1 (stop_unsubscribe_error_propagates unsubscribe_1_raises
                    two_printer_world (api_of true true) eq_refl)
             [] 1 (printer_of false true) [(2, printer_of false true)] AnycubicAPIError);
      [reflexivity | constructor | reflexivity].
  - apply (proj2 (stop_unsubscribe_error_propagates (env_at 1000)
                    two_printer_world (api_of true true) eq_refl));
      [repeat constructor | reflexivity | reflexivity].
Defined.

Lemma stop_leaves_no_task_witness :
  _mqtt_task (self (snd (_stop_anycubic_mqtt_connection (env_at 1000) two_printer_world)))
  = None
  /\ exists requests,
       trace (snd (_stop_anycubic_mqtt_connection (env_at 1000) two_printer_world))
       = requests ++ [task_cancel 7].
Proof.
  destruct (stop_leaves_no_task (env_at 1000) two_printer_world
              (snd (_stop_anycubic_mqtt_connection (env_at 1000) two_printer_world))
              eq_refl) as [Hnone Hcancel].
  split; [exact Hnone|]. apply (Hcancel 7%nat); reflexivity.
Defined.

(** A coordinator in Never_Connect mode with one printer, polled by an
    API whose credential check raises a transient error. *)
Definition polled_world (failed : Z) : World :=
  world_of (coordinator_of (Some (api_of false true)) [(1, printer_of false true)]
              Never_Connect false None None failed (Some 900)).

Definition api_down (t : Z) : Env := env_of t (Raise AnycubicAPIError) (fun _ => Ok tt).

Definition after_three_failures : World :=
  snd (get_anycubic_updates 180 900 3 60 (api_down 1100)
         (snd (get_anycubic_updates 180 900 3 60 (api_down 1040)
                 (snd (get_anycubic_updates 180 900 3 60 (api_down 980)
                         (polled_world 0)))))).

Lemma failure_budget_cooldown_witness :
  _failed_updates (self after_three_failures) = 3
  /\ exists w',
       get_anycubic_updates 180 900 3 60 (env_at 1160) after_three_failures = (Ok false, w')
       /\ trace w' = trace after_three_failures
       /\ _failed_updates (self w') = 0
       /\ _last_state_update (self w')
          = Some (time_at (env_at 1160) (clock after_three_failures) + 60).
Proof.
  destruct (failure_budget_cooldown 180 900 3 60 60) as (Hcount & Hcool & _).
  split.
  - apply (Hcount [api_down 980; api_down 1040; api_down 1100] (polled_world 0));
      [reflexivity | | reflexivity].
    repeat (eapply failed_polls_cons; [reflexivity | split; discriminate |]).
    apply failed_polls_nil.
  - apply Hcool. vm_compute. discriminate.
Defined.

(** The credential check answers false. *)
Definition tokens_rejected : Env := env_of 1000 (Ok false) (fun _ => Ok tt).

Lemma auth_failure_bypasses_budget_witness :
  get_anycubic_updates 180 900 3 60 tokens_rejected (polled_world 2)
  = (Raise ConfigEntryAuthFailed,
     record check_api_tokens (entered tokens_rejected (polled_world 2)))
  /\ _failed_updates
       (self (record check_api_tokens (entered tokens_rejected (polled_world 2)))) = 2
  /\ _last_state_update
       (self (record check_api_tokens (entered tokens_rejected (polled_world 2))))
     = Some 1000.
Proof.
  apply (proj1 (auth_failure_bypasses_budget 180 900 3 60 tokens_rejected
                  (polled_world 2)
                  (record check_api_tokens (entered tokens_rejected (polled_world 2)))
                  ConfigEntryAuthFailed ltac:(cbn; lia) eq_refl));
    reflexivity.
Defined.

(** Three descriptors pending for printer 1 on the sensor platform: one
    to promote, one to drop for good, one to defer while no ACE unit is
    connected. *)
Definition fw_version : AnycubicCloudEntityDescription :=
  {| key := "fw_version"; printer_entity_type := Some 1 |}.
Definition job_current_layer : AnycubicCloudEntityDescription :=
  {| key := "job_current_layer"; printer_entity_type := Some 2 |}.
Definition ace_spools : AnycubicCloudEntityDescription :=
  {| key := "ace_spools"; printer_entity_type := Some 3 |}.

Definition fdm_without_ace_unit : Capabilities unit :=
  {| status_material_type := fun _ => Some "Filament"%string;
     printer_state_connected_ace_units := fun _ => 0;
     printer_state_supports_ace := fun _ => true;
     entry_options := tt |}.

(** Exclusion predicates in the manner of [helpers.py], by entity type:
    2 is for resin printers only, 4 for filament printers only, 3 needs a
    connected ACE unit. *)
Definition has_type (d : AnycubicCloudEntityDescription) (n : Z) : bool :=
  match printer_entity_type d with
  | Some k => k =? n
  | None => false
  end.

Definition example_run (pending : gmap Z (gmap string (list AnycubicCloudEntityDescription)))
  : Res (list Entity) * gmap Z (gmap string (list AnycubicCloudEntityDescription)) :=
  _add_entities_for_unregistered_descriptors unit
    (fun d material_type => has_type d 2 && negb (String.eqb material_type "Resin"))
    (fun d material_type => has_type d 4 && negb (String.eqb material_type "Filament"))
    (fun d supports_ace => has_type d 3 && negb supports_ace)
    (fun d supports_ace units => has_type d 3 && supports_ace && (units <? 1))
    (fun d supports_ace units => false)
    (fun d supports_ace units options => false)
    fdm_without_ace_unit "sensor" [1] pending.

Definition example_pending : gmap Z (gmap string (list AnycubicCloudEntityDescription)) :=
  {[ 1 := {[ "sensor"%string := [fw_version; job_current_layer; ace_spools] ]} ]}.

Lemma registration_idempotent_witness :
  fst (example_run example_pending) = Ok [(1, fw_version)]
  /\ snd (example_run example_pending) !! 1 = Some {[ "sensor"%string := [ace_spools] ]}
  /\ snd (example_run (snd (example_run example_pending)))
     = snd (example_run example_pending)
  /\ promotions (fst (example_run (snd (example_run example_pending)))) = [].
Proof.
  split; [vm_compute; reflexivity|]. split; [vm_compute; reflexivity|].
  destruct (registration_idempotent unit
              (fun d material_type => has_type d 2 && negb (String.eqb material_type "Resin"))
              (fun d material_type => has_type d 4 && negb (String.eqb material_type "Filament"))
              (fun d supports_ace => has_type d 3 && negb supports_ace)
              (fun d supports_ace units => has_type d 3 && supports_ace && (units <? 1))
              (fun d supports_ace units => false)
              (fun d supports_ace units options => false)
              fdm_without_ace_unit "sensor" [1] example_pending) as (Hmap & Hnone & _).
  split; [exact Hmap | exact Hnone].
Defined.

(** * Further properties of the coordinator *)

(** ** The policy evaluator, continued *)

Lemma no_printing_excludes_printing c :
  _no_printers_are_printing c = true -> _any_printers_are_printing c = false.
Proof.
  unfold _no_printers_are_printing, _any_printers_are_printing.
  induction (_anycubic_printers c) as [|[printer_id printer] rest IH]; cbn; [done|].
  destruct (is_busy printer); cbn; [discriminate|].
  destruct (latest_project_print_in_progress printer); cbn; [discriminate | exact IH].
Qed.

(** The activity tests each mode makes to open the channel and to let it
    idle never hold together: a fleet is not at once active and
    idle-eligible, at any reading of the clock. *)
Theorem idle_eligible_excludes_active (grace : Z) (env : Env) (w : World) :
  eligible grace env w = true ->
  fst (_check_mqtt_connection_modes_active grace env w) = Ok false.
Proof.
  unfold eligible, _check_mqtt_connection_modes_inactive,
    _check_mqtt_connection_modes_active, _check_mqtt_connection_last_action_waiting.
  run_m.
  destruct (_mqtt_last_action (self w)) as [last_action|]; cbn;
    [destruct (time_at env (clock w) <? last_action + grace); cbn; [discriminate|]|];
    destruct (_mqtt_connection_mode (self w)); cbn; try discriminate.
  all: try (destruct (_no_printers_are_printing (self w)) eqn:Hno; cbn; [|discriminate];
            rewrite (no_printing_excludes_printing _ Hno); cbn).
  all: try (destruct (_any_printers_are_drying (self w)); cbn; [discriminate|]).
  all: try (destruct (_any_printers_are_online (self w)); cbn; [discriminate|]).
  all: reflexivity.
Qed.

(** In the modes Always and Never_Connect no observation is
    idle-eligible. *)
Lemma never_eligible_in_always_or_never_connect grace env w :
  _mqtt_connection_mode (self w) = Always
  \/ _mqtt_connection_mode (self w) = Never_Connect ->
  eligible grace env w = false.
Proof.
  intros Hmode.
  unfold eligible, _check_mqtt_connection_modes_inactive,
    _check_mqtt_connection_last_action_waiting. run_m.
  destruct (_mqtt_last_action (self w)) as [last_action|]; cbn;
    [destruct (time_at env (clock w) <? last_action + grace); cbn; [reflexivity|]|];
    destruct Hmode as [-> | ->]; reflexivity.
Qed.

(** The idle check always answers. *)
Lemma is_idle_answers grace idle env w :
  exists b w',
    _anycubic_mqtt_connection_is_idle grace idle env w = (Ok b, w')
    /\ (eligible grace env w = false -> b = false)
    /\ hass w' = hass w /\ trace w' = trace w
    /\ _mqtt_manually_connected (self w') = _mqtt_manually_connected (self w)
    /\ _anycubic_api (self w') = _anycubic_api (self w).
Proof.
  destruct (modes_inactive_runs grace env w) as (w1 & Hrun & Hs & Hh & Ht).
  unfold _anycubic_mqtt_connection_is_idle, bind at 1. rewrite Hrun.
  destruct (eligible grace env w); run_m.
  - rewrite ?Hs. destruct (_mqtt_idle_since (self w)) as [since|] eqn:Hsince; cbn;
      rewrite ?Hs, ?Hsince; cbn.
    + destruct (since + idle <? time_at env (clock w1)); cbn;
        do 2 eexists; (split; [reflexivity|]); cbn; rewrite ?Hs; done.
    + destruct (time_at env (clock w1) + idle <? time_at env (S (clock w1))); cbn;
        do 2 eexists; (split; [reflexivity|]); cbn; rewrite ?Hs; done.
  - do 2 eexists. split; [reflexivity|]. cbn. rewrite ?Hs. done.
Qed.

(** In the modes Always and Never_Connect the channel is never closed for
    idleness: [_anycubic_mqtt_connection_should_stop] is true exactly when
    the channel is started and the host is stopping. *)
Theorem no_idle_stop_in_always_or_never_connect (grace idle : Z) (env : Env) (w : World)
    (api : AnycubicAPI) :
  _mqtt_connection_mode (self w) = Always
  \/ _mqtt_connection_mode (self w) = Never_Connect ->
  _anycubic_api (self w) = Some api ->
  fst (_anycubic_mqtt_connection_should_stop grace idle env w)
  = Ok (mqtt_is_started api && is_stopping (hass w)).
Proof.
  intros Hmode Hapi.
  destruct (is_idle_answers grace idle env w) as (b & w' & Hidle & Hb & _).
  rewrite (Hb (never_eligible_in_always_or_never_connect grace env w Hmode)) in Hidle.
  unfold _anycubic_mqtt_connection_should_stop. run_m.
  rewrite Hapi; cbn. destruct (mqtt_is_started api); cbn; [|reflexivity].
  destruct (is_stopping (hass w)); cbn; [reflexivity|].
  rewrite Hidle. reflexivity.
Qed.

(** Host shutdown and the manual override: with the channel started, a
    stopping host makes [_anycubic_mqtt_connection_should_stop] true
    whatever the override, without running the idle check; on a host that
    is not stopping the override makes it false whatever the printers, the
    mode and the clock are. *)
Theorem manual_override_yields_to_shutdown_only (grace idle : Z) (env : Env) (w : World)
    (api : AnycubicAPI) :
  _anycubic_api (self w) = Some api ->
  mqtt_is_started api = true ->
  (is_stopping (hass w) = true ->
     _anycubic_mqtt_connection_should_stop grace idle env w = (Ok true, w))
  /\ (is_stopping (hass w) = false ->
      _mqtt_manually_connected (self w) = true ->
      fst (_anycubic_mqtt_connection_should_stop grace idle env w) = Ok false).
Proof.
  intros Hapi Hstarted. split.
  - intros Hstop. unfold _anycubic_mqtt_connection_should_stop. run_m.
    rewrite Hapi; cbn. rewrite Hstarted; cbn. rewrite Hstop. reflexivity.
  - intros Hstop Hmanual.
    destruct (is_idle_answers grace idle env w) as (b & w' & Hidle & _ & _ & _ & Hm & _).
    unfold _anycubic_mqtt_connection_should_stop. run_m.
    rewrite Hapi; cbn. rewrite Hstarted; cbn. rewrite Hstop; cbn.
    rewrite Hidle, Hm, Hmanual. by destruct b.
Qed.

(** ** The connection check *)

(** The method adds no request that [f] selects. *)
Definition silent (f : Event -> bool) : World -> World -> Prop :=
  fun w w' => filter f (trace w') = filter f (trace w).

#[local] Instance silent_framed f : Framed (silent f).
Proof.
  split; unfold silent.
  - reflexivity.
  - intros w1 w2 w3 H12 H23. congruence.
  - reflexivity.
Qed.

Lemma silent_record f ev w : f ev = false -> silent f w (record ev w).
Proof.
  intros Hev. unfold silent. cbn. rewrite filter_app. cbn.
  rewrite decide_False by (rewrite Hev; auto). apply app_nil_r.
Qed.

(** The method writes nothing and requests nothing; it may read the
    clock. *)
Definition untouched : World -> World -> Prop :=
  fun w w' => self w' = self w /\ hass w' = hass w /\ trace w' = trace w.

#[local] Instance untouched_framed : Framed untouched.
Proof.
  split; unfold untouched.
  - done.
  - intros w1 w2 w3 (?&?&?) (?&?&?). repeat split; congruence.
  - done.
Qed.

(** The requests of the stop sequence. *)
Definition is_stop_request (ev : Event) : bool :=
  match ev with
  | mqtt_unsubscribe_printer_status _ | disconnect_mqtt | mqtt_wait_for_disconnect
  | task_cancel _ => true
  | _ => false
  end.

Lemma silent_stop f :
  (forall ev, is_stop_request ev = true -> f ev = false) ->
  preserves (silent f) _stop_anycubic_mqtt_connection.
Proof.
  intros Hf. unfold _stop_anycubic_mqtt_connection.
  frame; first [apply silent_record; apply Hf; reflexivity | reflexivity].
Qed.

Lemma silent_should_stop f grace idle :
  preserves (silent f) (_anycubic_mqtt_connection_should_stop grace idle).
Proof. apply preserves_should_stop; [apply _ | reflexivity]. Qed.

(** The loop that registers the printers with the channel. *)
Definition subscribe_printer (p : Z * AnycubicPrinter) : M unit :=
  let '(printer_id, printer) := p in
  let* api := anycubic_api in
  call (mqtt_add_subscribed_printer printer_id)
       (fun env => mqtt_add_subscribed_printer_result env printer_id).

Definition subscribed (printers : list (Z * AnycubicPrinter)) : list Event :=
  map (fun p => mqtt_add_subscribed_printer (fst p)) printers.

Lemma subscribe_loop_self env printers w :
  self (snd (for_each printers subscribe_printer env w)) = self w.
Proof.
  refine (preserves_for_each (keeps (fun c => c)) printers subscribe_printer _ env w).
  intros [printer_id printer]. unfold subscribe_printer. frame.
Qed.

Lemma subscribe_loop_silent f printers :
  (forall printer_id, f (mqtt_add_subscribed_printer printer_id) = false) ->
  preserves (silent f) (for_each printers subscribe_printer).
Proof.
  intros Hf. apply preserves_for_each; [apply _|].
  intros [printer_id printer]. unfold subscribe_printer.
  frame. by apply silent_record.
Qed.

Lemma subscribe_loop_ok env api printers w :
  _anycubic_api (self w) = Some api ->
  Forall (fun p => mqtt_add_subscribed_printer_result env (fst p) = Ok tt) printers ->
  exists w', for_each printers subscribe_printer env w = (Ok tt, w')
             /\ self w' = self w /\ hass w' = hass w
             /\ trace w' = trace w ++ subscribed printers.
Proof.
  intros Hapi Hok. revert w Hapi.
  induction Hok as [|[printer_id printer] rest Hp _ IH]; intros w Hapi.
  - exists w. cbn. by rewrite app_nil_r.
  - cbn [for_each]. unfold bind at 1. unfold subscribe_printer at 1. run_m.
    rewrite Hapi. cbn. rewrite Hp.
    edestruct IH as (w' & Hrun & Hs & Hh & Ht); [|rewrite Hrun]; [exact Hapi|].
    exists w'. cbn in *. rewrite Ht, <- app_assoc. done.
Qed.

(** [_check_anycubic_mqtt_connection] by its three outcomes. *)
Lemma check_connection_unfold grace idle refreshing env w :
  _check_anycubic_mqtt_connection grace idle refreshing env w
  = if negb refreshing && _mqtt_refresh_lock_locked (self w) then (Ok tt, w)
    else
      match _anycubic_mqtt_connection_should_start grace env w with
      | (Raise e, w1) => (Raise e, w1)
      | (Ok true, w1) =>
          match for_each (_anycubic_printers (self w1)) subscribe_printer env w1 with
          | (Raise e, w2) => (Raise e, w2)
          | (Ok _, w2) =>
              match _mqtt_task (self w2) with
              | None =>
                  match _anycubic_api (self w2) with
                  | None => (Raise ConfigEntryError, record logger_debug w2)
                  | Some _ =>
                      (Ok tt,
                       with_self
                         (set_mqtt_task (Some (async_add_executor_job_connect env))
                            (self w2))
                         (record (connect_mqtt (async_add_executor_job_connect env))
                            (record logger_debug w2)))
                  end
              | Some _ => (Ok tt, w2)
              end
          end
      | (Ok false, w1) =>
          match _anycubic_mqtt_connection_should_stop grace idle env w1 with
          | (Raise e, w3) => (Raise e, w3)
          | (Ok true, w3) => _stop_anycubic_mqtt_connection env w3
          | (Ok false, w3) => (Ok tt, w3)
          end
      end.
Proof.
  unfold _check_anycubic_mqtt_connection. unfold bind at 1. cbn [get_self].
  destruct (negb refreshing && _mqtt_refresh_lock_locked (self w)); [reflexivity|].
  unfold bind at 1.
  destruct (_anycubic_mqtt_connection_should_start grace env w) as [[[|]|e] w1];
    [| |reflexivity].
  - unfold bind at 1. cbn [get_self]. unfold bind at 1.
    change (fun '(printer_id, _) => _) with subscribe_printer.
    destruct (for_each _ subscribe_printer env w1) as [[[]|e] w2]; [|reflexivity].
    unfold bind at 1. cbn [get_self].
    destruct (_mqtt_task (self w2)); [reflexivity|].
    run_m. destruct (_anycubic_api (self w2)); reflexivity.
  - unfold bind at 1.
    destruct (_anycubic_mqtt_connection_should_stop grace idle env w1) as [[[|]|e] w3];
      reflexivity.
Qed.

Definition is_connect (ev : Event) : bool :=
  match ev with
  | connect_mqtt _ => true
  | _ => false
  end.

Lemma should_start_untouched grace env w :
  untouched w (snd (_anycubic_mqtt_connection_should_start grace env w)).
Proof. apply (preserves_should_start untouched). Qed.

(** While the task slot holds a task, [_check_anycubic_mqtt_connection]
    submits no second connect job, whatever the policy decides and
    whatever the collaborators answer. *)
Theorem check_connection_spawns_no_second_task (grace idle : Z) (refreshing : bool)
    (env : Env) (w : World) (task : nat) :
  _mqtt_task (self w) = Some task ->
  filter is_connect (trace (snd (_check_anycubic_mqtt_connection grace idle refreshing env w)))
  = filter is_connect (trace w).
Proof.
  intros Htask. rewrite check_connection_unfold.
  destruct (negb refreshing && _mqtt_refresh_lock_locked (self w)); [reflexivity|].
  pose proof (should_start_untouched grace env w) as (Hs1 & _ & Ht1).
  destruct (_anycubic_mqtt_connection_should_start grace env w) as [[[|]|e] w1];
    cbn [snd] in *; [| |by rewrite Ht1].
  - pose proof (subscribe_loop_self env (_anycubic_printers (self w1)) w1) as Hs2.
    pose proof (subscribe_loop_silent is_connect (_anycubic_printers (self w1))
                  ltac:(reflexivity) env w1) as Hq.
    unfold silent in Hq.
    destruct (for_each _ subscribe_printer env w1) as [[[]|e] w2]; cbn [snd] in *;
      [|by rewrite Hq, Ht1].
    rewrite Hs2, Hs1, Htask. cbn [snd]. by rewrite Hq, Ht1.
  - pose proof (silent_should_stop is_connect grace idle env w1) as Hq. unfold silent in Hq.
    destruct (_anycubic_mqtt_connection_should_stop grace idle env w1) as [[[|]|e] w3];
      cbn [snd] in *; [|by rewrite Hq, Ht1..].
    pose proof (silent_stop is_connect ltac:(by intros []) env w3) as Hstop.
    unfold silent in Hstop. by rewrite Hstop, Hq, Ht1.
Qed.

(** A start decision needs the API client. *)
Lemma should_start_needs_api grace env w :
  fst (_anycubic_mqtt_connection_should_start grace env w) = Ok true ->
  exists api, _anycubic_api (self w) = Some api.
Proof.
  unfold _anycubic_mqtt_connection_should_start. run_m.
  destruct (mode_eqb (_mqtt_connection_mode (self w)) Never_Connect); cbn; [discriminate|].
  destruct (_anycubic_api (self w)) as [api|]; cbn; [eauto | discriminate].
Qed.

(** When the policy decides to start and every registration succeeds,
    [_check_anycubic_mqtt_connection] registers every printer with the
    channel, in the order of the dictionary, and then submits the connect
    job exactly when the task slot was empty; the slot holds a task
    afterwards and nothing of the stop sequence is requested. *)
Theorem check_connection_starts (grace idle : Z) (refreshing : bool) (env : Env) (w : World) :
  negb refreshing && _mqtt_refresh_lock_locked (self w) = false ->
  fst (_anycubic_mqtt_connection_should_start grace env w) = Ok true ->
  Forall (fun p => mqtt_add_subscribed_printer_result env (fst p) = Ok tt)
         (_anycubic_printers (self w)) ->
  exists w',
    _check_anycubic_mqtt_connection grace idle refreshing env w = (Ok tt, w')
    /\ trace w' = trace w ++ subscribed (_anycubic_printers (self w))
                    ++ match _mqtt_task (self w) with
                       | None => [logger_debug;
                                  connect_mqtt (async_add_executor_job_connect env)]
                       | Some _ => []
                       end
    /\ _mqtt_task (self w')
       = Some (default (async_add_executor_job_connect env) (_mqtt_task (self w))).
Proof.
  intros Hlock Hstart Hsub.
  destruct (should_start_needs_api grace env w Hstart) as [api Hapi].
  rewrite check_connection_unfold, Hlock.
  pose proof (should_start_untouched grace env w) as (Hs1 & _ & Ht1).
  destruct (_anycubic_mqtt_connection_should_start grace env w) as [r w1].
  cbn [fst snd] in *. subst r. rewrite Hs1.
  destruct (subscribe_loop_ok env api (_anycubic_printers (self w)) w1
              ltac:(by rewrite Hs1) Hsub) as (w2 & Hloop & Hs2 & _ & Ht2).
  rewrite Hloop, Hs2, Hs1, Hapi.
  destruct (_mqtt_task (self w)) as [task|] eqn:Htask; eexists; (split; [reflexivity|]); cbn.
  - rewrite Hs2, Hs1, Ht2, Ht1, app_nil_r, Htask. done.
  - rewrite Ht2, Ht1, <- !app_assoc. done.
Qed.

(** ** User actions *)

(** Inside the grace window, on a host that is not stopping, the stop
    decision is not true. *)
Lemma should_stop_inside_grace grace idle env w :
  action_within_grace grace env w ->
  is_stopping (hass w) = false ->
  fst (_anycubic_mqtt_connection_should_stop grace idle env w) <> Ok true.
Proof.
  intros Hgrace Hstop.
  destruct (is_idle_inside grace idle env w Hgrace) as (w' & Hidle & _).
  unfold _anycubic_mqtt_connection_should_stop. run_m.
  destruct (_anycubic_api (self w)) as [api|]; cbn; [|discriminate].
  destruct (mqtt_is_started api); cbn; [|discriminate].
  rewrite Hstop; cbn. rewrite Hidle. discriminate.
Qed.

Lemma connect_for_action_unfold grace idle env w :
  _connect_mqtt_for_action_response grace idle env w
  = match _check_anycubic_mqtt_connection grace idle false env
            (with_self (set_mqtt_last_action (Some (time_at env (clock w))) (self w))
               (tick w)) with
    | (Raise e, w1) => (Raise e, w1)
    | (Ok _, w1) =>
        match _anycubic_api (self w1) with
        | None => (Raise ConfigEntryError, w1)
        | Some _ =>
            match mqtt_wait_for_connect_result env with
            | Raise e => (Raise e, record mqtt_wait_for_connect w1)
            | Ok true => (Ok tt, record mqtt_wait_for_connect w1)
            | Ok false => (Raise HomeAssistantError, record mqtt_wait_for_connect w1)
            end
        end
    end.
Proof.
  unfold _connect_mqtt_for_action_response. unfold bind at 1. cbn [time_time].
  unfold bind at 1. cbn [modify_self]. unfold bind at 1.
  change (with_self _ (tick w))
    with (with_self (set_mqtt_last_action (Some (time_at env (clock w))) (self w)) (tick w)).
  destruct (_check_anycubic_mqtt_connection grace idle false env _) as [[[]|e] w1];
    [|reflexivity].
  run_m. destruct (_anycubic_api (self w1)); [|reflexivity]. cbn.
  destruct (mqtt_wait_for_connect_result env) as [[|]|e]; reflexivity.
Qed.

(** A user action made at one instant, on a host that is not stopping and
    with a positive grace window: [_connect_mqtt_for_action_response]
    records the instant as the last action, requests nothing of the stop
    sequence (an open channel is not torn down by the action that needs
    it), and returns only when the wait for the connection answered
    true. *)
Theorem action_never_stops_the_channel (grace idle : Z) (env : Env) (w : World) (t : Z) :
  0 < grace ->
  observed_at env t ->
  is_stopping (hass w) = false ->
  _mqtt_last_action (self (snd (_connect_mqtt_for_action_response grace idle env w)))
  = Some t
  /\ filter is_stop_request
       (trace (snd (_connect_mqtt_for_action_response grace idle env w)))
     = filter is_stop_request (trace w)
  /\ (fst (_connect_mqtt_for_action_response grace idle env w) = Ok tt ->
      mqtt_wait_for_connect_result env = Ok true).
Proof.
  intros Hgrace Hat Hstop. rewrite connect_for_action_unfold, Hat.
  set (w0 := with_self (set_mqtt_last_action (Some t) (self w)) (tick w)).
  pose proof (preserves_check_connection (keeps _mqtt_last_action) grace idle
                ltac:(reflexivity) ltac:(reflexivity) ltac:(reflexivity) false env w0)
    as Hlast.
  assert (filter is_stop_request
            (trace (snd (_check_anycubic_mqtt_connection grace idle false env w0)))
          = filter is_stop_request (trace w)) as Hquiet.
  { rewrite check_connection_unfold.
    destruct (negb false && _mqtt_refresh_lock_locked (self w0)); [reflexivity|].
    pose proof (should_start_untouched grace env w0) as (Hs1 & Hh1 & Ht1).
    destruct (_anycubic_mqtt_connection_should_start grace env w0) as [[[|]|e] w1];
      cbn [snd] in *; [| |by rewrite Ht1].
    - pose proof (subscribe_loop_silent is_stop_request (_anycubic_printers (self w1))
                    ltac:(reflexivity) env w1) as Hq.
      unfold silent in Hq.
      destruct (for_each _ subscribe_printer env w1) as [[[]|e] w2]; cbn [snd] in *;
        [|by rewrite Hq, Ht1].
      destruct (_mqtt_task (self w2)); cbn [snd]; [by rewrite Hq, Ht1|].
      destruct (_anycubic_api (self w2)); cbn; rewrite !filter_app; cbn;
        rewrite ?app_nil_r, Hq, Ht1; reflexivity.
    - assert (action_within_grace grace env w1) as Hin.
      { exists t. rewrite Hs1, Hat. split; [reflexivity | lia]. }
      pose proof (should_stop_inside_grace grace idle env w1 Hin
                    ltac:(by rewrite Hh1)) as Hno.
      pose proof (silent_should_stop is_stop_request grace idle env w1) as Hq.
      unfold silent in Hq.
      destruct (_anycubic_mqtt_connection_should_stop grace idle env w1) as [[[|]|e] w3];
        cbn [fst snd] in *; [done | by rewrite Hq, Ht1..]. }
  destruct (_check_anycubic_mqtt_connection grace idle false env w0) as [[[]|e] w1];
    cbn [fst snd] in *; [|by split; [|split]].
  unfold keeps in Hlast. cbn in Hlast.
  destruct (_anycubic_api (self w1)); cbn [fst snd]; [|by split; [|split]].
  destruct (mqtt_wait_for_connect_result env) as [[|]|e]; cbn [fst snd];
    (split; [exact Hlast|]); (split; [|done]);
    cbn; rewrite filter_app; cbn; by rewrite app_nil_r.
Qed.

(** ** The update scheduler, continued *)

(** The loop over the printers in [get_anycubic_updates]. *)
Definition poll_printer (p : Z * AnycubicPrinter) : M unit :=
  let '(printer_id, printer) := p in update_printer printer_id.

Definition polled (printers : list (Z * AnycubicPrinter)) : list Event :=
  map (fun p => update_info_from_api (fst p)) printers.

Lemma refresh_printer_keys printer_id printer printers :
  map fst (refresh_printer printer_id printer printers) = map fst printers.
Proof.
  unfold refresh_printer. induction printers as [|[k old] rest IH]; cbn; [done|].
  rewrite IH. by destruct (k =? printer_id).
Qed.

(** A poll loop that returns has polled every printer of the list, in
    order, and nothing else. *)
Lemma poll_loop_returns env printers w w' :
  for_each printers poll_printer env w = (Ok tt, w') ->
  trace w' = trace w ++ polled printers.
Proof.
  revert w. induction printers as [|[printer_id printer] rest IH]; intros w.
  - cbn. intros [= <-]. by rewrite app_nil_r.
  - cbn [for_each]. unfold bind at 1. unfold poll_printer at 1, update_printer. run_m.
    destruct (update_info_from_api_result env printer_id); cbn; [|discriminate].
    intros Hrest. apply IH in Hrest. cbn in *. rewrite Hrest, <- app_assoc. done.
Qed.

(** A poll loop stops at the first printer whose poll raises. *)
Lemma poll_loop_raise env before printer_id printer after e w :
  Forall (fun q => exists r, update_info_from_api_result env (fst q) = Ok r) before ->
  update_info_from_api_result env printer_id = Raise e ->
  exists w', for_each (before ++ (printer_id, printer) :: after) poll_printer env w
             = (Raise e, w')
             /\ trace w' = trace w ++ polled before ++ [update_info_from_api printer_id]
             /\ _failed_updates (self w') = _failed_updates (self w)
             /\ _last_state_update (self w') = _last_state_update (self w).
Proof.
  intros Hok Hraise. revert w.
  induction Hok as [|[k p] rest [r Hr] _ IH]; intros w.
  - cbn [app for_each]. unfold bind at 1. unfold poll_printer at 1, update_printer. run_m.
    rewrite Hraise. eexists. split; [reflexivity|]. done.
  - cbn [app for_each]. unfold bind at 1. unfold poll_printer at 1, update_printer. run_m.
    rewrite Hr. cbn.
    edestruct IH as (w' & Hrun & Ht & Hf & Hl). rewrite Hrun.
    exists w'. split; [reflexivity|]. cbn in *. rewrite Ht, <- app_assoc. done.
Qed.

Lemma validate_and_poll_unfold env w :
  validate_and_poll env w
  = match _anycubic_api (self w) with
    | None => (Raise ConfigEntryError, w)
    | Some _ =>
        match check_api_tokens_result env with
        | Raise e => (Raise e, record check_api_tokens w)
        | Ok false => (Raise ConfigEntryAuthFailed, record check_api_tokens w)
        | Ok true =>
            if tokens_changed env then
              match store_async_save_result env with
              | Raise e => (Raise e, record store_async_save (record check_api_tokens w))
              | Ok _ =>
                  for_each (_anycubic_printers (self w)) poll_printer env
                    (record store_async_save (record check_api_tokens w))
              end
            else
              for_each (_anycubic_printers (self w)) poll_printer env
                (record check_api_tokens w)
        end
    end.
Proof.
  unfold validate_and_poll, _check_or_save_tokens. run_m.
  destruct (_anycubic_api (self w)) as [api|] eqn:Hapi; cbn; [|reflexivity].
  destruct (check_api_tokens_result env) as [[|]|e]; cbn; rewrite ?Hapi; cbn;
    try reflexivity.
  destruct (tokens_changed env); cbn.
  - destruct (store_async_save_result env) as [[]|e]; reflexivity.
  - reflexivity.
Qed.

(** The connection check makes no request that [f] selects, when [f]
    selects none of the requests of the start and stop sequences. *)
Lemma check_connection_silent f grace idle refreshing :
  (forall printer_id, f (mqtt_add_subscribed_printer printer_id) = false) ->
  f logger_debug = false ->
  (forall task, f (connect_mqtt task) = false) ->
  (forall ev, is_stop_request ev = true -> f ev = false) ->
  preserves (silent f) (_check_anycubic_mqtt_connection grace idle refreshing).
Proof.
  intros Hsub Hlog Hconnect Hstop env w. unfold silent.
  rewrite check_connection_unfold.
  destruct (negb refreshing && _mqtt_refresh_lock_locked (self w)); [reflexivity|].
  pose proof (should_start_untouched grace env w) as (Hs1 & Hh1 & Ht1).
  destruct (_anycubic_mqtt_connection_should_start grace env w) as [[[|]|e] w1];
    cbn [snd] in *; [| |by rewrite Ht1].
  - pose proof (subscribe_loop_silent f (_anycubic_printers (self w1)) Hsub env w1) as Hq.
    unfold silent in Hq.
    destruct (for_each _ subscribe_printer env w1) as [[[]|e] w2]; cbn [snd] in *;
      [|by rewrite Hq, Ht1].
    destruct (_mqtt_task (self w2)); cbn [snd]; [by rewrite Hq, Ht1|].
    destruct (_anycubic_api (self w2)); cbn; rewrite !filter_app; cbn;
      rewrite ?Hlog, ?Hconnect; cbn; rewrite ?decide_False by auto;
      rewrite ?app_nil_r, Hq, Ht1; reflexivity.
  - pose proof (silent_should_stop f grace idle env w1) as Hq. unfold silent in Hq.
    destruct (_anycubic_mqtt_connection_should_stop grace idle env w1) as [[[|]|e] w3];
      cbn [snd] in *; [|by rewrite Hq, Ht1..].
    pose proof (silent_stop f Hstop env w3) as Hq3. unfold silent in Hq3.
    by rewrite Hq3, Hq, Ht1.
Qed.

Lemma polls_polled printers : polls (polled printers) = polled printers.
Proof.
  unfold polls, polled. induction printers as [|p rest IH]; cbn [map]; [done|].
  rewrite filter_cons_True by done. by rewrite IH.
Qed.

(** A poll that returns has validated the credentials and polled every
    printer once, in order. *)
Lemma validate_and_poll_returns env w w1 :
  validate_and_poll env w = (Ok tt, w1) ->
  polls (trace w1)
  = polls (trace w) ++ check_api_tokens :: polled (_anycubic_printers (self w)).
Proof.
  rewrite validate_and_poll_unfold.
  destruct (_anycubic_api (self w)); [|discriminate].
  destruct (check_api_tokens_result env) as [[|]|e]; [|discriminate..].
  destruct (tokens_changed env).
  - destruct (store_async_save_result env) as [[]|e]; [|discriminate].
    intros Hloop. apply poll_loop_returns in Hloop. rewrite Hloop.
    unfold polls. cbn [trace record]. rewrite !filter_app.
    change (filter is_poll [check_api_tokens]) with [check_api_tokens].
    change (filter is_poll [store_async_save]) with (@nil Event).
    rewrite app_nil_r, <- app_assoc. cbn [app]. do 2 f_equal. apply polls_polled.
  - intros Hloop. apply poll_loop_returns in Hloop. rewrite Hloop.
    unfold polls. cbn [trace record]. rewrite !filter_app.
    change (filter is_poll [check_api_tokens]) with [check_api_tokens].
    rewrite <- app_assoc. cbn [app]. do 2 f_equal. apply polls_polled.
Qed.

Section SchedulerFurther.

Variable MQTT_ACTION_RESPONSE_ALIVE_SECONDS : Z.
Variable MQTT_IDLE_DISCONNECT_SECONDS : Z.
Variable MAX_FAILED_UPDATES : Z.
Variable FAILED_UPDATE_DELAY : Z.

Local Abbreviation get_anycubic_updates' :=
  (get_anycubic_updates MQTT_ACTION_RESPONSE_ALIVE_SECONDS MQTT_IDLE_DISCONNECT_SECONDS
     MAX_FAILED_UPDATES FAILED_UPDATE_DELAY).

(** An update that returns true has validated the credentials and then
    polled every printer once, in the order of the dictionary; these are
    all the poll requests it made. *)
Theorem successful_update_polls_every_printer_once (env : Env) (w w' : World) :
  get_anycubic_updates' env w = (Ok true, w') ->
  polls (trace w')
  = polls (trace w) ++ check_api_tokens :: polled (_anycubic_printers (self w)).
Proof.
  destruct (Z.le_gt_cases MAX_FAILED_UPDATES (_failed_updates (self w))) as [Hle|Hlt].
  { rewrite cooldown_entry by assumption. discriminate. }
  rewrite get_anycubic_updates_polls by lia.
  unfold bind at 1, try_except. unfold bind at 1.
  destruct (validate_and_poll env (entered env w)) as [[[]|e] w1] eqn:Hpoll.
  - apply validate_and_poll_returns in Hpoll.
    unfold bind at 1. cbn [modify_self].
    pose proof (check_connection_silent is_poll MQTT_ACTION_RESPONSE_ALIVE_SECONDS
                  MQTT_IDLE_DISCONNECT_SECONDS false ltac:(reflexivity) ltac:(reflexivity)
                  ltac:(reflexivity) ltac:(by intros []) env
                  (with_self (set_failed_updates 0 (self w1)) w1)) as Hq.
    unfold silent in Hq.
    destruct (_check_anycubic_mqtt_connection _ _ false env _) as [[[]|e] w2].
    + cbn. intros [= <-]. cbn [snd] in Hq. cbn. unfold polls in *. rewrite Hq. exact Hpoll.
    + destruct (on_update_error_raises e env w2) as (e' & w3 & Hh). rewrite Hh.
      discriminate.
  - destruct (on_update_error_raises e env w1) as (e' & w3 & Hh). rewrite Hh.
    discriminate.
Qed.

(** What an update leaves alone, whatever the collaborators answer: the
    connection mode, the manual override, the recorded user action, the
    API client and the set of printer ids (a poll replaces the printer
    held under an id, never the ids). *)
Theorem update_keeps_configuration (env : Env) (w : World) :
  _mqtt_connection_mode (self (snd (get_anycubic_updates' env w)))
  = _mqtt_connection_mode (self w)
  /\ _mqtt_manually_connected (self (snd (get_anycubic_updates' env w)))
     = _mqtt_manually_connected (self w)
  /\ _mqtt_last_action (self (snd (get_anycubic_updates' env w)))
     = _mqtt_last_action (self w)
  /\ _anycubic_api (self (snd (get_anycubic_updates' env w))) = _anycubic_api (self w)
  /\ map fst (_anycubic_printers (self (snd (get_anycubic_updates' env w))))
     = map fst (_anycubic_printers (self w)).
Proof.
  assert (forall A (f : Coordinator -> A),
            (forall printer_id printer c,
               f (set_anycubic_printers
                    (refresh_printer printer_id printer (_anycubic_printers c)) c) = f c) ->
            (forall v c, f (set_last_state_update v c) = f c) ->
            (forall v c, f (set_failed_updates v c) = f c) ->
            (forall v c, f (set_mqtt_idle_since v c) = f c) ->
            (forall v c, f (set_mqtt_task v c) = f c) ->
            preserves (keeps f) get_anycubic_updates') as Hkeeps.
  { intros A f Hprinters Hlast Hfailed Hidle Htask.
    unfold get_anycubic_updates, _check_or_save_tokens, update_printer,
      increment_failed_updates.
    repeat (cbv beta; frame_step);
      first [ apply Hprinters | apply Hlast | apply Hfailed | apply Hidle | apply Htask
            | reflexivity ]. }
  repeat split.
  - apply (Hkeeps _ _mqtt_connection_mode); reflexivity.
  - apply (Hkeeps _ _mqtt_manually_connected); reflexivity.
  - apply (Hkeeps _ _mqtt_last_action); reflexivity.
  - apply (Hkeeps _ _anycubic_api); reflexivity.
  - apply (Hkeeps _ (fun c => map fst (_anycubic_printers c))); try reflexivity.
    intros printer_id printer c. apply refresh_printer_keys.
Qed.

(** A device poll that raises a recoverable error ends the update: the
    printers before it were polled, no later printer is, the error is
    counted once and leaves as [UpdateFailed]. *)
Theorem update_stops_at_first_failed_poll (env : Env) (w : World) (api : AnycubicAPI)
    (before after : list (Z * AnycubicPrinter)) (printer_id : Z) (printer : AnycubicPrinter)
    (error : exn) :
  _failed_updates (self w) < MAX_FAILED_UPDATES ->
  _anycubic_api (self w) = Some api ->
  check_api_tokens_result env = Ok true ->
  tokens_changed env = false ->
  _anycubic_printers (self w) = before ++ (printer_id, printer) :: after ->
  Forall (fun q => exists r, update_info_from_api_result env (fst q) = Ok r) before ->
  update_info_from_api_result env printer_id = Raise error ->
  recoverable error ->
  exists w',
    get_anycubic_updates' env w = (Raise (UpdateFailed error), w')
    /\ polls (trace w')
       = polls (trace w) ++ check_api_tokens :: polled before
           ++ [update_info_from_api printer_id]
    /\ _failed_updates (self w') = _failed_updates (self w) + 1.
Proof.
  intros Hlt Hapi Htokens Hchanged Hprinters Hbefore Hraise Hrec.
  destruct (poll_loop_raise env before printer_id printer after error
              (record check_api_tokens (entered env w)) Hbefore Hraise)
    as (w1 & Hloop & Ht & Hf & _).
  assert (validate_and_poll env (entered env w) = (Raise error, w1)) as Hpoll.
  { rewrite validate_and_poll_unfold. cbn [entered with_self self set_last_state_update
      _anycubic_api _anycubic_printers tick].
    by rewrite Hapi, Htokens, Hchanged, Hprinters. }
  destruct (on_update_error_recoverable error env w1 Hrec) as (w' & Hh & Hs & Hp).
  exists w'. split; [|split].
  - rewrite get_anycubic_updates_polls by assumption.
    unfold bind at 1, try_except. unfold bind at 1. rewrite Hpoll, Hh. reflexivity.
  - rewrite Hp, Ht. unfold polls. cbn [trace record entered with_self tick].
    rewrite !filter_app.
    change (filter is_poll [check_api_tokens]) with [check_api_tokens].
    change (filter is_poll [update_info_from_api printer_id])
      with [update_info_from_api printer_id].
    fold (polls (polled before)). rewrite polls_polled, <- !app_assoc. reflexivity.
  - rewrite Hs. cbn. rewrite Hf. reflexivity.
Qed.

End SchedulerFurther.

(** ** The registration engine, continued *)

Section RegistrationFurther.

Variable Options : Type.
Variable check_descriptor_status_not_lcd : AnycubicCloudEntityDescription -> string -> bool.
Variable check_descriptor_status_not_fdm : AnycubicCloudEntityDescription -> string -> bool.
Variable check_descriptor_state_ace_not_supported : AnycubicCloudEntityDescription -> bool -> bool.
Variable check_descriptor_state_ace_primary_unavailable :
  AnycubicCloudEntityDescription -> bool -> Z -> bool.
Variable check_descriptor_state_ace_secondary_unavailable :
  AnycubicCloudEntityDescription -> bool -> Z -> bool.
Variable check_descriptor_state_drying_unavailable :
  AnycubicCloudEntityDescription -> bool -> Z -> Options -> bool.

Local Abbreviation Pending := (gmap Z (gmap string (list AnycubicCloudEntityDescription))).
Local Abbreviation dropped' :=
  (dropped Options check_descriptor_status_not_lcd check_descriptor_status_not_fdm
     check_descriptor_state_ace_not_supported).
Local Abbreviation deferred' :=
  (deferred Options check_descriptor_state_ace_primary_unavailable
     check_descriptor_state_ace_secondary_unavailable
     check_descriptor_state_drying_unavailable).
Local Abbreviation evaluate_descriptors' :=
  (evaluate_descriptors Options check_descriptor_status_not_lcd
     check_descriptor_status_not_fdm check_descriptor_state_ace_not_supported
     check_descriptor_state_ace_primary_unavailable
     check_descriptor_state_ace_secondary_unavailable
     check_descriptor_state_drying_unavailable).
Local Abbreviation evaluate_printer' :=
  (evaluate_printer Options check_descriptor_status_not_lcd
     check_descriptor_status_not_fdm check_descriptor_state_ace_not_supported
     check_descriptor_state_ace_primary_unavailable
     check_descriptor_state_ace_secondary_unavailable
     check_descriptor_state_drying_unavailable).
Local Abbreviation evaluate_printers' :=
  (evaluate_printers Options check_descriptor_status_not_lcd
     check_descriptor_status_not_fdm check_descriptor_state_ace_not_supported
     check_descriptor_state_ace_primary_unavailable
     check_descriptor_state_ace_secondary_unavailable
     check_descriptor_state_drying_unavailable).
Local Abbreviation add_entities_for_seen_printers' :=
  (add_entities_for_seen_printers Options check_descriptor_status_not_lcd
     check_descriptor_status_not_fdm check_descriptor_state_ace_not_supported
     check_descriptor_state_ace_primary_unavailable
     check_descriptor_state_ace_secondary_unavailable
     check_descriptor_state_drying_unavailable).

(** The descriptor is to be kept for later: not dropped, and deferred. *)
Definition kept (caps : Capabilities Options) (printer_id : Z) (material_type : string)
    (d : AnycubicCloudEntityDescription) : bool :=
  negb (dropped' caps printer_id material_type d) && deferred' caps printer_id d.

(** The descriptor is to be instantiated: neither dropped nor deferred. *)
Definition promotable (caps : Capabilities Options) (printer_id : Z) (material_type : string)
    (d : AnycubicCloudEntityDescription) : bool :=
  negb (dropped' caps printer_id material_type d) && negb (deferred' caps printer_id d).

(** Every descriptor to instantiate names its entity type. *)
Definition well_typed (caps : Capabilities Options) (printer_id : Z) (material_type : string)
    (descriptions : list AnycubicCloudEntityDescription) : bool :=
  forallb (fun d => negb (promotable caps printer_id material_type d)
                    || match printer_entity_type d with
                       | Some _ => true
                       | None => false
                       end)
          descriptions.

(** The inner loop, whatever its two lists hold on entry. *)
Lemma evaluate_descriptors_spec (caps : Capabilities Options) (printer_id : Z)
    (material_type : string) (descriptions remaining : list AnycubicCloudEntityDescription)
    (new_entities : list Entity) :
  evaluate_descriptors' caps printer_id material_type descriptions remaining new_entities
  = if well_typed caps printer_id material_type descriptions
    then Ok (remaining ++ List.filter (kept caps printer_id material_type) descriptions,
             new_entities
               ++ map (pair printer_id)
                    (List.filter (promotable caps printer_id material_type) descriptions))
    else Raise ConfigEntryError.
Proof.
  revert remaining new_entities.
  induction descriptions as [|d rest IH]; intros remaining new_entities.
  - cbn. by rewrite !app_nil_r.
  - cbn [evaluate_descriptors well_typed forallb List.filter].
    fold (well_typed caps printer_id material_type rest).
    unfold kept at 1, promotable at 1 2.
    destruct (dropped' caps printer_id material_type d); cbn [negb andb orb].
    { apply IH. }
    destruct (deferred' caps printer_id d); cbn [negb andb orb].
    { rewrite IH.
      destruct (well_typed caps printer_id material_type rest); [|reflexivity].
      by rewrite <- app_assoc. }
    destruct (printer_entity_type d) as [entity_type|]; cbn [negb andb orb].
    + rewrite IH.
      destruct (well_typed caps printer_id material_type rest); [|reflexivity].
      cbn [map]. by rewrite <- app_assoc.
    + reflexivity.
Qed.

(** The inner loop, as the outer loop starts it for a printer, partitions
    the pending descriptors in order: the ones to keep make the remaining
    list, the ones to instantiate are appended as new entities of the
    printer, the rest is dropped; it raises [ConfigEntryError], delivering
    nothing, exactly when a descriptor to instantiate has no entity type. *)
Theorem evaluate_descriptors_partitions (caps : Capabilities Options) (printer_id : Z)
    (material_type : string) (descriptions : list AnycubicCloudEntityDescription)
    (new_entities : list Entity) :
  (well_typed caps printer_id material_type descriptions = true ->
     evaluate_descriptors' caps printer_id material_type descriptions [] new_entities
     = Ok (List.filter (kept caps printer_id material_type) descriptions,
           new_entities
             ++ map (pair printer_id)
                  (List.filter (promotable caps printer_id material_type) descriptions)))
  /\ (well_typed caps printer_id material_type descriptions = false ->
      evaluate_descriptors' caps printer_id material_type descriptions [] new_entities
      = Raise ConfigEntryError).
Proof.
  rewrite evaluate_descriptors_spec.
  split; intros ->; reflexivity.
Qed.

(** [seen_printers] sets, for every configured printer, the descriptors of
    the platform to the available ones, keeps what the printer has pending
    on other platforms, and leaves other printers alone. *)
Lemma seen_printers_lookup platform available printer_ids (pending : Pending) printer_id :
  seen_printers platform available printer_ids pending !! printer_id
  = if decide (printer_id ∈ printer_ids)
    then Some (<[platform := available]> (default ∅ (pending !! printer_id)))
    else pending !! printer_id.
Proof.
  unfold seen_printers. revert pending.
  induction printer_ids as [|p rest IH]; intros pending; cbn [foldl].
  - rewrite decide_False by apply not_elem_of_nil. reflexivity.
  - rewrite IH. destruct (decide (printer_id = p)) as [->|Hne].
    + rewrite lookup_insert_eq. cbn. rewrite insert_insert_eq.
      rewrite (decide_True (P := p ∈ p :: rest)) by (apply elem_of_cons; by left).
      by destruct (decide (p ∈ rest)).
    + rewrite lookup_insert_ne by done.
      destruct (decide (printer_id ∈ rest)) as [Hin|Hnin].
      * rewrite decide_True by (apply elem_of_cons; by right). reflexivity.
      * rewrite decide_False; [reflexivity|].
        intros Hin. apply elem_of_cons in Hin as [?|?]; done.
Qed.

(** The entities a first evaluation makes of the available descriptors
    for one printer. *)
Definition promoted_for (caps : Capabilities Options)
    (available : list AnycubicCloudEntityDescription) (printer_id : Z) : list Entity :=
  match status_material_type Options caps printer_id with
  | Some material_type =>
      map (pair printer_id)
        (List.filter (promotable caps printer_id material_type) available)
  | None => []
  end.

(** One step of the outer loop for a printer that has descriptors pending
    on the platform. *)
Lemma evaluate_printer_pending caps platform printer_id (pending : Pending)
    platforms descriptions material_type new_entities :
  pending !! printer_id = Some platforms ->
  platforms !! platform = Some descriptions ->
  status_material_type Options caps printer_id = Some material_type ->
  well_typed caps printer_id material_type descriptions = true ->
  exists pending' : Pending,
    evaluate_printer' caps platform printer_id pending new_entities
    = (Ok (new_entities
             ++ map (pair printer_id)
                  (List.filter (promotable caps printer_id material_type) descriptions)),
       pending')
    /\ forall other, other <> printer_id -> pending' !! other = pending !! other.
Proof.
  intros Hpid Hplat Hstatus Htyped. unfold evaluate_printer.
  rewrite Hpid, Hplat, Hstatus, evaluate_descriptors_spec, Htyped. cbn [app].
  eexists. split; [reflexivity|]. intros other Hother.
  repeat match goal with |- context [if ?b then _ else _] => destruct b end;
    rewrite ?lookup_delete_ne, ?lookup_insert_ne by done; reflexivity.
Qed.

(** The outer loop over printers that all have the available descriptors
    pending on the platform. *)
Lemma evaluate_printers_fresh caps platform available printer_ids :
  NoDup printer_ids ->
  (forall printer_id, printer_id ∈ printer_ids ->
     exists material_type,
       status_material_type Options caps printer_id = Some material_type
       /\ well_typed caps printer_id material_type available = true) ->
  forall (pending : Pending) new_entities,
    (forall printer_id, printer_id ∈ printer_ids ->
       exists platforms,
         pending !! printer_id = Some platforms
         /\ platforms !! platform = Some available) ->
    fst (evaluate_printers' caps platform printer_ids pending new_entities)
    = Ok (new_entities ++ flat_map (promoted_for caps available) printer_ids).
Proof.
  induction 1 as [|p rest Hnotin Hnodup IH]; intros Hok pending new_entities Hseen.
  - cbn. by rewrite app_nil_r.
  - destruct (Hok p ltac:(apply elem_of_cons; by left)) as (mt & Hstatus & Htyped).
    destruct (Hseen p ltac:(apply elem_of_cons; by left)) as (platforms & Hpid & Hplat).
    destruct (evaluate_printer_pending caps platform p pending platforms available mt
                new_entities Hpid Hplat Hstatus Htyped) as (pending' & Hstep & Hothers).
    cbn [evaluate_printers flat_map]. rewrite Hstep.
    rewrite IH.
    + unfold promoted_for at 2. rewrite Hstatus, <- app_assoc. reflexivity.
    + intros q Hq. apply Hok. apply elem_of_cons. by right.
    + intros q Hq. rewrite Hothers by (intros ->; done).
      apply Hseen. apply elem_of_cons. by right.
Qed.

(** When the configured printer ids do not repeat and, for each of them,
    the status attributes are present and every descriptor to instantiate
    names its entity type, [add_entities_for_seen_printers] delivers, for
    each printer in the configured order, exactly the available
    descriptors that are neither dropped nor deferred for that printer, in
    the order they were given, each once. *)
Theorem add_entities_delivers_promotable (caps : Capabilities Options) (platform : string)
    (available : list AnycubicCloudEntityDescription) (printer_ids : list Z)
    (pending : Pending) :
  NoDup printer_ids ->
  (forall printer_id, printer_id ∈ printer_ids ->
     exists material_type,
       status_material_type Options caps printer_id = Some material_type
       /\ well_typed caps printer_id material_type available = true) ->
  fst (add_entities_for_seen_printers' caps platform available printer_ids pending)
  = Ok (flat_map (promoted_for caps available) printer_ids).
Proof.
  intros Hnodup Hok.
  unfold add_entities_for_seen_printers, _add_entities_for_unregistered_descriptors.
  rewrite (evaluate_printers_fresh caps platform available printer_ids Hnodup Hok);
    [reflexivity|].
  intros printer_id Hin. rewrite seen_printers_lookup, decide_True by done.
  eexists. split; [reflexivity | apply lookup_insert_eq].
Qed.

End RegistrationFurther.

(** * Set-up *)

(** What the collaborators answer during one attempt of the set-up:
    whether the configuration entry holds a user token; the construction
    of the API client (cookie jar, client session, [AnycubicAPI(...)]); its
    configuration ([set_authentication] and the two debug switches); the
    credential check; the storage of the credentials; and the printer the
    API finds for an id ([None] when it finds none). *)
Record SetupAnswers : Type := {
  user_token : bool;
  create_api : Res AnycubicAPI;
  configure_api : Res unit;
  setup_check_api_tokens : Res bool;
  setup_store_async_save : Res unit;
  printer_info_for_id : Z -> Res (option AnycubicPrinter);
}.

Definition set_anycubic_api (v : option AnycubicAPI) (c : Coordinator) : Coordinator :=
  {| _anycubic_api := v;
     _anycubic_printers := _anycubic_printers c;
     _last_state_update := _last_state_update c;
     _failed_updates := _failed_updates c;
     _mqtt_task := _mqtt_task c;
     _mqtt_manually_connected := _mqtt_manually_connected c;
     _mqtt_idle_since := _mqtt_idle_since c;
     _mqtt_last_action := _mqtt_last_action c;
     _mqtt_refresh_lock_locked := _mqtt_refresh_lock_locked c;
     _mqtt_connection_mode := _mqtt_connection_mode c;
     _printer_device_map := _printer_device_map c |}.

(** [d[k] = v] on a dictionary kept in insertion order: an existing key
    keeps its place, a new one goes last. *)
Definition dict_set (k : Z) (v : AnycubicPrinter) (d : list (Z * AnycubicPrinter))
  : list (Z * AnycubicPrinter) :=
  if existsb (fun '(k', _) => k' =? k) d
  then map (fun '(k', old) => if k' =? k then (k', v) else (k', old)) d
  else d ++ [(k, v)].

(** [d.get(k)]. *)
Fixpoint dict_get (k : Z) (d : list (Z * AnycubicPrinter)) : option AnycubicPrinter :=
  match d with
  | [] => None
  | (k', v) :: rest => if k' =? k then Some v else dict_get k rest
  end.

(** The [try] block of [_setup_anycubic_api_connection]. An empty list of
    printer ids makes [...[CONF_PRINTER_ID_LIST][0]] an [IndexError]. *)
Definition setup_connection_body (a : SetupAnswers) (printer_ids : list Z)
    (c : Coordinator) : Res unit * Coordinator :=
  match create_api a with
  | Raise e => (Raise e, c)
  | Ok api =>
      let c := set_anycubic_api (Some api) c in
      match configure_api a with
      | Raise e => (Raise e, c)
      | Ok _ =>
          match setup_check_api_tokens a with
          | Raise e => (Raise e, c)
          | Ok false => (Raise ConfigEntryAuthFailed, c)
          | Ok true =>
              match setup_store_async_save a with
              | Raise e => (Raise e, c)
              | Ok _ =>
                  match printer_ids with
                  | [] => (Raise (OtherException 1), c)
                  | first_printer_id :: _ =>
                      match printer_info_for_id a first_printer_id with
                      | Raise e => (Raise e, c)
                      | Ok None => (Raise ConfigEntryAuthFailed, c)
                      | Ok (Some _) => (Ok tt, c)
                      end
                  end
              end
          end
      end
  end.

Definition _setup_anycubic_api_connection (a : SetupAnswers) (printer_ids : list Z)
    (c : Coordinator) : Res unit * Coordinator :=
  if negb (user_token a) then (Raise ConfigEntryAuthFailed, c)
  else
    match setup_connection_body a printer_ids c with
    | (Ok _, c') => (Ok tt, c')
    | (Raise error, c') =>
        match error with
        | ConfigEntryAuthFailed => (Raise error, c')
        | AnycubicAPIParsingError => (Raise error, c')
        | CancelledError => (Raise error, c')
        | _ => (Raise ConfigEntryAuthFailed, c')
        end
    end.

(** The body of the loop of [_setup_anycubic_printer_objects], with its
    [except] clauses. *)
Definition setup_printer_object (a : SetupAnswers) (printer_id : Z) (c : Coordinator)
  : Res unit * Coordinator :=
  match _anycubic_api c with
  | None => (Raise ConfigEntryError, c)
  | Some _ =>
      match printer_info_for_id a printer_id with
      | Raise ConfigEntryError => (Raise ConfigEntryError, c)
      | Raise CancelledError => (Raise CancelledError, c)
      | Raise _ => (Raise ConfigEntryError, c)
      | Ok None => (Raise ConfigEntryError, c)
      | Ok (Some printer) =>
          (Ok tt, set_anycubic_printers (dict_set printer_id printer (_anycubic_printers c)) c)
      end
  end.

Fixpoint _setup_anycubic_printer_objects (a : SetupAnswers) (printer_ids : list Z)
    (c : Coordinator) : Res unit * Coordinator :=
  match printer_ids with
  | [] => (Ok tt, c)
  | printer_id :: rest =>
      match setup_printer_object a printer_id c with
      | (Ok _, c') => _setup_anycubic_printer_objects a rest c'
      | (Raise e, c') => (Raise e, c')
      end
  end.

Section Setup.

(** A constant of [const.py]. *)
Variable API_SETUP_RETRIES : Z.

(** What the collaborators answer, by attempt. *)
Variable answers : nat -> SetupAnswers.

(** [self.entry.data[CONF_PRINTER_ID_LIST]]. *)
Variable printer_ids : list Z.

(** The [while] loop of [_async_setup]; the sleep between two attempts is
    not modelled. [None] is a loop cut short by the fuel. *)
Fixpoint setup_loop (fuel : nat) (setup_retries : Z) (c : Coordinator)
  : option (Res unit * Coordinator) :=
  if setup_retries <? API_SETUP_RETRIES + 1 then
    match fuel with
    | O => None
    | S fuel =>
        let a := answers (Z.to_nat setup_retries) in
        let attempt :=
          match _setup_anycubic_api_connection a printer_ids c with
          | (Ok _, c') => _setup_anycubic_printer_objects a printer_ids c'
          | (Raise e, c') => (Raise e, c')
          end in
        match attempt with
        | (Ok _, c') => Some (Ok tt, c')
        | (Raise AnycubicAPIParsingError, c') =>
            if API_SETUP_RETRIES <=? setup_retries then Some (Raise ConfigEntryError, c')
            else setup_loop fuel (setup_retries + 1) c'
        | (Raise e, c') => Some (Raise e, c')
        end
    end
  else Some (Ok tt, c).

Definition _async_setup (c : Coordinator) : option (Res unit * Coordinator) :=
  setup_loop (Z.to_nat (API_SETUP_RETRIES + 1)) 0 c.

End Setup.

(** ** Properties of the set-up *)

Lemma setup_connection_raises a printer_ids c e c' :
  _setup_anycubic_api_connection a printer_ids c = (Raise e, c') ->
  e = ConfigEntryAuthFailed \/ e = AnycubicAPIParsingError \/ e = CancelledError.
Proof.
  unfold _setup_anycubic_api_connection.
  destruct (negb (user_token a)); [intros [= <- _]; auto|].
  destruct (setup_connection_body a printer_ids c) as [[[]|e0] c0]; [discriminate|].
  destruct e0; intros [= <- _]; auto.
Qed.

(** Whatever goes wrong while the connection is set up leaves as an
    authentication failure, a parsing error of the API or a cancellation,
    and nothing else; and with no printer configured the set-up of the
    connection never succeeds. *)
Theorem setup_connection_error_taxonomy (a : SetupAnswers) (c : Coordinator) :
  (forall printer_ids e c',
     _setup_anycubic_api_connection a printer_ids c = (Raise e, c') ->
     e = ConfigEntryAuthFailed \/ e = AnycubicAPIParsingError \/ e = CancelledError)
  /\ (exists e, fst (_setup_anycubic_api_connection a [] c) = Raise e).
Proof.
  split.
  - intros printer_ids e c'. apply setup_connection_raises.
  - unfold _setup_anycubic_api_connection, setup_connection_body.
    destruct (negb (user_token a)); [eauto|].
    destruct (create_api a) as [api|e0]; [|destruct e0; eauto].
    destruct (configure_api a) as [[]|e0]; [|destruct e0; eauto].
    destruct (setup_check_api_tokens a) as [[|]|e0]; [| eauto | destruct e0; eauto].
    destruct (setup_store_async_save a) as [[]|e0]; [eauto | destruct e0; eauto].
Qed.

(** The set-up of the connection that returns has installed an API
    client. *)
Lemma setup_connection_returns a printer_ids c c' :
  _setup_anycubic_api_connection a printer_ids c = (Ok tt, c') ->
  exists api, _anycubic_api c' = Some api.
Proof.
  unfold _setup_anycubic_api_connection, setup_connection_body.
  destruct (negb (user_token a)); [discriminate|].
  destruct (create_api a) as [api|e0]; [|destruct e0; discriminate].
  destruct (configure_api a) as [[]|e0]; [|destruct e0; discriminate].
  destruct (setup_check_api_tokens a) as [[|]|e0];
    [| discriminate | destruct e0; discriminate].
  destruct (setup_store_async_save a) as [[]|e0]; [|destruct e0; discriminate].
  destruct printer_ids as [|first rest]; [discriminate|].
  destruct (printer_info_for_id a first) as [[p|]|e0];
    [| discriminate | destruct e0; discriminate].
  intros [= <-]. by exists api.
Qed.

Lemma dict_get_set_eq k v d : dict_get k (dict_set k v d) = Some v.
Proof.
  unfold dict_set. destruct (existsb _ d) eqn:Hex.
  - induction d as [|[k' old] rest IH]; cbn in *; [discriminate|].
    destruct (k' =? k) eqn:Hk; cbn; rewrite Hk; [reflexivity|]. by apply IH.
  - induction d as [|[k' old] rest IH]; cbn in *; [by rewrite Z.eqb_refl|].
    destruct (k' =? k) eqn:Hk; cbn in *; [discriminate|]. by apply IH.
Qed.

Lemma dict_get_set_ne k k' v d : k' <> k -> dict_get k' (dict_set k v d) = dict_get k' d.
Proof.
  intros Hne. unfold dict_set. destruct (existsb _ d).
  - induction d as [|[k0 old] rest IH]; cbn; [reflexivity|].
    destruct (k0 =? k) eqn:Hk; cbn; rewrite IH; [|reflexivity].
    apply Z.eqb_eq in Hk as ->.
    by replace (k =? k') with false by (symmetry; apply Z.eqb_neq; congruence).
  - induction d as [|[k0 old] rest IH]; cbn.
    + by replace (k =? k') with false by (symmetry; apply Z.eqb_neq; congruence).
    + by rewrite IH.
Qed.

(** One step of the loop over the printers, when it returns. *)
Lemma setup_printer_object_returns a printer_id c c' :
  setup_printer_object a printer_id c = (Ok tt, c') ->
  exists printer,
    printer_info_for_id a printer_id = Ok (Some printer)
    /\ c' = set_anycubic_printers (dict_set printer_id printer (_anycubic_printers c)) c.
Proof.
  unfold setup_printer_object.
  destruct (_anycubic_api c); [|discriminate].
  destruct (printer_info_for_id a printer_id) as [[printer|]|e];
    [| discriminate | destruct e; discriminate].
  intros [= <-]. by exists printer.
Qed.

Lemma setup_printer_object_keeps_api a printer_id c :
  _anycubic_api (snd (setup_printer_object a printer_id c)) = _anycubic_api c.
Proof.
  unfold setup_printer_object. destruct (_anycubic_api c) eqn:Hapi; [|done].
  destruct (printer_info_for_id a printer_id) as [[printer|]|e]; [done | done |].
  by destruct e.
Qed.

(** The printer the API answers for an id is the one the coordinator
    holds under it. *)
Definition loaded (a : SetupAnswers) (c : Coordinator) (printer_id : Z) : Prop :=
  exists printer,
    printer_info_for_id a printer_id = Ok (Some printer)
    /\ dict_get printer_id (_anycubic_printers c) = Some printer.

Lemma setup_printer_objects_keep_loaded a printer_ids :
  forall c c' printer_id,
    _setup_anycubic_printer_objects a printer_ids c = (Ok tt, c') ->
    loaded a c printer_id -> loaded a c' printer_id.
Proof.
  induction printer_ids as [|p rest IH]; intros c c' printer_id; cbn.
  - by intros [= <-].
  - destruct (setup_printer_object a p c) as [[[]|e] c1] eqn:Hstep; [|discriminate].
    apply setup_printer_object_returns in Hstep as (printer & Hinfo & ->).
    intros Hrest (q & Hq & Hget). eapply IH; [exact Hrest|].
    destruct (decide (printer_id = p)) as [->|Hne].
    + exists printer. split; [done|]. cbn. apply dict_get_set_eq.
    + exists q. split; [done|]. cbn. by rewrite dict_get_set_ne.
Qed.

Lemma setup_printer_objects_raises a printer_ids :
  forall c e c', _setup_anycubic_printer_objects a printer_ids c = (Raise e, c') ->
    e = ConfigEntryError \/ e = CancelledError.
Proof.
  induction printer_ids as [|p rest IH]; intros c e c'; cbn; [discriminate|].
  destruct (setup_printer_object a p c) as [[[]|e0] c1] eqn:Hstep; [by apply IH|].
  intros [= <- _]. revert Hstep. unfold setup_printer_object.
  destruct (_anycubic_api c); [|intros [= <- _]; auto].
  destruct (printer_info_for_id a p) as [[printer|]|e1]; [discriminate | |];
    [|destruct e1]; intros [= <- _]; auto.
Qed.

Lemma setup_printer_objects_keep_api a printer_ids :
  forall c,
    _anycubic_api (snd (_setup_anycubic_printer_objects a printer_ids c)) = _anycubic_api c.
Proof.
  induction printer_ids as [|p rest IH]; intros c; cbn; [reflexivity|].
  destruct (setup_printer_object a p c) as [[[]|e0] c1] eqn:Hstep.
  - rewrite IH. apply setup_printer_object_returns in Hstep as (printer & _ & ->).
    reflexivity.
  - cbn. rewrite <- (setup_printer_object_keeps_api a p c), Hstep. reflexivity.
Qed.

Lemma setup_printer_objects_load a printer_ids :
  forall c c', _setup_anycubic_printer_objects a printer_ids c = (Ok tt, c') ->
    forall printer_id, In printer_id printer_ids -> loaded a c' printer_id.
Proof.
  induction printer_ids as [|p rest IH]; intros c c' Hrun printer_id Hin;
    [destruct Hin|].
  cbn in Hrun.
  destruct (setup_printer_object a p c) as [[[]|e0] c1] eqn:Hstep; [|discriminate].
  destruct Hin as [<-|Hin]; [|by eapply IH].
  apply setup_printer_object_returns in Hstep as (printer & Hinfo & ->).
  eapply setup_printer_objects_keep_loaded; [exact Hrun|].
  exists printer. split; [done|]. cbn. apply dict_get_set_eq.
Qed.

(** Loading the printer objects fails only with [ConfigEntryError] (a
    parsing error of the API included) or a cancellation, and leaves the
    API client as it was; when it returns, every configured printer is
    held under its id, as the API answered it. *)
Theorem setup_printer_objects_outcome (a : SetupAnswers) (printer_ids : list Z)
    (c : Coordinator) :
  (forall e c', _setup_anycubic_printer_objects a printer_ids c = (Raise e, c') ->
     e = ConfigEntryError \/ e = CancelledError)
  /\ _anycubic_api (snd (_setup_anycubic_printer_objects a printer_ids c)) = _anycubic_api c
  /\ (forall c', _setup_anycubic_printer_objects a printer_ids c = (Ok tt, c') ->
      forall printer_id, In printer_id printer_ids -> loaded a c' printer_id).
Proof.
  split; [|split].
  - apply setup_printer_objects_raises.
  - apply setup_printer_objects_keep_api.
  - apply setup_printer_objects_load.
Qed.

(** The [try] block of the loop of [_async_setup]. *)
Definition setup_attempt (a : SetupAnswers) (printer_ids : list Z) (c : Coordinator)
  : Res unit * Coordinator :=
  match _setup_anycubic_api_connection a printer_ids c with
  | (Ok _, c') => _setup_anycubic_printer_objects a printer_ids c'
  | (Raise e, c') => (Raise e, c')
  end.

Lemma setup_attempt_raises a printer_ids c e c' :
  setup_attempt a printer_ids c = (Raise e, c') ->
  e = ConfigEntryAuthFailed \/ e = AnycubicAPIParsingError \/ e = CancelledError
  \/ e = ConfigEntryError.
Proof.
  unfold setup_attempt.
  destruct (_setup_anycubic_api_connection a printer_ids c) as [[[]|e0] c0] eqn:Hconn.
  - intros Hobj.
    apply setup_printer_objects_raises in Hobj. tauto.
  - intros [= <- _].
    apply setup_connection_raises in Hconn. tauto.
Qed.

Lemma setup_attempt_returns a printer_ids c c' :
  setup_attempt a printer_ids c = (Ok tt, c') ->
  (exists api, _anycubic_api c' = Some api)
  /\ forall printer_id, In printer_id printer_ids -> loaded a c' printer_id.
Proof.
  unfold setup_attempt.
  destruct (_setup_anycubic_api_connection a printer_ids c) as [[[]|e0] c0] eqn:Hconn;
    [|discriminate].
  intros Hobj. apply setup_connection_returns in Hconn as [api Hapi].
  pose proof (setup_printer_objects_keep_api a printer_ids c0) as Hkeep.
  rewrite Hobj in Hkeep. cbn in Hkeep.
  split; [|by apply (setup_printer_objects_load a printer_ids c0)].
  exists api. by rewrite Hkeep.
Qed.

Section SetupProperties.

Variable API_SETUP_RETRIES : Z.
Variable answers : nat -> SetupAnswers.
Variable printer_ids : list Z.

Local Abbreviation setup_loop' := (setup_loop API_SETUP_RETRIES answers printer_ids).
Local Abbreviation _async_setup' := (_async_setup API_SETUP_RETRIES answers printer_ids).

(** An attempt that fails with a parsing error of the API, whatever the
    coordinator holds. *)
Definition parsing_fails (a : SetupAnswers) : Prop :=
  forall c, fst (setup_attempt a printer_ids c) = Raise AnycubicAPIParsingError.

(** An attempt that ends in anything but a parsing error of the API. *)
Definition decides (a : SetupAnswers) : Prop :=
  forall c, fst (setup_attempt a printer_ids c) <> Raise AnycubicAPIParsingError.

Lemma setup_loop_step fuel setup_retries c :
  setup_retries < API_SETUP_RETRIES + 1 ->
  setup_loop' (S fuel) setup_retries c
  = match setup_attempt (answers (Z.to_nat setup_retries)) printer_ids c with
    | (Ok _, c') => Some (Ok tt, c')
    | (Raise AnycubicAPIParsingError, c') =>
        if API_SETUP_RETRIES <=? setup_retries then Some (Raise ConfigEntryError, c')
        else setup_loop' fuel (setup_retries + 1) c'
    | (Raise e, c') => Some (Raise e, c')
    end.
Proof.
  intros Hlt. cbn [setup_loop].
  replace (setup_retries <? API_SETUP_RETRIES + 1) with true
    by (symmetry; apply Z.ltb_lt; lia).
  reflexivity.
Qed.

Lemma setup_loop_outcome fuel :
  forall setup_retries c,
    0 <= setup_retries <= API_SETUP_RETRIES ->
    API_SETUP_RETRIES + 1 - setup_retries <= Z.of_nat fuel ->
    exists r c',
      setup_loop' fuel setup_retries c = Some (r, c')
      /\ (forall e, r = Raise e ->
            e = ConfigEntryAuthFailed \/ e = ConfigEntryError \/ e = CancelledError)
      /\ (r = Ok tt ->
            (exists api, _anycubic_api c' = Some api)
            /\ exists attempt,
                 (Z.of_nat attempt <= API_SETUP_RETRIES)
                 /\ forall printer_id, In printer_id printer_ids ->
                      loaded (answers attempt) c' printer_id).
Proof.
  induction fuel as [|fuel IH]; intros setup_retries c Hrange Hfuel; [lia|].
  rewrite setup_loop_step by lia.
  destruct (setup_attempt (answers (Z.to_nat setup_retries)) printer_ids c)
    as [[[]|e] c1] eqn:Hattempt.
  - exists (Ok tt), c1. split; [done|]. split; [discriminate|]. intros _.
    apply setup_attempt_returns in Hattempt as [Hapi Hloaded].
    split; [done|]. exists (Z.to_nat setup_retries). split; [lia | done].
  - pose proof (setup_attempt_raises _ _ _ _ _ Hattempt) as Hkinds.
    destruct e; try (exfalso; destruct Hkinds as [|[|[|]]]; discriminate).
    + exists (Raise ConfigEntryAuthFailed), c1. split; [done|].
      split; [intros ? [= <-]; auto | discriminate].
    + exists (Raise ConfigEntryError), c1. split; [done|].
      split; [intros ? [= <-]; auto | discriminate].
    + destruct (API_SETUP_RETRIES <=? setup_retries) eqn:Hlast.
      * exists (Raise ConfigEntryError), c1. split; [done|].
        split; [intros ? [= <-]; auto | discriminate].
      * apply Z.leb_gt in Hlast. apply IH; lia.
    + exists (Raise CancelledError), c1. split; [done|].
      split; [intros ? [= <-]; auto | discriminate].
Qed.

(** [_async_setup] always comes to an end. It fails only with an
    authentication failure, [ConfigEntryError] or a cancellation, never with
    the parsing error it retries on; and when it returns, the coordinator
    holds an API client and, under its id, every configured printer as the
    API answered it in one of the attempts. *)
Theorem async_setup_outcome (c : Coordinator) :
  0 <= API_SETUP_RETRIES ->
  exists r c',
    _async_setup' c = Some (r, c')
    /\ (forall e, r = Raise e ->
          e = ConfigEntryAuthFailed \/ e = ConfigEntryError \/ e = CancelledError)
    /\ (r = Ok tt ->
          (exists api, _anycubic_api c' = Some api)
          /\ exists attempt,
               (Z.of_nat attempt <= API_SETUP_RETRIES)
               /\ forall printer_id, In printer_id printer_ids ->
                    loaded (answers attempt) c' printer_id).
Proof.
  intros Hretries. unfold _async_setup. apply setup_loop_outcome; lia.
Qed.

Lemma setup_loop_first_decisive fuel :
  forall (n attempt : nat) c,
    (n <= attempt)%nat ->
    Z.of_nat attempt <= API_SETUP_RETRIES ->
    API_SETUP_RETRIES + 1 - Z.of_nat n <= Z.of_nat fuel ->
    (forall j, (n <= j < attempt)%nat -> parsing_fails (answers j)) ->
    decides (answers attempt) ->
    exists c0,
      setup_loop' fuel (Z.of_nat n) c
      = Some (setup_attempt (answers attempt) printer_ids c0).
Proof.
  induction fuel as [|fuel IH]; intros n attempt c Hle Hattempt Hfuel Hfails Hdecides;
    [lia|].
  rewrite setup_loop_step by lia. rewrite Nat2Z.id.
  destruct (decide (n = attempt)) as [->|Hne].
  - exists c. pose proof (Hdecides c) as Hd.
    destruct (setup_attempt (answers attempt) printer_ids c) as [[[]|e] c1];
      [reflexivity|].
    destruct e; try reflexivity. by destruct Hd.
  - pose proof (Hfails n ltac:(lia) c) as Hf.
    destruct (setup_attempt (answers n) printer_ids c) as [r c1]. cbn in Hf. subst r.
    replace (API_SETUP_RETRIES <=? Z.of_nat n) with false
      by (symmetry; apply Z.leb_gt; lia).
    replace (Z.of_nat n + 1) with (Z.of_nat (S n)) by lia.
    apply IH; try lia; [|done]. intros j Hj. apply Hfails. lia.
Qed.

Lemma setup_loop_exhausted fuel :
  forall (n : nat) c,
    Z.of_nat n <= API_SETUP_RETRIES ->
    API_SETUP_RETRIES + 1 - Z.of_nat n <= Z.of_nat fuel ->
    (forall j, (n <= j)%nat -> Z.of_nat j <= API_SETUP_RETRIES ->
       parsing_fails (answers j)) ->
    exists c', setup_loop' fuel (Z.of_nat n) c = Some (Raise ConfigEntryError, c').
Proof.
  induction fuel as [|fuel IH]; intros n c Hle Hfuel Hfails; [lia|].
  rewrite setup_loop_step by lia. rewrite Nat2Z.id.
  pose proof (Hfails n ltac:(lia) Hle c) as Hf.
  destruct (setup_attempt (answers n) printer_ids c) as [r c1]. cbn in Hf. subst r.
  destruct (API_SETUP_RETRIES <=? Z.of_nat n) eqn:Hlast; [by exists c1|].
  apply Z.leb_gt in Hlast.
  replace (Z.of_nat n + 1) with (Z.of_nat (S n)) by lia.
  apply IH; try lia. intros j Hj. apply Hfails. lia.
Qed.

(** The set-up is decided by the first attempt that does not end in a
    parsing error of the API, provided it is one of the first
    [API_SETUP_RETRIES + 1]: its result is the result of the set-up. When
    all of these attempts end in a parsing error, the set-up fails with
    [ConfigEntryError]. *)
Theorem async_setup_retries_on_parsing_errors (c : Coordinator) :
  (forall attempt : nat,
     Z.of_nat attempt <= API_SETUP_RETRIES ->
     (forall j, (j < attempt)%nat -> parsing_fails (answers j)) ->
     decides (answers attempt) ->
     exists c0,
       _async_setup' c = Some (setup_attempt (answers attempt) printer_ids c0))
  /\ (0 <= API_SETUP_RETRIES ->
      (forall j : nat, Z.of_nat j <= API_SETUP_RETRIES -> parsing_fails (answers j)) ->
      exists c', _async_setup' c = Some (Raise ConfigEntryError, c')).
Proof.
  split.
  - intros attempt Hattempt Hfails Hdecides. unfold _async_setup.
    apply (setup_loop_first_decisive _ 0%nat attempt); try lia; [|done].
    intros j Hj. apply Hfails. lia.
  - intros Hretries Hfails. unfold _async_setup.
    apply (setup_loop_exhausted _ 0%nat); try lia. intros j _. apply Hfails.
Qed.

End SetupProperties.

(** * Publishing the data and registering the devices *)

Definition is_register_device (ev : Event) : bool :=
  match ev with
  | register_printer_device _ => true
  | _ => false
  end.

(** The device registrations among the requests. *)
Definition registrations (requests : list Event) : list Event :=
  filter is_register_device requests.

Definition registered (printer_ids : list Z) : list Event :=
  map register_printer_device printer_ids.

Lemma registrations_registered printer_ids :
  registrations (registered printer_ids) = registered printer_ids.
Proof.
  unfold registrations, registered. induction printer_ids as [|p rest IH]; cbn [map]; [done|].
  rewrite filter_cons_True by done. by rewrite IH.
Qed.

(** The loop of [_register_printer_devices]. *)
Definition register_device (printer_id : Z) : M unit :=
  let* _ := emit (register_printer_device printer_id) in
  modify_self (fun c =>
    set_printer_device_map (Some (default [] (_printer_device_map c) ++ [printer_id])) c).

Lemma register_loop_returns env printer_ids :
  forall w,
    exists w',
      for_each printer_ids register_device env w = (Ok tt, w')
      /\ trace w' = trace w ++ registered printer_ids
      /\ _anycubic_printers (self w') = _anycubic_printers (self w)
      /\ (forall m, _printer_device_map (self w) = Some m ->
            _printer_device_map (self w') = Some (m ++ printer_ids)).
Proof.
  induction printer_ids as [|p rest IH]; intros w.
  - exists w. cbn. rewrite !app_nil_r. split; [done|]. split; [done|]. split; [done|].
    intros m ->. by rewrite app_nil_r.
  - cbn [for_each]. unfold bind at 1. unfold register_device at 1. run_m.
    edestruct IH as (w' & Hrun & Ht & Hp & Hm). rewrite Hrun.
    exists w'. split; [reflexivity|]. cbn in *. rewrite Ht, <- app_assoc.
    split; [done|]. split; [done|].
    intros m Hw. rewrite (Hm (m ++ [p])) by (by rewrite Hw). by rewrite <- app_assoc.
Qed.

(** [publish] by its outcomes. *)
Lemma publish_unfold env w :
  publish env w
  = match _anycubic_api (self w) with
    | None => (Raise ConfigEntryError, w)
    | Some _ =>
        match _printer_device_map (self w) with
        | Some _ => (Ok (_anycubic_printers (self w)), w)
        | None =>
            match for_each (CONF_PRINTER_ID_LIST env) register_device env
                    (with_self (set_printer_device_map (Some []) (self w)) w) with
            | (Ok _, w') => (Ok (_anycubic_printers (self w)), w')
            | (Raise e, w') => (Raise e, w')
            end
        end
    end.
Proof.
  unfold publish, _build_coordinator_data, _register_printer_devices.
  unfold bind at 1. unfold bind at 1. unfold anycubic_api at 1. unfold bind at 1.
  cbn [get_self].
  destruct (_anycubic_api (self w)); [|reflexivity].
  cbn [ret]. unfold bind at 1. cbn [get_self ret]. unfold bind at 1. cbn [get_self].
  unfold bind at 1.
  destruct (_printer_device_map (self w)); [reflexivity|].
  unfold bind at 1. cbn [modify_self]. unfold bind at 1. cbn [ask].
  change (fun printer_id : Z => _) with register_device.
  destruct (for_each _ register_device env _) as [[[]|e] w']; reflexivity.
Qed.

Section DeviceRegistration.

Variable MQTT_ACTION_RESPONSE_ALIVE_SECONDS : Z.
Variable MQTT_IDLE_DISCONNECT_SECONDS : Z.
Variable MAX_FAILED_UPDATES : Z.
Variable FAILED_UPDATE_DELAY : Z.
Variable DEFAULT_SCAN_INTERVAL : Z.

Local Abbreviation get_anycubic_updates' :=
  (get_anycubic_updates MQTT_ACTION_RESPONSE_ALIVE_SECONDS MQTT_IDLE_DISCONNECT_SECONDS
     MAX_FAILED_UPDATES FAILED_UPDATE_DELAY).
Local Abbreviation _async_update_data' :=
  (_async_update_data MQTT_ACTION_RESPONSE_ALIVE_SECONDS MQTT_IDLE_DISCONNECT_SECONDS
     MAX_FAILED_UPDATES FAILED_UPDATE_DELAY DEFAULT_SCAN_INTERVAL).

(** [_async_update_data] goes straight to the publication, or through
    [get_anycubic_updates] first; deciding which writes nothing. *)
Lemma async_update_data_unfold env w :
  exists w0,
    untouched w w0
    /\ (_async_update_data' env w = publish env w0
        \/ _async_update_data' env w
           = match get_anycubic_updates' env w0 with
             | (Ok _, w1) => publish env w1
             | (Raise e, w1) => (Raise e, w1)
             end).
Proof.
  unfold _async_update_data. fold publish.
  cbv [bind get_self or_else falsy time_time ret default from_option id].
  destruct (_last_state_update (self w)) as [last_update|].
  - destruct (last_update =? 0).
    + exists w. split; [done|]. right.
      destruct (get_anycubic_updates' env w) as [[b|e] w1]; reflexivity.
    + destruct (last_update + DEFAULT_SCAN_INTERVAL <? time_at env (clock w)).
      * exists (tick w). split; [done|]. right.
        destruct (get_anycubic_updates' env (tick w)) as [[b|e] w1]; reflexivity.
      * exists (tick w). split; [done|]. by left.
  - exists w. split; [done|]. right.
    destruct (get_anycubic_updates' env w) as [[b|e] w1]; reflexivity.
Qed.

(** [get_anycubic_updates] registers no device and leaves the device map
    as it was. *)
Lemma get_anycubic_updates_registers_nothing :
  preserves (silent is_register_device) get_anycubic_updates'.
Proof.
  unfold get_anycubic_updates, _check_or_save_tokens, update_printer,
    increment_failed_updates.
  repeat (cbv beta; frame_step);
    first [ apply silent_record; reflexivity | reflexivity ].
Qed.

Lemma get_anycubic_updates_keeps_device_map :
  preserves (keeps _printer_device_map) get_anycubic_updates'.
Proof.
  unfold get_anycubic_updates, _check_or_save_tokens, update_printer,
    increment_failed_updates.
  repeat (cbv beta; frame_step); reflexivity.
Qed.

(** The devices are registered once. While the device map is set,
    [_async_update_data] registers no device and leaves the map as it is,
    whatever else it does. While it is not set, an [_async_update_data]
    that returns has registered one device for each configured printer id,
    in the configured order, has set the map, and returns the printers as
    the coordinator holds them after the update. *)
Theorem devices_registered_once (env : Env) (w : World) :
  (forall device_map,
     _printer_device_map (self w) = Some device_map ->
     registrations (trace (snd (_async_update_data' env w))) = registrations (trace w)
     /\ _printer_device_map (self (snd (_async_update_data' env w))) = Some device_map)
  /\ (forall data w',
        _printer_device_map (self w) = None ->
        _async_update_data' env w = (Ok data, w') ->
        registrations (trace w')
        = registrations (trace w) ++ registered (CONF_PRINTER_ID_LIST env)
        /\ (exists device_map, _printer_device_map (self w') = Some device_map)
        /\ data = _anycubic_printers (self w')).
Proof.
  destruct (async_update_data_unfold env w) as (w0 & (Hs0 & _ & Ht0) & Hrun).
  pose proof (get_anycubic_updates_registers_nothing env w0) as Hsilent.
  pose proof (get_anycubic_updates_keeps_device_map env w0) as Hkeep.
  unfold silent, keeps in *. fold (registrations (trace w0)) in Hsilent.
  assert (forall w1,
            registrations (trace w1) = registrations (trace w) ->
            _printer_device_map (self w1) = _printer_device_map (self w) ->
            (forall device_map,
               _printer_device_map (self w) = Some device_map ->
               registrations (trace (snd (publish env w1))) = registrations (trace w)
               /\ _printer_device_map (self (snd (publish env w1))) = Some device_map)
            /\ (forall data w',
                  _printer_device_map (self w) = None ->
                  publish env w1 = (Ok data, w') ->
                  registrations (trace w')
                  = registrations (trace w) ++ registered (CONF_PRINTER_ID_LIST env)
                  /\ (exists device_map, _printer_device_map (self w') = Some device_map)
                  /\ data = _anycubic_printers (self w'))) as Hpublish.
  { intros w1 Ht1 Hm1. rewrite publish_unfold. split.
    - intros device_map Hmap. rewrite Hmap in Hm1.
      destruct (_anycubic_api (self w1)); [|done]. by rewrite Hm1.
    - intros data w' Hmap. rewrite Hmap in Hm1.
      destruct (_anycubic_api (self w1)); [|discriminate]. rewrite Hm1.
      destruct (register_loop_returns env (CONF_PRINTER_ID_LIST env)
                  (with_self (set_printer_device_map (Some []) (self w1)) w1))
        as (w2 & Hloop & Ht2 & Hp2 & Hm2).
      rewrite Hloop. intros [= <- <-]. cbn in Ht2, Hp2, Hm2.
      split; [|split].
      + rewrite Ht2. unfold registrations in *. rewrite filter_app.
        f_equal; [exact Ht1 | apply registrations_registered].
      + eexists. by apply Hm2.
      + by rewrite Hp2. }
  destruct Hrun as [Hrun|Hrun]; rewrite Hrun.
  - apply Hpublish; [by rewrite Ht0 | by rewrite Hs0].
  - destruct (get_anycubic_updates' env w0) as [[b|e] w1]; cbn [snd] in *.
    + apply Hpublish; [by etrans; [exact Hsilent | rewrite Ht0] | by rewrite Hkeep, Hs0].
    + split.
      * intros device_map Hmap. cbn [snd]. rewrite Hkeep, Hs0.
        split; [by etrans; [exact Hsilent | rewrite Ht0] | done].
      * intros data w' _. discriminate.
Qed.

End DeviceRegistration.

(** * Concrete runs, continued *)

Lemma idle_eligible_excludes_active_witness :
  fst (_check_mqtt_connection_modes_active 180 (env_at 1000) idle_fleet_world) = Ok false.
Proof.
  apply (idle_eligible_excludes_active 180 (env_at 1000) idle_fleet_world).
  reflexivity.
Defined.

(** An open channel in the mode Always, the only printer idle and offline
    for a long time. *)
Definition always_open_world : World :=
  world_of (set_mqtt_idle_since (Some 0)
              (coordinator_of (Some (api_of true true)) [(1, printer_of false false)]
                 Always false None (Some 7%nat) 0 None)).

Lemma no_idle_stop_in_always_or_never_connect_witness :
  fst (_anycubic_mqtt_connection_should_stop 180 900 (env_at 5000) always_open_world)
  = Ok (mqtt_is_started (api_of true true) && is_stopping (hass always_open_world)).
Proof.
  apply (no_idle_stop_in_always_or_never_connect 180 900 (env_at 5000) always_open_world
           (api_of true true)); [by left | reflexivity].
Defined.

(** The same world on a host that is stopping. *)
Definition on_stopping_host (w : World) : World :=
  {| self := self w; hass := {| is_stopping := true; state := state (hass w) |};
     clock := clock w; trace := trace w |}.

(** An open channel with the manual override set, the only printer idle
    since instant 0, in Printing_Only mode. *)
Definition manual_world : World :=
  world_of (set_mqtt_idle_since (Some 0)
              (coordinator_of (Some (api_of true true)) [(1, printer_of false true)]
                 Printing_Only true None (Some 7%nat) 0 None)).

Lemma manual_override_yields_to_shutdown_only_witness :
  _anycubic_mqtt_connection_should_stop 180 900 (env_at 5000) (on_stopping_host manual_world)
  = (Ok true, on_stopping_host manual_world)
  /\ fst (_anycubic_mqtt_connection_should_stop 180 900 (env_at 5000) manual_world)
     = Ok false.
Proof.
  split.
  - apply (proj1 (manual_override_yields_to_shutdown_only 180 900 (env_at 5000)
                    (on_stopping_host manual_world) (api_of true true) eq_refl eq_refl)).
    reflexivity.
  - apply (proj2 (manual_override_yields_to_shutdown_only 180 900 (env_at 5000)
                    manual_world (api_of true true) eq_refl eq_refl));
      reflexivity.
Defined.

(** A busy printer and a channel that is not started, while the task slot
    still holds a task. *)
Definition pending_task_world : World :=
  world_of (coordinator_of (Some (api_of false true)) [(1, printer_of true true)]
              Printing_Only false None (Some 7%nat) 0 None).

Lemma check_connection_spawns_no_second_task_witness :
  filter is_connect
    (trace (snd (_check_anycubic_mqtt_connection 180 900 false (env_at 1000)
                   pending_task_world)))
  = filter is_connect (trace pending_task_world).
Proof.
  apply (check_connection_spawns_no_second_task 180 900 false (env_at 1000)
           pending_task_world 7%nat).
  reflexivity.
Defined.

Lemma check_connection_starts_witness :
  exists w',
    _check_anycubic_mqtt_connection 180 900 false (env_at 1000) (busy_world true)
    = (Ok tt, w')
    /\ trace w' = trace (busy_world true)
                    ++ subscribed (_anycubic_printers (self (busy_world true)))
                    ++ [logger_debug; connect_mqtt 7]
    /\ _mqtt_task (self w') = Some 7%nat.
Proof.
  apply (check_connection_starts 180 900 false (env_at 1000) (busy_world true));
    [reflexivity | reflexivity | repeat constructor].
Defined.

Lemma action_never_stops_the_channel_witness :
  _mqtt_last_action
    (self (snd (_connect_mqtt_for_action_response 180 900 (env_at 1000) idle_fleet_world)))
  = Some 1000
  /\ filter is_stop_request
       (trace (snd (_connect_mqtt_for_action_response 180 900 (env_at 1000)
                      idle_fleet_world)))
     = filter is_stop_request (trace idle_fleet_world)
  /\ (fst (_connect_mqtt_for_action_response 180 900 (env_at 1000) idle_fleet_world)
      = Ok tt ->
      mqtt_wait_for_connect_result (env_at 1000) = Ok true).
Proof.
  apply (action_never_stops_the_channel 180 900 (env_at 1000) idle_fleet_world 1000);
    [lia | intros k; reflexivity | reflexivity].
Defined.

(** Three printers in Never_Connect mode, last polled at instant 900. *)
Definition three_printer_world : World :=
  world_of (coordinator_of (Some (api_of false true))
              [(1, printer_of false true); (2, printer_of false true);
               (3, printer_of false true)]
              Never_Connect false None None 0 (Some 900)).

Lemma successful_update_polls_every_printer_once_witness :
  polls (trace (snd (get_anycubic_updates 180 900 3 60 (env_at 1000) three_printer_world)))
  = polls (trace three_printer_world)
      ++ check_api_tokens :: polled (_anycubic_printers (self three_printer_world)).
Proof.
  apply (successful_update_polls_every_printer_once 180 900 3 60 (env_at 1000)
           three_printer_world).
  reflexivity.
Defined.

(** The poll of printer 2 raises an error of the API; every other
    request succeeds. *)
Definition poll_2_raises : Env :=
  {| time_at := fun _ => 1000;
     check_api_tokens_result := Ok true;
     tokens_changed := false;
     store_async_save_result := Ok tt;
     update_info_from_api_result := fun printer_id =>
       if printer_id =? 2 then Raise AnycubicAPIError else Ok (printer_of false true);
     mqtt_add_subscribed_printer_result := fun _ => Ok tt;
     async_add_executor_job_connect := 7%nat;
     mqtt_unsubscribe_printer_status_result := fun _ => Ok tt;
     disconnect_mqtt_result := Ok tt;
     mqtt_wait_for_disconnect_result := Ok tt;
     mqtt_wait_for_connect_result := Ok true;
     mqtt_task_done := false;
     CONF_PRINTER_ID_LIST := [1; 2; 3] |}.

Lemma update_stops_at_first_failed_poll_witness :
  exists w',
    get_anycubic_updates 180 900 3 60 poll_2_raises three_printer_world
    = (Raise (UpdateFailed AnycubicAPIError), w')
    /\ polls (trace w')
       = polls (trace three_printer_world)
           ++ check_api_tokens :: polled [(1, printer_of false true)]
           ++ [update_info_from_api 2]
    /\ _failed_updates (self w') = _failed_updates (self three_printer_world) + 1.
Proof.
  apply (update_stops_at_first_failed_poll 180 900 3 60 poll_2_raises three_printer_world
           (api_of false true) [(1, printer_of false true)] [(3, printer_of false true)]
           2 (printer_of false true) AnycubicAPIError);
    try reflexivity.
  - repeat constructor. by exists (printer_of false true).
  - split; discriminate.
Defined.

(** A descriptor that names no entity type. *)
Definition untyped : AnycubicCloudEntityDescription :=
  {| key := "untyped"; printer_entity_type := None |}.

(** The inner loop for printer 1 under the exclusion predicates of
    [example_run]. *)
Definition example_descriptors (descriptions : list AnycubicCloudEntityDescription)
  : Res (list AnycubicCloudEntityDescription * list Entity) :=
  evaluate_descriptors unit
    (fun d material_type => has_type d 2 && negb (String.eqb material_type "Resin"))
    (fun d material_type => has_type d 4 && negb (String.eqb material_type "Filament"))
    (fun d supports_ace => has_type d 3 && negb supports_ace)
    (fun d supports_ace units => has_type d 3 && supports_ace && (units <? 1))
    (fun d supports_ace units => false)
    (fun d supports_ace units options => false)
    fdm_without_ace_unit 1 "Filament" descriptions [] [].

Lemma evaluate_descriptors_partitions_witness :
  example_descriptors [fw_version; job_current_layer; ace_spools]
  = Ok ([ace_spools], [(1, fw_version)])
  /\ example_descriptors [fw_version; untyped; ace_spools] = Raise ConfigEntryError.
Proof.
  split.
  - apply (proj1 (evaluate_descriptors_partitions unit
                    (fun d material_type =>
                       has_type d 2 && negb (String.eqb material_type "Resin"))
                    (fun d material_type =>
                       has_type d 4 && negb (String.eqb material_type "Filament"))
                    (fun d supports_ace => has_type d 3 && negb supports_ace)
                    (fun d supports_ace units =>
                       has_type d 3 && supports_ace && (units <? 1))
                    (fun d supports_ace units => false)
                    (fun d supports_ace units options => false)
                    fdm_without_ace_unit 1 "Filament"
                    [fw_version; job_current_layer; ace_spools] [])).
    reflexivity.
  - apply (proj2 (evaluate_descriptors_partitions unit
                    (fun d material_type =>
                       has_type d 2 && negb (String.eqb material_type "Resin"))
                    (fun d material_type =>
                       has_type d 4 && negb (String.eqb material_type "Filament"))
                    (fun d supports_ace => has_type d 3 && negb supports_ace)
                    (fun d supports_ace units =>
                       has_type d 3 && supports_ace && (units <? 1))
                    (fun d supports_ace units => false)
                    (fun d supports_ace units options => false)
                    fdm_without_ace_unit 1 "Filament"
                    [fw_version; untyped; ace_spools] [])).
    reflexivity.
Defined.

(** [add_entities_for_seen_printers] for two printers on the sensor
    platform, under the same predicates. *)
Definition example_seen (available : list AnycubicCloudEntityDescription)
  : Res (list Entity) :=
  fst (add_entities_for_seen_printers unit
         (fun d material_type => has_type d 2 && negb (String.eqb material_type "Resin"))
         (fun d material_type => has_type d 4 && negb (String.eqb material_type "Filament"))
         (fun d supports_ace => has_type d 3 && negb supports_ace)
         (fun d supports_ace units => has_type d 3 && supports_ace && (units <? 1))
         (fun d supports_ace units => false)
         (fun d supports_ace units options => false)
         fdm_without_ace_unit "sensor" available [1; 2] ∅).

Lemma add_entities_delivers_promotable_witness :
  example_seen [fw_version; job_current_layer; ace_spools]
  = Ok [(1, fw_version); (2, fw_version)].
Proof.
  apply (add_entities_delivers_promotable unit
           (fun d material_type => has_type d 2 && negb (String.eqb material_type "Resin"))
           (fun d material_type => has_type d 4 && negb (String.eqb material_type "Filament"))
           (fun d supports_ace => has_type d 3 && negb supports_ace)
           (fun d supports_ace units => has_type d 3 && supports_ace && (units <? 1))
           (fun d supports_ace units => false)
           (fun d supports_ace units options => false)
           fdm_without_ace_unit "sensor" [fw_version; job_current_layer; ace_spools]
           [1; 2] ∅).
  - apply (bool_decide_unpack _). vm_compute. reflexivity.
  - intros printer_id _. exists "Filament"%string. split; reflexivity.
Defined.

(** ** Set-up *)

(** A coordinator as [__init__] leaves it. *)
Definition blank_coordinator : Coordinator :=
  coordinator_of None [] Printing_Only false None None 0 None.

(** Every collaborator answers. *)
Definition answers_ok : SetupAnswers :=
  {| user_token := true;
     create_api := Ok (api_of false true);
     configure_api := Ok tt;
     setup_check_api_tokens := Ok true;
     setup_store_async_save := Ok tt;
     printer_info_for_id := fun _ => Ok (Some (printer_of false true)) |}.

(** The credential check raises a parsing error of the API. *)
Definition answers_parsing_error : SetupAnswers :=
  {| user_token := true;
     create_api := Ok (api_of false true);
     configure_api := Ok tt;
     setup_check_api_tokens := Raise AnycubicAPIParsingError;
     setup_store_async_save := Ok tt;
     printer_info_for_id := fun _ => Ok (Some (printer_of false true)) |}.

(** The first attempt meets a parsing error, the later ones succeed. *)
Definition flaky_answers (attempt : nat) : SetupAnswers :=
  match attempt with
  | O => answers_parsing_error
  | S _ => answers_ok
  end.

Lemma setup_printer_objects_outcome_witness :
  loaded answers_ok
    (snd (_setup_anycubic_printer_objects answers_ok [1; 2]
            (set_anycubic_api (Some (api_of false true)) blank_coordinator)))
    2.
Proof.
  apply (proj2 (proj2 (setup_printer_objects_outcome answers_ok [1; 2]
                  (set_anycubic_api (Some (api_of false true)) blank_coordinator)))
           _ eq_refl).
  right. by left.
Defined.

Lemma async_setup_outcome_witness :
  exists r c',
    _async_setup 2 flaky_answers [1; 2] blank_coordinator = Some (r, c')
    /\ (forall e, r = Raise e ->
          e = ConfigEntryAuthFailed \/ e = ConfigEntryError \/ e = CancelledError)
    /\ (r = Ok tt ->
          (exists api, _anycubic_api c' = Some api)
          /\ exists attempt,
               (Z.of_nat attempt <= 2)
               /\ forall printer_id, In printer_id [1; 2] ->
                    loaded (flaky_answers attempt) c' printer_id).
Proof.
  apply (async_setup_outcome 2 flaky_answers [1; 2] blank_coordinator). lia.
Defined.

Lemma async_setup_retries_on_parsing_errors_witness :
  (exists c0,
     _async_setup 2 flaky_answers [1; 2] blank_coordinator
     = Some (setup_attempt (flaky_answers 1) [1; 2] c0))
  /\ (exists c',
        _async_setup 2 (fun _ => answers_parsing_error) [1; 2] blank_coordinator
        = Some (Raise ConfigEntryError, c')).
Proof.
  split.
  - apply (proj1 (async_setup_retries_on_parsing_errors 2 flaky_answers [1; 2]
                    blank_coordinator) 1%nat).
    + lia.
    + intros j Hj c. replace j with 0%nat by lia. reflexivity.
    + intros c. cbn. discriminate.
  - apply (proj2 (async_setup_retries_on_parsing_errors 2 (fun _ => answers_parsing_error)
                    [1; 2] blank_coordinator)).
    + lia.
    + intros j _ c. reflexivity.
Defined.

(** ** Device registration *)

(** One printer, never polled, no device registered yet. *)
Definition unregistered_world : World :=
  world_of (set_printer_device_map None
              (coordinator_of (Some (api_of false true)) [(1, printer_of false true)]
                 Never_Connect false None None 0 None)).

Definition first_update : Res (list (Z * AnycubicPrinter)) * World :=
  _async_update_data 180 900 3 60 30 (env_at 1000) unregistered_world.

Lemma devices_registered_once_witness :
  registrations (trace (snd first_update))
  = registrations (trace unregistered_world) ++ registered [1]
  /\ registrations
       (trace (snd (_async_update_data 180 900 3 60 30 (env_at 1000) (snd first_update))))
     = registrations (trace (snd first_update)).
Proof.
  split.
  - apply (proj2 (devices_registered_once 180 900 3 60 30 (env_at 1000) unregistered_world)
             [(1, printer_of false true)] (snd first_update) eq_refl eq_refl).
  - apply (proj1 (devices_registered_once 180 900 3 60 30 (env_at 1000) (snd first_update))
             [1] eq_refl).
Defined.
